(** * CargoConnect shipment-tracking backend: shallow embedding and properties

    The development follows [main.py] and [schemas.py].  Python values are
    modelled as they appear in the code: documents are dictionaries
    ([gmap string value]), the [shipment] collection is the sequence of its
    documents in insertion order, handlers run in a small state-and-exception
    monad over the collaborators they touch (document store, clock, file
    system, mail transport). *)

From Stdlib Require Import ZArith String Ascii List Lia Bool.
From Stdlib Require Import Floats.SpecFloat.
From Stdlib Require Import Init.Byte.
From stdpp Require Import base gmap strings list fin_maps sorting.

#[local] Set Warnings "-register-all".
#[local] Open Scope string_scope.
#[local] Open Scope list_scope.
#[local] Open Scope Z_scope.

(** ** Python built-ins used by the handlers *)

Module Py.

(** One decimal digit as a character. *)
Definition digit_char (d : Z) : ascii :=
  ascii_of_nat (48 + Z.to_nat (d mod 10)).

(** Digits of a non-negative integer, most significant first, pushed in
    front of [acc]. *)
Fixpoint digits_onto (fuel : nat) (n : Z) (acc : string) : string :=
  match fuel with
  | O => acc
  | S fuel' =>
      let acc' := String (digit_char n) acc in
      if n / 10 =? 0 then acc' else digits_onto fuel' (n / 10) acc'
  end.

(** [str(n)] for a Python [int]. *)
Definition str_int (n : Z) : string :=
  if n <? 0
  then String "-" (digits_onto (S (Z.to_nat (Z.log2 (- n)))) (- n) EmptyString)
  else digits_onto (S (Z.to_nat (Z.log2 n))) n EmptyString.

(** [s[-k:]]: the last [k] characters, the whole string when it is
    shorter. *)
Fixpoint drop_chars (n : nat) (s : string) : string :=
  match n, s with
  | O, _ => s
  | S n', String _ s' => drop_chars n' s'
  | S _, EmptyString => EmptyString
  end.

Definition slice_last (k : nat) (s : string) : string :=
  drop_chars (String.length s - k) s.

(** [f"{n:0kd}"] for a non-negative [n]: zero padding on the left up to
    width [k]; longer renderings are kept whole. *)
Fixpoint zeros (k : nat) : string :=
  match k with O => EmptyString | S k' => String "0" (zeros k') end.

Definition zfill (k : nat) (s : string) : string :=
  zeros (k - String.length s) +:+ s.

(** [if s:] on a string. *)
Definition truthy_str (s : string) : bool :=
  negb (String.eqb s EmptyString).

Definition is_digit (c : ascii) : bool :=
  let n := nat_of_ascii c in (48 <=? n)%nat && (n <=? 57)%nat.

Definition is_space (c : ascii) : bool :=
  let n := nat_of_ascii c in
  (n =? 32)%nat || ((9 <=? n)%nat && (n <=? 13)%nat).

Fixpoint all_digits (s : string) : bool :=
  match s with
  | EmptyString => true
  | String c s' => is_digit c && all_digits s'
  end.

(** [int(s)] on text: surrounding white space, an optional sign, then
    decimal digits where single underscores may separate digit groups.
    [None] stands for [ValueError]. *)
Fixpoint lstrip (s : string) : string :=
  match s with
  | String c s' => if is_space c then lstrip s' else s
  | EmptyString => EmptyString
  end.

Fixpoint rev_onto (s acc : string) : string :=
  match s with
  | EmptyString => acc
  | String c s' => rev_onto s' (String c acc)
  end.

Definition strip (s : string) : string :=
  rev_onto (lstrip (rev_onto (lstrip s) EmptyString)) EmptyString.

(** [prev_digit] records whether the previous character was a digit, so
    that an underscore is accepted only between two digits. *)
Fixpoint int_digits (s : string) (prev_digit : bool) (acc : Z) : option Z :=
  match s with
  | EmptyString => if prev_digit then Some acc else None
  | String c s' =>
      if is_digit c
      then int_digits s' true (10 * acc + Z.of_nat (nat_of_ascii c - 48))
      else if (nat_of_ascii c =? 95)%nat && prev_digit
           then match s' with
                | String c' _ => if is_digit c' then int_digits s' false acc else None
                | EmptyString => None
                end
           else None
  end.

Definition int_of_str (s : string) : option Z :=
  match strip s with
  | String "-" s' => Z.opp <$> int_digits s' false 0
  | String "+" s' => int_digits s' false 0
  | s' => int_digits s' false 0
  end.

(** Text is held as the bytes of its UTF-8 encoding.  [is_ascii]: every
    character is below U+0080. *)
Fixpoint is_ascii (s : string) : bool :=
  match s with
  | EmptyString => true
  | String c s' => (nat_of_ascii c <? 128)%nat && is_ascii s'
  end.

(** [c in s] for one character [c] below U+0080. *)
Fixpoint contains (c : ascii) (s : string) : bool :=
  match s with
  | EmptyString => false
  | String c' s' => Ascii.eqb c c' || contains c s'
  end.

(** [s.partition(c)]: the text before the first [c] and the text after
    it; [None] when [c] is not in [s]. *)
Fixpoint partition (c : ascii) (s : string) : option (string * string) :=
  match s with
  | EmptyString => None
  | String c' s' =>
      if Ascii.eqb c c' then Some (EmptyString, s')
      else
        match partition c s' with
        | Some (head, rest) => Some (String c' head, rest)
        | None => None
        end
  end.

Fixpoint all_chars (c : ascii) (s : string) : bool :=
  match s with
  | EmptyString => true
  | String c' s' => Ascii.eqb c c' && all_chars c s'
  end.

(** The line boundaries of [str.splitlines]: [\n], [\r], [\r\n], [\v],
    [\f], [\x1c], [\x1d], [\x1e], [\x85], [\u2028] and [\u2029].  The
    number of bytes of the boundary that [s] starts with, if it starts with
    one. *)
Definition line_boundary (s : string) : option nat :=
  match s with
  | EmptyString => None
  | String c rest =>
      let n := nat_of_ascii c in
      if (n =? 13)%nat
      then match rest with
           | String d _ => if (nat_of_ascii d =? 10)%nat then Some 2%nat else Some 1%nat
           | EmptyString => Some 1%nat
           end
      else if (n =? 10)%nat || (n =? 11)%nat || (n =? 12)%nat
              || (n =? 28)%nat || (n =? 29)%nat || (n =? 30)%nat
      then Some 1%nat
      else if (n =? 194)%nat
      then match rest with
           | String d _ => if (nat_of_ascii d =? 133)%nat then Some 2%nat else None
           | EmptyString => None
           end
      else if (n =? 226)%nat
      then match rest with
           | String d (String e _) =>
               if (nat_of_ascii d =? 128)%nat
                  && ((nat_of_ascii e =? 168)%nat || (nat_of_ascii e =? 169)%nat)
               then Some 3%nat else None
           | _ => None
           end
      else None
  end.

(** [s.splitlines()].  [skip] counts the bytes of a boundary that are
    still to be passed over, [line] is the line read so far. *)
Fixpoint splitlines_from (s : string) (skip : nat) (line : string) : list string :=
  match s with
  | EmptyString => if String.eqb line EmptyString then [] else [line]
  | String c s' =>
      match skip with
      | S k => splitlines_from s' k line
      | O =>
          match line_boundary s with
          | Some n => line :: splitlines_from s' (n - 1) EmptyString
          | None => splitlines_from s' 0 (line +:+ String c EmptyString)
          end
      end
  end.

Definition splitlines (s : string) : list string := splitlines_from s 0 EmptyString.

(** ** Floats from integers

    [a / b] on two [int]s is the double nearest to the exact quotient
    (CPython rounds once, to 53 bits, ties to even).  A double is kept as
    its mantissa and binary exponent, [(m, e)] for [m * 2^e]. *)

(** [a / b] rounded to the nearest integer, ties to the even one; [0 < b]. *)
Definition div_half_even (a b : Z) : Z :=
  let q := a / b in
  let r := a mod b in
  if 2 * r <? b then q
  else if b <? 2 * r then q + 1
  else if Z.even q then q else q + 1.

(** [0 < a] and [0 < b], the quotient within the range of normal doubles:
    [j] is the binary exponent of the quotient, [2^j <= a / b < 2^(j+1)],
    and the mantissa holds the 53 bits from there down. *)
Definition truediv_pos (a b : Z) : Z * Z :=
  let k := Z.log2 b + 1 in
  let j := Z.log2 (a * 2 ^ k / b) - k in
  let e := j - 52 in
  (if e <? 0 then div_half_even (a * 2 ^ (- e)) b else div_half_even a (b * 2 ^ e), e).

Definition truediv (a b : Z) : Z * Z :=
  if a =? 0 then (0, 0)
  else if a <? 0 then let '(m, e) := truediv_pos (- a) b in (- m, e)
  else truediv_pos a b.

(** [int(x)] on a double: truncation towards zero. *)
Definition int_of_double (x : Z * Z) : Z :=
  let '(m, e) := x in
  if e <? 0 then Z.quot m (2 ^ (- e)) else m * 2 ^ e.

End Py.

(** ** [datetime]

    An aware UTC [datetime] is the instant it denotes, in microseconds since
    1970-01-01T00:00:00+00:00.  Calendar fields are recovered the way
    CPython's [datetime] does ([_ord2ymd]). *)

Module Datetime.

Definition datetime := Z.

Definition _DI400Y : Z := 146097.
Definition _DI100Y : Z := 36524.
Definition _DI4Y : Z := 1461.
Definition EPOCH_ORDINAL : Z := 719163.
Definition US_PER_SECOND : Z := 1000000.
Definition US_PER_DAY : Z := 86400 * US_PER_SECOND.

(** [datetime.min] and [datetime.max] as instants. *)
Definition MIN : datetime := (1 - EPOCH_ORDINAL) * US_PER_DAY.
Definition MAX : datetime := (3652059 - EPOCH_ORDINAL + 1) * US_PER_DAY - 1.

(** [_DAYS_BEFORE_MONTH[month]] and [_DAYS_IN_MONTH[month]]. *)
Definition _DAYS_IN_MONTH (month : Z) : Z :=
  nth (Z.to_nat month) [0; 31; 28; 31; 30; 31; 30; 31; 31; 30; 31; 30; 31] 0.

Definition _DAYS_BEFORE_MONTH (month : Z) : Z :=
  nth (Z.to_nat month) [0; 0; 31; 59; 90; 120; 151; 181; 212; 243; 273; 304; 334] 0.

Definition Z_of_bool (b : bool) : Z := if b then 1 else 0.

(** Month and day from the zero-based day of the year. *)
Definition month_day (n : Z) (leapyear : bool) : Z * Z :=
  let month := Z.shiftr (n + 50) 5 in
  let preceding := _DAYS_BEFORE_MONTH month + Z_of_bool ((2 <? month) && leapyear) in
  if n <? preceding
  then
    let month' := month - 1 in
    let preceding' :=
      preceding - (_DAYS_IN_MONTH month' + Z_of_bool ((month' =? 2) && leapyear)) in
    (month', n - preceding' + 1)
  else (month, n - preceding + 1).

(** [_ord2ymd]: proleptic Gregorian ordinal to (year, month, day). *)
Definition _ord2ymd (ordinal : Z) : Z * Z * Z :=
  let n := ordinal - 1 in
  let n400 := n / _DI400Y in
  let n := n mod _DI400Y in
  let year := n400 * 400 + 1 in
  let n100 := n / _DI100Y in
  let n := n mod _DI100Y in
  let n4 := n / _DI4Y in
  let n := n mod _DI4Y in
  let n1 := n / 365 in
  let n := n mod 365 in
  let year := year + n100 * 100 + n4 * 4 + n1 in
  if (n1 =? 4) || (n100 =? 4)
  then (year - 1, 12, 31)
  else
    let leapyear := (n1 =? 3) && (negb (n4 =? 24) || (n100 =? 3)) in
    let '(month, day) := month_day n leapyear in
    (year, month, day).

Definition toordinal (t : datetime) : Z := t / US_PER_DAY + EPOCH_ORDINAL.
Definition year (t : datetime) : Z := fst (fst (_ord2ymd (toordinal t))).
Definition month (t : datetime) : Z := snd (fst (_ord2ymd (toordinal t))).
Definition day (t : datetime) : Z := snd (_ord2ymd (toordinal t)).
Definition hour (t : datetime) : Z := (t mod US_PER_DAY) / (3600 * US_PER_SECOND).
Definition minute (t : datetime) : Z := (t mod (3600 * US_PER_SECOND)) / (60 * US_PER_SECOND).
Definition second (t : datetime) : Z := (t mod (60 * US_PER_SECOND)) / US_PER_SECOND.
Definition microsecond (t : datetime) : Z := t mod US_PER_SECOND.

(** [t.timestamp()] for an aware datetime: [(t - epoch).total_seconds()],
    the microseconds since the epoch divided by [10**6], as a double. *)
Definition timestamp (t : datetime) : Z * Z := Py.truediv t US_PER_SECOND.

(** [int(t.timestamp())]. *)
Definition int_timestamp (t : datetime) : Z := Py.int_of_double (timestamp t).

Definition pad (k : nat) (n : Z) : string := Py.zfill k (Py.str_int n).

(** [t.strftime('%Y%m%d')]. *)
Definition strftime_Ymd (t : datetime) : string :=
  pad 4 (year t) +:+ pad 2 (month t) +:+ pad 2 (day t).

(** [t.isoformat()] for an aware UTC datetime. *)
Definition isoformat (t : datetime) : string :=
  pad 4 (year t) +:+ "-" +:+ pad 2 (month t) +:+ "-" +:+ pad 2 (day t) +:+ "T"
    +:+ pad 2 (hour t) +:+ ":" +:+ pad 2 (minute t) +:+ ":" +:+ pad 2 (second t)
    +:+ (if microsecond t =? 0 then EmptyString else "." +:+ pad 6 (microsecond t))
    +:+ "+00:00".

(** [timedelta] is a duration in microseconds. *)
Definition timedelta := Z.
Definition timedelta_minutes (m : Z) : timedelta := m * 60 * US_PER_SECOND.

(** [t + delta]; [None] stands for [OverflowError]. *)
Definition add (t : datetime) (delta : timedelta) : option datetime :=
  let t' := t + delta in
  if (MIN <=? t') && (t' <=? MAX) then Some t' else None.

End Datetime.

Abbreviation datetime := Datetime.datetime.


(** ** Values and documents

    What the handlers put into dictionaries: [None], text, floats, booleans,
    datetimes, object ids, lists and nested dictionaries. *)

Inductive value :=
  | VNone
  | VStr (s : string)
  | VFloat (x : spec_float)
  | VBool (b : bool)
  | VDatetime (t : datetime)
  | VObjectId (oid : nat)
  | VList (items : list value)
  | VDict (fields : gmap string value).

Abbreviation dict := (gmap string value).

(** [bool(d)] for a dictionary or [None]: [if not doc]. *)
Definition truthy_doc (doc : option dict) : bool :=
  match doc with
  | None => false
  | Some d => negb (Nat.eqb (size d) 0)
  end.

(** [bool(s)] for [Optional[str]]. *)
Definition truthy_opt_str (s : option string) : bool :=
  match s with
  | None => false
  | Some s => Py.truthy_str s
  end.

(** [str(oid)] for an [ObjectId]. *)
Definition str_ObjectId (oid : nat) : string :=
  Py.zfill 24 (Py.str_int (Z.of_nat oid)).

(** Text put into an f-string by [{doc.get(key)}].  Text values render as
    themselves and a missing value as [None]; the other kinds are not
    rendered in detail. *)
Definition format_value (v : option value) : string :=
  match v with
  | None | Some VNone => "None"
  | Some (VStr s) => s
  | Some (VBool true) => "True"
  | Some (VBool false) => "False"
  | Some (VObjectId oid) => str_ObjectId oid
  | Some (VDatetime _) => "<datetime>"
  | Some (VFloat _) => "<float>"
  | Some (VList _) => "<list>"
  | Some (VDict _) => "<dict>"
  end.

(** ** The document store *)

Module Collection.

(** Modelled from the spec: [database.py], which supplies [db], is not
    among the sources.  The spec names the collaborator as "a document
    store offering insert/find/find-one/update-one by filter" over "one
    logical collection of Shipment documents keyed by a server-generated
    identifier".  A collection is the sequence of its documents in
    insertion order; the server-generated [_id] of a document is its
    position, so identifiers are unique and never reused (nothing deletes
    documents).  Values are returned as they were stored. *)
Abbreviation t := (list dict).

(** The document as a reader sees it: the stored fields with its [_id]. *)
Definition document (oid : nat) (fields : dict) : dict :=
  <["_id" := VObjectId oid]> fields.

(** An equality filter [{key: text}]: the field holds that text, or a
    list containing it. *)
Definition is_text (text : string) (v : value) : bool :=
  match v with
  | VStr s => String.eqb s text
  | _ => false
  end.

Definition field_matches (key text : string) (fields : dict) : bool :=
  match fields !! key with
  | Some (VList items) => existsb (is_text text) items
  | Some v => is_text text v
  | None => false
  end.

(** Position of the first document matching [{key: text}]. *)
Definition find_index (key text : string) (c : t) : option nat :=
  fst <$> list_find (λ fields, field_matches key text fields = true) c.

(** [find_one({key: text})]. *)
Definition find_one (key text : string) (c : t) : option dict :=
  oid ← find_index key text c;
  document oid <$> c !! oid.

(** [find_one({"_id": oid})]. *)
Definition find_one_id (oid : nat) (c : t) : option dict :=
  document oid <$> c !! oid.

(** [insert_one(doc)]: the new collection and [inserted_id]. *)
Definition insert_one (doc : dict) (c : t) : t * nat :=
  (c ++ [doc], length c).

(** [{"$set": updates}] on one document. *)
Definition set_fields (updates fields : dict) : dict := updates ∪ fields.

(** [update_one({"_id": oid}, {"$set": updates})]. *)
Definition update_one_id (oid : nat) (updates : dict) (c : t) : t :=
  alter (set_fields updates) oid c.

(** [update_one({key: text}, {"$set": updates})]: the first match is
    updated; without a match nothing happens. *)
Definition update_one (key text : string) (updates : dict) (c : t) : t :=
  match find_index key text c with
  | Some oid => alter (set_fields updates) oid c
  | None => c
  end.

(** Sort order of a field.  Dates sort above every other kind of value
    stored here, as in the BSON comparison order; among values that are
    not dates only the kind is compared. *)
Definition bson_rank (v : option value) : Z :=
  match v with
  | None | Some VNone => 1
  | Some (VFloat _) => 2
  | Some (VStr _) => 3
  | Some (VDict _) => 4
  | Some (VList _) => 5
  | Some (VObjectId _) => 7
  | Some (VBool _) => 8
  | Some (VDatetime _) => 9
  end.

Definition sort_key (key : string) (doc : dict) : Z * Z :=
  (bson_rank (doc !! key),
   match doc !! key with Some (VDatetime t) => t | _ => 0 end).

Definition key_le (a b : Z * Z) : Prop :=
  a.1 < b.1 ∨ (a.1 = b.1 ∧ a.2 ≤ b.2).

(** [a] may stand before [b] in a descending sort on [key]. *)
Definition desc (key : string) (a b : dict) : Prop :=
  key_le (sort_key key b) (sort_key key a).

#[export] Instance key_le_dec a b : Decision (key_le a b).
Proof. unfold key_le. apply _. Defined.

#[export] Instance desc_dec key a b : Decision (desc key a b).
Proof. unfold desc. apply _. Defined.

(** [find()]: every document, in insertion order. *)
Definition find (c : t) : list dict := imap document c.

(** [find().sort(key, -1).limit(n)]. *)
Definition find_sort_desc_limit (key : string) (n : nat) (c : t) : list dict :=
  take n (merge_sort (desc key) (find c)).

End Collection.

(** ** [schemas.py] *)

Module Schemas.

Definition opt_value {A} (inj : A → value) (o : option A) : value :=
  match o with
  | Some a => inj a
  | None => VNone
  end.

(** [Field(..., ge=0)] on a float. *)
Definition ge_0 (x : spec_float) : bool := SFleb (S754_zero false) x.

Record Location := {
  lat : option spec_float;
  lng : option spec_float;
  city : option string;
}.

Definition Location_model_dump (l : Location) : dict :=
  list_to_map [
    ("lat", opt_value VFloat (lat l));
    ("lng", opt_value VFloat (lng l));
    ("city", opt_value VStr (city l))
  ].

Inductive StatusLiteral :=
  | OrderReceived
  | PackagePickup
  | SortingCenter
  | InTransit
  | CustomsClearance
  | OutForDelivery
  | Delivered.

Definition status_text (s : StatusLiteral) : string :=
  match s with
  | OrderReceived => "Order Received"
  | PackagePickup => "Package Pickup"
  | SortingCenter => "Sorting Center"
  | InTransit => "In Transit"
  | CustomsClearance => "Customs Clearance"
  | OutForDelivery => "Out for Delivery"
  | Delivered => "Delivered"
  end.

Definition StatusLiteral_values : list StatusLiteral :=
  [OrderReceived; PackagePickup; SortingCenter; InTransit;
   CustomsClearance; OutForDelivery; Delivered].

(** Validation of a text against [StatusLiteral]. *)
Definition StatusLiteral_validate (s : string) : option StatusLiteral :=
  List.find (λ l, String.eqb (status_text l) s) StatusLiteral_values.

(** [ShipmentCreate]: the request body of a creation. *)
Module ShipmentCreate.
Record t := {
  sender_name : string;
  receiver_name : string;
  receiver_email : string;
  receiver_phone : option string;
  address : string;
  country : string;
  weight : spec_float;
  description : option string;
  amount : spec_float;
  origin : string;
  destination : string;
}.

(** Field validation; [EmailStr] keeps the normalised address that the
    validator returns.  [None] stands for a validation error. *)
Definition validate (validate_email : string → option string) (body : t) : option t :=
  email ← validate_email (receiver_email body);
  if ge_0 (weight body) && ge_0 (amount body)
  then Some {|
    sender_name := sender_name body;
    receiver_name := receiver_name body;
    receiver_email := email;
    receiver_phone := receiver_phone body;
    address := address body;
    country := country body;
    weight := weight body;
    description := description body;
    amount := amount body;
    origin := origin body;
    destination := destination body;
  |}
  else None.
End ShipmentCreate.

(** [Shipment]: the stored record. *)
Module Shipment.
Record t := {
  tracking_code : string;
  sender_name : string;
  receiver_name : string;
  receiver_email : string;
  receiver_phone : option string;
  address : string;
  country : string;
  weight : spec_float;
  description : option string;
  amount : spec_float;
  origin : string;
  destination : string;
  status : StatusLiteral;
  timeline : list dict;
  location : option Location;
  last_update : option datetime;
  proof_of_delivery_url : option string;
}.

(** [Shipment(...)] validates its fields like any other model. *)
Definition validate (validate_email : string → option string) (s : t) : option t :=
  email ← validate_email (receiver_email s);
  if ge_0 (weight s) && ge_0 (amount s)
  then Some {|
    tracking_code := tracking_code s;
    sender_name := sender_name s;
    receiver_name := receiver_name s;
    receiver_email := email;
    receiver_phone := receiver_phone s;
    address := address s;
    country := country s;
    weight := weight s;
    description := description s;
    amount := amount s;
    origin := origin s;
    destination := destination s;
    status := status s;
    timeline := timeline s;
    location := location s;
    last_update := last_update s;
    proof_of_delivery_url := proof_of_delivery_url s;
  |}
  else None.

Definition model_dump (s : t) : dict :=
  list_to_map [
    ("tracking_code", VStr (tracking_code s));
    ("sender_name", VStr (sender_name s));
    ("receiver_name", VStr (receiver_name s));
    ("receiver_email", VStr (receiver_email s));
    ("receiver_phone", opt_value VStr (receiver_phone s));
    ("address", VStr (address s));
    ("country", VStr (country s));
    ("weight", VFloat (weight s));
    ("description", opt_value VStr (description s));
    ("amount", VFloat (amount s));
    ("origin", VStr (origin s));
    ("destination", VStr (destination s));
    ("status", VStr (status_text (status s)));
    ("timeline", VList (VDict <$> timeline s));
    ("location", opt_value (λ l, VDict (Location_model_dump l)) (location s));
    ("last_update", opt_value VDatetime (last_update s));
    ("proof_of_delivery_url", opt_value VStr (proof_of_delivery_url s))
  ].
End Shipment.

(** [ShipmentUpdate]: the request body of an update, before and after
    validation. *)
Module ShipmentUpdate.
Record body := {
  body_status : option string;
  body_location : option Location;
}.

Record t := {
  status : option StatusLiteral;
  location : option Location;
}.

Definition validate (b : body) : option t :=
  match body_status b with
  | None => Some {| status := None; location := body_location b |}
  | Some text =>
      s ← StatusLiteral_validate text;
      Some {| status := Some s; location := body_location b |}
  end.
End ShipmentUpdate.

End Schemas.

Import Schemas.

(** ** The world a handler runs in *)

Record EmailMessage := {
  msg_From : string;
  msg_To : option value;
  msg_Subject : string;
  msg_content : string;
}.

(** One use of [smtplib.SMTP(host, port)]: connect, [starttls], [login],
    [send_message]. *)
Record SmtpSession := {
  smtp_host : string;
  smtp_port : Z;
  smtp_user : string;
  smtp_password : string;
  smtp_message : EmailMessage;
}.

Record World := {
  shipment : Collection.t;               (* db["shipment"] *)
  ticks : nat;                           (* clock readings taken so far *)
  files : gmap string (list byte);       (* files written, by path *)
  smtp_log : list SmtpSession;           (* SMTP sessions opened so far *)
}.

Inductive Error :=
  | HTTPException (status_code : Z) (detail : string)
  | RequestValidationError
  | Uncaught (exception : string).

(** The error kinds of the specification. *)
Inductive ErrorKind :=
  | InvalidCredentials
  | Unauthenticated
  | NotFound
  | ValidationError
  | InternalError.

Definition error_kind (e : Error) : ErrorKind :=
  match e with
  | HTTPException 401 detail =>
      if String.eqb detail "Invalid credentials" then InvalidCredentials else Unauthenticated
  | HTTPException 404 _ => NotFound
  | HTTPException _ _ => InternalError
  | RequestValidationError => ValidationError
  | Uncaught _ => InternalError
  end.

Inductive outcome (A : Type) :=
  | Returned (a : A)
  | Raised (e : Error).
Arguments Returned {A} a.
Arguments Raised {A} e.

(** Handlers: state passing over [World], with exceptions.  A raised
    exception keeps the effects that happened before it. *)
Definition M (A : Type) : Type := World → outcome A * World.

#[export] Instance M_ret : MRet M := λ A a w, (Returned a, w).

#[export] Instance M_bind : MBind M := λ A B k m w,
  match m w with
  | (Returned a, w') => k a w'
  | (Raised e, w') => (Raised e, w')
  end.

#[export] Instance M_fmap : FMap M := λ A B f m w,
  match m w with
  | (Returned a, w') => (Returned (f a), w')
  | (Raised e, w') => (Raised e, w')
  end.

Definition raise {A} (e : Error) : M A := λ w, (Raised e, w).

Definition get_shipment : M Collection.t := λ w, (Returned (shipment w), w).

Definition put_shipment (c : Collection.t) : M unit := λ w,
  (Returned tt,
   {| shipment := c; ticks := ticks w; files := files w; smtp_log := smtp_log w |}).

(** [open(path, "wb").write(content)] for a path that names a file of
    [logs]. *)
Definition write_file (path : string) (content : list byte) : M unit := λ w,
  (Returned tt,
   {| shipment := shipment w; ticks := ticks w;
      files := <[path := content]> (files w); smtp_log := smtp_log w |}).

(** What [open(stem + filename, "wb")] raises for a file name that a client
    chose, where [stem] leads into [logs], a directory that holds files
    only: a name with a NUL is refused by [open] itself; a name with a [/]
    leads through [stem + head], which is a file or is not there, unless
    nothing but [/] follows, which asks for a directory. *)
Definition open_error (stem filename : string) (files : gmap string (list byte))
  : option string :=
  if Py.contains "000" filename then Some "ValueError"
  else
    match Py.partition "/" filename with
    | None => None
    | Some (head, rest) =>
        if Py.all_chars "/" rest then Some "IsADirectoryError"
        else if decide (is_Some (files !! (stem +:+ head))) then Some "NotADirectoryError"
        else Some "FileNotFoundError"
    end.

(** [open(stem + filename, "wb").write(content)] for such a file name. *)
Definition write_upload (stem filename : string) (content : list byte) : M unit := λ w,
  match open_error stem filename (files w) with
  | Some exception => (Raised (Uncaught exception), w)
  | None => write_file (stem +:+ filename) content w
  end.

(** What a call into a library ends with: its answer, or the exception it
    raises. *)
Inductive answer (A : Type) :=
  | Answers (a : A)
  | Throws (exception : string).
Arguments Answers {A} a.
Arguments Throws {A} exception.

(** What the handlers take from outside the program. *)
Class Collaborators := {
  (** successive readings of the system clock *)
  clock : nat → datetime;
  (** [os.environ] *)
  environ : gmap string string;
  (** [int(s)] for text that is not plain: a character outside ASCII (the
      interpreter reads every Unicode decimal digit and strips Unicode white
      space) or more than 4300 characters (its limit on digits); [None] for
      [ValueError] *)
  int_beyond : string → option Z;
  (** [pwd_context.hash], and [pwd_context.verify], which answers or
      raises (passlib refuses a secret with a NUL byte) *)
  pwd_hash : string → string;
  pwd_verify : string → string → answer bool;
  (** [jwt.encode(claims, key)]; [jwt.decode(token, key)] at a given time,
      [None] for [JWTError] *)
  jwt_encode : dict → string → string;
  jwt_decode : string → string → datetime → option dict;
  (** the address validator behind [EmailStr]: the normalised address, or
      [None] when the text is not an address *)
  validate_email : string → option string;
  (** the header parser of [email]: the exception that [msg[name] = value]
      ends with for a value of at most one line, if any *)
  header_parser : string → option value → option string;
  (** [smtplib]: the exception a session ends with, if any, from connecting
      to [send_message] *)
  smtp_transport : SmtpSession → option string;
}.

(** ** [main.py] *)

Section Handlers.
Context `{Collaborators}.

(** [datetime.now(timezone.utc)] *)
Definition now : M datetime := λ w,
  (Returned (clock (ticks w)),
   {| shipment := shipment w; ticks := S (ticks w);
      files := files w; smtp_log := smtp_log w |}).

(** [os.getenv(key)] and [os.getenv(key, default)] *)
Definition getenv (key : string) : option string := environ !! key.
Definition getenv_default (key fallback : string) : string :=
  default fallback (environ !! key).

Definition SECRET_KEY : string := getenv_default "JWT_SECRET" "dev-secret-change".
Definition ACCESS_TOKEN_EXPIRE_MINUTES : Z := 60 * 12.
Definition ADMIN_EMAIL : string := getenv_default "ADMIN_EMAIL" "admin@cargoconnect.com".
Definition ADMIN_PASSWORD : string := getenv_default "ADMIN_PASSWORD" "Admin@123".
Definition ADMIN_HASH : string := pwd_hash ADMIN_PASSWORD.

(** [int(s)] on text. *)
Definition int_text (s : string) : option Z :=
  if Py.is_ascii s && (String.length s <=? 4300)%nat
  then Py.int_of_str s
  else int_beyond s.

Definition verify_password (plain_password hashed_password : string) : M bool :=
  match pwd_verify plain_password hashed_password with
  | Answers ok => mret ok
  | Throws exception => raise (Uncaught exception)
  end.

Definition create_access_token (data : dict) (expires_delta : option Datetime.timedelta)
  : M string :=
  let to_encode := data in
  t ← now;
  let delta :=
    match expires_delta with
    | Some d => if d =? 0 then Datetime.timedelta_minutes ACCESS_TOKEN_EXPIRE_MINUTES else d
    | None => Datetime.timedelta_minutes ACCESS_TOKEN_EXPIRE_MINUTES
    end in
  match Datetime.add t delta with
  | None => raise (Uncaught "OverflowError")
  | Some expire =>
      let to_encode := <["exp" := VDatetime expire]> to_encode in
      mret (jwt_encode to_encode SECRET_KEY)
  end.

(** [oauth2_scheme] hands over the bearer token of the request, and
    refuses a request without one. *)
Definition oauth2_scheme (authorization : option string) : M string :=
  match authorization with
  | Some token => mret token
  | None => raise (HTTPException 401 "Not authenticated")
  end.

Definition get_current_admin (token : string) : M dict :=
  let credentials_exception := HTTPException 401 "Could not validate credentials" in
  t ← now;
  match jwt_decode token SECRET_KEY t with
  | None => raise credentials_exception
  | Some payload =>
      match payload !! "sub" with
      | Some (VStr email) =>
          if negb (String.eqb email ADMIN_EMAIL)
          then raise credentials_exception
          else mret {["email" := VStr email]}
      | _ => raise credentials_exception
      end
  end.

(** [Depends(get_current_admin)] *)
Definition admin_dependency (authorization : option string) : M dict :=
  token ← oauth2_scheme authorization;
  get_current_admin token.

(** [form_data.username != ADMIN_EMAIL or not verify_password(...)]: the
    password is looked at only when the name is the admin's. *)
Definition credentials_refused (username password : string) : M bool :=
  if negb (String.eqb username ADMIN_EMAIL)
  then mret true
  else ok ← verify_password password ADMIN_HASH; mret (negb ok).

(** [POST /auth/login] *)
Definition login (username password : string) : M dict :=
  refused ← credentials_refused username password;
  if (refused : bool)
  then raise (HTTPException 401 "Invalid credentials")
  else
    access_token ← create_access_token {["sub" := VStr ADMIN_EMAIL]} None;
    mret (list_to_map [("access_token", VStr access_token); ("token_type", VStr "bearer")]).

Definition generate_tracking_code : M string :=
  t ← now;
  let suffix := Py.slice_last 4 (Py.str_int (Datetime.int_timestamp t)) in
  mret ("CC-" +:+ Datetime.strftime_Ymd t +:+ "-" +:+ suffix).

(** [POST /shipments], the handler body *)
Definition create_shipment (payload : ShipmentCreate.t) (admin : dict) : M dict :=
  tracking_code ← generate_tracking_code;
  t_timeline ← now;
  t_last ← now;
  match Shipment.validate validate_email {|
      Shipment.tracking_code := tracking_code;
      Shipment.status := OrderReceived;
      Shipment.origin := ShipmentCreate.origin payload;
      Shipment.destination := ShipmentCreate.destination payload;
      Shipment.sender_name := ShipmentCreate.sender_name payload;
      Shipment.receiver_name := ShipmentCreate.receiver_name payload;
      Shipment.receiver_email := ShipmentCreate.receiver_email payload;
      Shipment.receiver_phone := ShipmentCreate.receiver_phone payload;
      Shipment.address := ShipmentCreate.address payload;
      Shipment.country := ShipmentCreate.country payload;
      Shipment.weight := ShipmentCreate.weight payload;
      Shipment.description := ShipmentCreate.description payload;
      Shipment.amount := ShipmentCreate.amount payload;
      Shipment.timeline :=
        [list_to_map [("status", VStr "Order Received");
                      ("timestamp", VStr (Datetime.isoformat t_timeline))]];
      Shipment.location := None;
      Shipment.last_update := Some t_last;
      Shipment.proof_of_delivery_url := None;
    |} with
  | None => raise (Uncaught "ValidationError")
  | Some model =>
      let doc := Shipment.model_dump model in
      c ← get_shipment;
      let '(c', inserted_id) := Collection.insert_one doc c in
      put_shipment c';;
      mret (list_to_map [("id", VStr (str_ObjectId inserted_id));
                         ("tracking_code", VStr tracking_code)])
  end.

(** [it["_id"] = str(it["_id"])] *)
Definition stringify_id (doc : dict) : M dict :=
  match doc !! "_id" with
  | Some (VObjectId oid) => mret (<["_id" := VStr (str_ObjectId oid)]> doc)
  | Some v => mret (<["_id" := VStr (format_value (Some v))]> doc)
  | None => raise (Uncaught "KeyError")
  end.

Fixpoint stringify_ids (items : list dict) : M (list dict) :=
  match items with
  | [] => mret []
  | it :: rest =>
      it' ← stringify_id it;
      rest' ← stringify_ids rest;
      mret (it' :: rest')
  end.

(** [GET /shipments], the handler body *)
Definition list_shipments (admin : dict) : M (list dict) :=
  c ← get_shipment;
  let items := Collection.find_sort_desc_limit "last_update" 200 c in
  stringify_ids items.

(** [GET /track/{tracking_code}] *)
Definition public_track (tracking_code : string) : M dict :=
  c ← get_shipment;
  let doc := Collection.find_one "tracking_code" tracking_code c in
  if negb (truthy_doc doc)
  then raise (HTTPException 404 "Tracking Number Not Found")
  else
    match doc with
    | Some doc => stringify_id doc
    | None => raise (Uncaught "TypeError")
    end.

(** [timeline.append(entry)] on whatever [doc.get("timeline", [])] gave:
    the method is looked up before the entry is built. *)
Definition timeline_append (timeline : value) (entry : M dict) : M value :=
  match timeline with
  | VList items => e ← entry; mret (VList (items ++ [VDict e]))
  | _ => raise (Uncaught "AttributeError")
  end.

(** [PATCH /shipments/{tracking_code}], the handler body *)
Definition update_shipment (tracking_code : string) (payload : ShipmentUpdate.t)
    (admin : dict) : M dict :=
  c ← get_shipment;
  let doc := Collection.find_one "tracking_code" tracking_code c in
  if negb (truthy_doc doc)
  then raise (HTTPException 404 "Shipment not found")
  else
    match doc with
    | None => raise (Uncaught "TypeError")
    | Some doc =>
        let updates : dict := ∅ in
        updates ←
          match ShipmentUpdate.status payload with
          | Some status =>
              if Py.truthy_str (status_text status)
              then
                let updates := <["status" := VStr (status_text status)]> updates in
                let timeline := default (VList []) (doc !! "timeline") in
                timeline ← timeline_append timeline
                  (t ← now;
                   mret (list_to_map [("status", VStr (status_text status));
                                      ("timestamp", VStr (Datetime.isoformat t))]));
                mret (<["timeline" := timeline]> updates)
              else mret updates
          | None => mret updates
          end;
        let updates :=
          match ShipmentUpdate.location payload with
          | Some location => <["location" := VDict (Location_model_dump location)]> updates
          | None => updates
          end in
        t ← now;
        let updates := <["last_update" := VDatetime t]> updates in
        match doc !! "_id" with
        | Some (VObjectId oid) =>
            c ← get_shipment;
            put_shipment (Collection.update_one_id oid updates c);;
            c ← get_shipment;
            match Collection.find_one_id oid c with
            | Some new_doc => stringify_id new_doc
            | None => raise (Uncaught "TypeError")
            end
        | _ => raise (Uncaught "KeyError")
        end
    end.

(** [POST /shipments/{tracking_code}/proof], the handler body *)
Definition upload_proof (tracking_code filename : string) (content : list byte)
    (admin : dict) : M dict :=
  let fname := "logs/" +:+ tracking_code +:+ "-" +:+ filename in
  write_upload ("logs/" +:+ tracking_code +:+ "-") filename content;;
  c ← get_shipment;
  put_shipment
    (Collection.update_one "tracking_code" tracking_code
       {["proof_of_delivery_url" := VStr ("/" +:+ fname)]} c);;
  mret {["url" := VStr ("/" +:+ fname)]}.

(** [with smtplib.SMTP(host, port) as server: ...]: the session is
    opened, and whatever the mail server answers with is raised. *)
Definition smtp_send (session : SmtpSession) : M unit := λ w,
  let w' := {| shipment := shipment w; ticks := ticks w; files := files w;
               smtp_log := smtp_log w ++ [session] |} in
  match smtp_transport session with
  | Some exception => (Raised (Uncaught exception), w')
  | None => (Returned tt, w')
  end.

(** What [msg[name] = value] raises on an [EmailMessage], if anything:
    the message policy refuses text of more than one line with
    [ValueError]; any other value goes to the header parser. *)
Definition header_error (name : string) (v : option value) : option string :=
  match v with
  | Some (VStr text) =>
      if (1 <? length (Py.splitlines text))%nat then Some "ValueError"
      else header_parser name v
  | _ => header_parser name v
  end.

Definition set_header (name : string) (v : option value) : M unit :=
  match header_error name v with
  | Some exception => raise (Uncaught exception)
  | None => mret tt
  end.

Definition send_email (to_email : option value) (subject body : string) : M bool :=
  let host := getenv "SMTP_HOST" in
  match int_text (getenv_default "SMTP_PORT" "587") with
  | None => raise (Uncaught "ValueError")
  | Some port =>
      let user := getenv "SMTP_USER" in
      let password := getenv "SMTP_PASS" in
      match host, user, password with
      | Some host, Some user, Some password =>
          if negb (Py.truthy_str host && Py.truthy_str user && Py.truthy_str password)
          then mret false
          else
            set_header "From" (Some (VStr user));;
            set_header "To" to_email;;
            set_header "Subject" (Some (VStr subject));;
            let msg := {| msg_From := user; msg_To := to_email;
                          msg_Subject := subject; msg_content := body |} in
            smtp_send {| smtp_host := host; smtp_port := port; smtp_user := user;
                         smtp_password := password; smtp_message := msg |};;
            mret true
      | _, _, _ => mret false
      end
  end.

(** [POST /shipments/{tracking_code}/notify], the handler body *)
Definition notify_receiver (tracking_code : string) (admin : dict) : M dict :=
  c ← get_shipment;
  let doc := Collection.find_one "tracking_code" tracking_code c in
  if negb (truthy_doc doc)
  then raise (HTTPException 404 "Shipment not found")
  else
    match doc with
    | None => raise (Uncaught "TypeError")
    | Some doc =>
        let subject :=
          "CargoConnect Update: " +:+ tracking_code +:+ " - "
            +:+ format_value (doc !! "status") in
        let body :=
          "Hello " +:+ format_value (doc !! "receiver_name")
            +:+ String "," (String "010" (String "010" "Your shipment "))
            +:+ tracking_code +:+ " status is now: " +:+ format_value (doc !! "status")
            +:+ String "." (String "010" "Track here: ") +:+ tracking_code
            +:+ String "010" (String "010" "CargoConnect") in
        ok ← send_email (doc !! "receiver_email") subject body;
        mret {["sent" := VBool ok]}
    end.

(** ** Requests as the framework dispatches them

    The framework resolves [Depends(get_current_admin)] first, then
    validates the request body against its model, then runs the handler
    body. *)

Definition validated {A} (model : option A) : M A :=
  match model with
  | Some a => mret a
  | None => raise RequestValidationError
  end.

(** The operations behind the routes, with their validated arguments. *)
Inductive Op :=
  | Login (username password : string)
  | Create (payload : ShipmentCreate.t) (admin : dict)
  | ListShipments (admin : dict)
  | GetByTrackingCode (tracking_code : string)
  | UpdateStatusAndLocation (tracking_code : string) (payload : ShipmentUpdate.t)
      (admin : dict)
  | AttachProofOfDelivery (tracking_code filename : string) (content : list byte)
      (admin : dict)
  | Notify (tracking_code : string) (admin : dict).

Definition run (op : Op) : M value :=
  match op with
  | Login username password => VDict <$> login username password
  | Create payload admin => VDict <$> create_shipment payload admin
  | ListShipments admin =>
      items ← list_shipments admin;
      mret (VList (VDict <$> items))
  | GetByTrackingCode tracking_code => VDict <$> public_track tracking_code
  | UpdateStatusAndLocation tracking_code payload admin =>
      VDict <$> update_shipment tracking_code payload admin
  | AttachProofOfDelivery tracking_code filename content admin =>
      VDict <$> upload_proof tracking_code filename content admin
  | Notify tracking_code admin => VDict <$> notify_receiver tracking_code admin
  end.

Inductive Request :=
  | POST_auth_login (username password : string)
  | POST_shipments (authorization : option string) (body : ShipmentCreate.t)
  | GET_shipments (authorization : option string)
  | GET_track (tracking_code : string)
  | PATCH_shipments (authorization : option string) (tracking_code : string)
      (body : ShipmentUpdate.body)
  | POST_shipments_proof (authorization : option string) (tracking_code : string)
      (filename : string) (content : list byte)
  | POST_shipments_notify (authorization : option string) (tracking_code : string).

(** From a request to the operation it asks for. *)
Definition resolve (r : Request) : M Op :=
  match r with
  | POST_auth_login username password =>
      mret (Login username password)
  | POST_shipments authorization body =>
      admin ← admin_dependency authorization;
      payload ← validated (ShipmentCreate.validate validate_email body);
      mret (Create payload admin)
  | GET_shipments authorization =>
      admin ← admin_dependency authorization;
      mret (ListShipments admin)
  | GET_track tracking_code =>
      mret (GetByTrackingCode tracking_code)
  | PATCH_shipments authorization tracking_code body =>
      admin ← admin_dependency authorization;
      payload ← validated (ShipmentUpdate.validate body);
      mret (UpdateStatusAndLocation tracking_code payload admin)
  | POST_shipments_proof authorization tracking_code filename content =>
      admin ← admin_dependency authorization;
      mret (AttachProofOfDelivery tracking_code filename content admin)
  | POST_shipments_notify authorization tracking_code =>
      admin ← admin_dependency authorization;
      mret (Notify tracking_code admin)
  end.

Definition handle (r : Request) : M value :=
  op ← resolve r;
  run op.

(** Operations, and requests, served one after the other; one that fails
    does not stop the server. *)
Fixpoint run_all (ops : list Op) (w : World) : World :=
  match ops with
  | [] => w
  | op :: ops' => run_all ops' (run op w).2
  end.

Fixpoint serve (rs : list Request) (w : World) : World :=
  match rs with
  | [] => w
  | r :: rs' => serve rs' (handle r w).2
  end.

(** ** Vocabulary of the statements *)

(** The tracking code generated at clock reading [t]. *)
Definition tracking_code_at (t : datetime) : string :=
  "CC-" +:+ Datetime.strftime_Ymd t +:+ "-"
    +:+ Py.slice_last 4 (Py.str_int (Datetime.int_timestamp t)).

(** A timeline entry. *)
Definition timeline_entry (status : string) (t : datetime) : dict :=
  list_to_map [("status", VStr status); ("timestamp", VStr (Datetime.isoformat t))].

(** The content fields pass field validation. *)
Definition valid_content (payload : ShipmentCreate.t) : Prop :=
  is_Some (ShipmentCreate.validate validate_email payload).

(** The clock reading that an update stores in [last_update]: the one
    after the timeline stamp when a status is supplied, the first one
    otherwise. *)
Definition update_last_tick (payload : ShipmentUpdate.t) (n : nat) : nat :=
  match ShipmentUpdate.status payload with
  | Some _ => S n
  | None => n
  end.

(** The [$set] document that an update builds, for a shipment whose
    timeline holds [items], when the clock has been read [n] times. *)
Definition update_set (payload : ShipmentUpdate.t) (items : list value) (n : nat)
  : dict :=
  let updates : dict :=
    match ShipmentUpdate.status payload with
    | Some s =>
        <["timeline" :=
            VList (items ++ [VDict (timeline_entry (status_text s) (clock n))])]>
          (<["status" := VStr (status_text s)]> ∅)
    | None => ∅
    end in
  let updates :=
    match ShipmentUpdate.location payload with
    | Some l => <["location" := VDict (Location_model_dump l)]> updates
    | None => updates
    end in
  <["last_update" := VDatetime (clock (update_last_tick payload n))]> updates.




End Handlers.

(** The timeline of a stored shipment, and the status of each entry. *)
Definition doc_timeline (fields : dict) : list value :=
  match fields !! "timeline" with
  | Some (VList items) => items
  | _ => []
  end.

Definition entry_status (entry : value) : option value :=
  match entry with
  | VDict e => e !! "status"
  | _ => None
  end.

(** The status field repeats the status of the last timeline entry. *)
Definition status_is_last_entry (fields : dict) : Prop :=
  ∃ status, fields !! "status" = Some (VStr status)
    ∧ (entry_status <$> last (doc_timeline fields)) = Some (Some (VStr status)).

(** The timeline field, when present, is a list. *)
Definition timeline_is_list (fields : dict) : Prop :=
  match fields !! "timeline" with
  | None | Some (VList _) => True
  | Some _ => False
  end.

(** A supplied status can be appended to the timeline of [fields]. *)
Definition appendable (payload : ShipmentUpdate.t) (fields : dict) : Prop :=
  match ShipmentUpdate.status payload with
  | Some _ => timeline_is_list fields
  | None => True
  end.

(** The world after [w] with another collection. *)
Definition with_shipment (c : Collection.t) (w : World) : World :=
  {| shipment := c; ticks := ticks w; files := files w; smtp_log := smtp_log w |}.

Definition with_ticks (n : nat) (w : World) : World :=
  {| shipment := shipment w; ticks := n; files := files w; smtp_log := smtp_log w |}.

(** The fixed format of a tracking code: [CC-], eight digits, a dash, four
    digits. *)
Definition tracking_code_format (s : string) : bool :=
  match s with
  | String "C" (String "C" (String "-" rest)) =>
      Nat.eqb (String.length rest) 13
      && Py.all_digits (String.substring 0 8 rest)
      && String.eqb (String.substring 8 1 rest) "-"
      && Py.all_digits (String.substring 9 4 rest)
  | _ => false
  end.

(** The four low-order decimal digits of [n], as text. *)
Definition low4 (n : Z) : string :=
  String (Py.digit_char (n / 1000)) (String (Py.digit_char (n / 100))
    (String (Py.digit_char (n / 10)) (String (Py.digit_char n) EmptyString))).

(** Numbers below one hundred, padded to two places. *)
Definition two_digits (n : Z) : string :=
  String (Py.digit_char (n / 10)) (String (Py.digit_char n) EmptyString).

(** A clock reading from 1970-01-01T00:16:40 on, within the range of
    [datetime]. *)
Definition clock_reading_ok (t : datetime) : Prop :=
  1000 ≤ Datetime.int_timestamp t ∧ t ≤ Datetime.MAX.

(** [fields] is the first document of [c] that carries [text] under
    [key], at position [oid]. *)
Definition first_match (key text : string) (c : Collection.t) (oid : nat)
    (fields : dict) : Prop :=
  c !! oid = Some fields
  ∧ Collection.field_matches key text fields = true
  ∧ ∀ j fj, (j < oid)%nat → c !! j = Some fj →
      Collection.field_matches key text fj = false.

(** No document of [c] carries [text] under [key]. *)
Definition no_match (key text : string) (c : Collection.t) : Prop :=
  Forall (λ fields, Collection.field_matches key text fields = false) c.


(** A float below zero. *)
Definition negative (x : spec_float) : Prop := SFltb x (S754_zero false) = true.

(** [it["_id"] = str(it["_id"])] on a document as it comes from the
    store. *)
Definition with_text_id (doc : dict) : dict :=
  match doc !! "_id" with
  | Some (VObjectId oid) => <["_id" := VStr (str_ObjectId oid)]> doc
  | _ => doc
  end.

(** A value that [format_value] renders as the f-string does: absent,
    [None], text or a boolean. *)
Definition rendered_as_is (v : option value) : Prop :=
  match v with
  | None | Some VNone | Some (VStr _) | Some (VBool _) => True
  | Some _ => False
  end.

Definition has_object_id (doc : dict) : Prop :=
  ∃ oid, doc !! "_id" = Some (VObjectId oid).


Definition with_session (session : SmtpSession) (w : World) : World :=
  {| shipment := shipment w; ticks := ticks w; files := files w;
     smtp_log := smtp_log w ++ [session] |}.

Section Vocabulary.
Context `{Collaborators}.

(** The document that [create_shipment] inserts. *)
Definition new_shipment (payload : ShipmentCreate.t) (email code : string)
    (t_timeline t_last : datetime) : dict :=
  Shipment.model_dump {|
    Shipment.tracking_code := code;
    Shipment.sender_name := ShipmentCreate.sender_name payload;
    Shipment.receiver_name := ShipmentCreate.receiver_name payload;
    Shipment.receiver_email := email;
    Shipment.receiver_phone := ShipmentCreate.receiver_phone payload;
    Shipment.address := ShipmentCreate.address payload;
    Shipment.country := ShipmentCreate.country payload;
    Shipment.weight := ShipmentCreate.weight payload;
    Shipment.description := ShipmentCreate.description payload;
    Shipment.amount := ShipmentCreate.amount payload;
    Shipment.origin := ShipmentCreate.origin payload;
    Shipment.destination := ShipmentCreate.destination payload;
    Shipment.status := OrderReceived;
    Shipment.timeline := [timeline_entry "Order Received" t_timeline];
    Shipment.location := None;
    Shipment.last_update := Some t_last;
    Shipment.proof_of_delivery_url := None;
  |}.

(** The collection after operation [op] has run in world [w]. *)
Inductive op_effect (w : World) : Op → Collection.t → Prop :=
  | effect_login username password :
      op_effect w (Login username password) (shipment w)
  | effect_create payload admin email :
      validate_email (ShipmentCreate.receiver_email payload) = Some email →
      ge_0 (ShipmentCreate.weight payload) = true →
      ge_0 (ShipmentCreate.amount payload) = true →
      op_effect w (Create payload admin)
        (shipment w ++ [new_shipment payload email (tracking_code_at (clock (ticks w)))
                          (clock (S (ticks w))) (clock (S (S (ticks w))))])
  | effect_create_refused payload admin :
      ¬ valid_content payload →
      op_effect w (Create payload admin) (shipment w)
  | effect_list admin :
      op_effect w (ListShipments admin) (shipment w)
  | effect_get tracking_code :
      op_effect w (GetByTrackingCode tracking_code) (shipment w)
  | effect_update_unknown tracking_code payload admin :
      no_match "tracking_code" tracking_code (shipment w) →
      op_effect w (UpdateStatusAndLocation tracking_code payload admin) (shipment w)
  | effect_update tracking_code payload admin oid fields :
      first_match "tracking_code" tracking_code (shipment w) oid fields →
      appendable payload fields →
      op_effect w (UpdateStatusAndLocation tracking_code payload admin)
        (<[oid := update_set payload (doc_timeline fields) (ticks w) ∪ fields]>
           (shipment w))
  | effect_update_stuck tracking_code payload admin oid fields :
      first_match "tracking_code" tracking_code (shipment w) oid fields →
      ¬ appendable payload fields →
      op_effect w (UpdateStatusAndLocation tracking_code payload admin) (shipment w)
  | effect_proof_unknown tracking_code filename content admin :
      no_match "tracking_code" tracking_code (shipment w) →
      op_effect w (AttachProofOfDelivery tracking_code filename content admin)
        (shipment w)
  | effect_proof_refused tracking_code filename content admin :
      is_Some (open_error ("logs/" +:+ tracking_code +:+ "-") filename (files w)) →
      op_effect w (AttachProofOfDelivery tracking_code filename content admin)
        (shipment w)
  | effect_proof tracking_code filename content admin oid fields :
      first_match "tracking_code" tracking_code (shipment w) oid fields →
      op_effect w (AttachProofOfDelivery tracking_code filename content admin)
        (<[oid := {["proof_of_delivery_url" :=
                      VStr ("/" +:+ "logs/" +:+ tracking_code +:+ "-" +:+ filename)]}
                  ∪ fields]> (shipment w))
  | effect_notify tracking_code admin :
      op_effect w (Notify tracking_code admin) (shipment w).

(** Host, user and password are all present and not empty. *)
Definition transport_configured : bool :=
  truthy_opt_str (getenv "SMTP_HOST") && truthy_opt_str (getenv "SMTP_USER")
  && truthy_opt_str (getenv "SMTP_PASS").

(** The mail session that [send_email] opens when the transport is
    configured. *)
Definition mail_session (port : Z) (to_email : option value) (subject body : string)
  : SmtpSession :=
  {| smtp_host := default EmptyString (getenv "SMTP_HOST");
     smtp_port := port;
     smtp_user := default EmptyString (getenv "SMTP_USER");
     smtp_password := default EmptyString (getenv "SMTP_PASS");
     smtp_message :=
       {| msg_From := default EmptyString (getenv "SMTP_USER"); msg_To := to_email;
          msg_Subject := subject; msg_content := body |} |}.

Definition session_outcome {A} (session : SmtpSession) (a : A) : outcome A :=
  match smtp_transport session with
  | None => Returned a
  | Some exception => Raised (Uncaught exception)
  end.

(** The exception that the first refused header of the message ends with,
    [From], [To] and [Subject] being set in this order; [None] when the
    three are taken. *)
Definition headers_error (to_email : option value) (subject : string) : option string :=
  match header_error "From" (Some (VStr (default EmptyString (getenv "SMTP_USER")))) with
  | Some exception => Some exception
  | None =>
      match header_error "To" to_email with
      | Some exception => Some exception
      | None => header_error "Subject" (Some (VStr subject))
      end
  end.

End Vocabulary.

(** ** Concrete collaborators, for examples *)

Module Demo.

Fixpoint has_at (s : string) : bool :=
  match s with
  | EmptyString => false
  | String c s' => Ascii.eqb c "@" || has_at s'
  end.

Fixpoint strip_prefix (p s : string) : option string :=
  match p, s with
  | EmptyString, _ => Some s
  | String a p', String b s' => if Ascii.eqb a b then strip_prefix p' s' else None
  | String _ _, EmptyString => None
  end.

(** Reading [k] of the clock: 2024-11-04T10:00:00Z plus [k] seconds. *)
Definition clock_2024 (k : nat) : datetime := (1730714400 + Z.of_nat k) * 1000000.

Definition toy_validate_email (s : string) : option string :=
  if has_at s then Some s else None.

Definition toy_hash (s : string) : string := "hash:" +:+ s.
Definition toy_verify (p h : string) : answer bool := Answers (String.eqb (toy_hash p) h).

Definition toy_jwt_encode (claims : dict) (key : string) : string :=
  key +:+ "." +:+ format_value (claims !! "sub").

Definition toy_jwt_decode (token key : string) (t : datetime) : option dict :=
  sub ← strip_prefix (key +:+ ".") token;
  Some {["sub" := VStr sub]}.

Definition smtp_environ : gmap string string :=
  list_to_map [("SMTP_HOST", "mail.example.org"); ("SMTP_USER", "cargo");
               ("SMTP_PASS", "secret")].

(** No mail configuration. *)
Definition offline : Collaborators := {|
  clock := clock_2024;
  environ := ∅;
  int_beyond := λ _, None;
  pwd_hash := toy_hash;
  pwd_verify := toy_verify;
  jwt_encode := toy_jwt_encode;
  jwt_decode := toy_jwt_decode;
  validate_email := toy_validate_email;
  header_parser := λ _ _, None;
  smtp_transport := λ _, None;
|}.

(** Mail configured, the server accepts the session. *)
Definition mail_up : Collaborators := {|
  clock := clock_2024;
  environ := smtp_environ;
  int_beyond := λ _, None;
  pwd_hash := toy_hash;
  pwd_verify := toy_verify;
  jwt_encode := toy_jwt_encode;
  jwt_decode := toy_jwt_decode;
  validate_email := toy_validate_email;
  header_parser := λ _ _, None;
  smtp_transport := λ _, None;
|}.

(** Mail configured, the server drops the session. *)
Definition mail_down : Collaborators := {|
  clock := clock_2024;
  environ := smtp_environ;
  int_beyond := λ _, None;
  pwd_hash := toy_hash;
  pwd_verify := toy_verify;
  jwt_encode := toy_jwt_encode;
  jwt_decode := toy_jwt_decode;
  validate_email := toy_validate_email;
  header_parser := λ _ _, None;
  smtp_transport := λ _, Some "SMTPServerDisconnected";
|}.

(** No mail configuration, and a clock that stands still, so that every
    creation falls into the same second. *)
Definition frozen : Collaborators := {|
  clock := λ _, clock_2024 0;
  environ := ∅;
  int_beyond := λ _, None;
  pwd_hash := toy_hash;
  pwd_verify := toy_verify;
  jwt_encode := toy_jwt_encode;
  jwt_decode := toy_jwt_decode;
  validate_email := toy_validate_email;
  header_parser := λ _ _, None;
  smtp_transport := λ _, None;
|}.

Definition float_of_nat (n : positive) : spec_float := S754_finite false n 0.
Definition minus_one : spec_float := S754_finite true 1 0.

Definition parcel : ShipmentCreate.t := {|
  ShipmentCreate.sender_name := "Ada";
  ShipmentCreate.receiver_name := "Grace";
  ShipmentCreate.receiver_email := "grace@example.org";
  ShipmentCreate.receiver_phone := None;
  ShipmentCreate.address := "1 Harbour Road";
  ShipmentCreate.country := "PT";
  ShipmentCreate.weight := float_of_nat 5;
  ShipmentCreate.description := None;
  ShipmentCreate.amount := float_of_nat 20;
  ShipmentCreate.origin := "Lisbon";
  ShipmentCreate.destination := "Porto";
|}.

Definition parcel_negative_weight : ShipmentCreate.t := {|
  ShipmentCreate.sender_name := "Ada";
  ShipmentCreate.receiver_name := "Grace";
  ShipmentCreate.receiver_email := "grace@example.org";
  ShipmentCreate.receiver_phone := None;
  ShipmentCreate.address := "1 Harbour Road";
  ShipmentCreate.country := "PT";
  ShipmentCreate.weight := minus_one;
  ShipmentCreate.description := None;
  ShipmentCreate.amount := float_of_nat 20;
  ShipmentCreate.origin := "Lisbon";
  ShipmentCreate.destination := "Porto";
|}.

Definition empty_world : World :=
  {| shipment := []; ticks := 0; files := ∅; smtp_log := [] |}.

Definition admin_token : string := "dev-secret-change.admin@cargoconnect.com".

Definition in_transit : ShipmentUpdate.t :=
  {| ShipmentUpdate.status := Some InTransit; ShipmentUpdate.location := None |}.

Definition touch : ShipmentUpdate.t :=
  {| ShipmentUpdate.status := None; ShipmentUpdate.location := None |}.

Definition at_city : ShipmentUpdate.t :=
  {| ShipmentUpdate.status := None;
     ShipmentUpdate.location :=
       Some {| lat := None; lng := None; city := Some "Coimbra" |} |}.

Definition at_coordinates : ShipmentUpdate.t :=
  {| ShipmentUpdate.status := None;
     ShipmentUpdate.location :=
       Some {| lat := Some (float_of_nat 41); lng := Some (float_of_nat 8);
               city := None |} |}.

(** The world after one creation. *)
Definition one_parcel (C : Collaborators) : World :=
  (@create_shipment C parcel ∅ empty_world).2.

(** The code of that parcel. *)
Definition parcel_code : string := "CC-20241104-4400".

End Demo.

(** One parcel created on an empty collection, and what is done to it. *)
Module Run.

Definition stored_parcel : dict :=
  default ∅ (shipment (Demo.one_parcel Demo.offline) !! 0%nat).

Definition updates : list Op :=
  [UpdateStatusAndLocation Demo.parcel_code Demo.in_transit ∅;
   GetByTrackingCode Demo.parcel_code;
   UpdateStatusAndLocation Demo.parcel_code Demo.touch ∅;
   UpdateStatusAndLocation "CC-19990101-0000" Demo.in_transit ∅;
   UpdateStatusAndLocation Demo.parcel_code
     {| ShipmentUpdate.status := Some Delivered; ShipmentUpdate.location := None |} ∅].

End Run.

(** ** The receipt route of [main.py]

    [generate_receipt] draws a QR code with [qrcode] and a page with
    [FPDF].  Both libraries are taken from outside: a page is the sequence
    of drawing calls made on it. *)

Inductive PdfCommand :=
  | add_page
  | set_font (family : string) (size : Z)
  | set_text_color (r g b : Z)
  | cell (w h : Z) (txt : string) (ln : bool) (align : string)
  | image (name : string) (content : list byte) (x y w h : Z).

Record StreamingResponse := {
  media_type : string;
  body : list byte;
}.

Class Renderers := {
  (** [qrcode.QRCode(box_size, border)] with [add_data(data)], [make(fit=True)]
      and [make_image(fill_color, back_color)] saved as PNG; [None] when the
      data does not fit a QR code *)
  qrcode_png : Z → Z → string → string → string → option (list byte);
  (** the exception that a drawing call raises, if any *)
  fpdf_refuses : PdfCommand → option string;
  (** [pdf.output(out)]: the bytes of the document *)
  fpdf_output : list PdfCommand → list byte;
  (** [str(v)] for a value that is neither text, [None] nor a boolean: a
      float, a date, an object id, a list or a dictionary, as the
      interpreter and the driver of the store render it *)
  str_value : value → string;
}.

(** [open(path, "rb").read()]; a missing file raises. *)
Definition read_file (path : string) : M (list byte) := λ w,
  match files w !! path with
  | Some content => (Returned content, w)
  | None => (Raised (Uncaught "FileNotFoundError"), w)
  end.

Section Receipts.
Context `{Renderers}.

(** [f"{doc.get(key, fallback)}"]: the fallback for a missing key, text as
    it is, the other values as [str] renders them. *)
Definition format_or (fallback : string) (v : option value) : string :=
  match v with
  | None => fallback
  | Some (VStr s) => s
  | Some VNone => "None"
  | Some (VBool true) => "True"
  | Some (VBool false) => "False"
  | Some v => str_value v
  end.

(** One drawing call on the page. *)
Definition draw (cmd : PdfCommand) (pdf : list PdfCommand) : M (list PdfCommand) :=
  match fpdf_refuses cmd with
  | Some exception => raise (Uncaught exception)
  | None => mret (pdf ++ [cmd])
  end.

(** [GET /shipments/{tracking_code}/receipt.pdf] *)
Definition generate_receipt (tracking_code : string) : M StreamingResponse :=
  c ← get_shipment;
  let doc := Collection.find_one "tracking_code" tracking_code c in
  if negb (truthy_doc doc)
  then raise (HTTPException 404 "Shipment not found")
  else
    match doc with
    | None => raise (Uncaught "TypeError")
    | Some doc =>
        let track_url := "/track/" +:+ tracking_code in
        match qrcode_png 6 2 track_url "black" "white" with
        | None => raise (Uncaught "DataOverflowError")
        | Some buf =>
            let pdf : list PdfCommand := [] in
            pdf ← draw add_page pdf;
            pdf ← draw (set_font "Arial" 16) pdf;
            pdf ← draw (set_text_color 230 0 0) pdf;
            pdf ← draw (cell 200 10 "CargoConnect Shipment Receipt" true "C") pdf;
            pdf ← draw (set_text_color 0 0 0) pdf;
            pdf ← draw (set_font "Arial" 12) pdf;
            pdf ← draw (cell 200 10 ("Tracking: " +:+ tracking_code) true EmptyString) pdf;
            pdf ← draw (cell 200 10
                          ("Sender: " +:+ format_or EmptyString (doc !! "sender_name"))
                          true EmptyString) pdf;
            pdf ← draw (cell 200 10
                          ("Receiver: " +:+ format_or EmptyString (doc !! "receiver_name"))
                          true EmptyString) pdf;
            pdf ← draw (cell 200 10 ("Amount: $" +:+ format_or "0" (doc !! "amount"))
                          true EmptyString) pdf;
            let qr_path := "logs/" +:+ tracking_code +:+ "-qr.png" in
            write_file qr_path buf;;
            picture ← read_file qr_path;
            pdf ← draw (image qr_path picture 160 20 30 30) pdf;
            mret {| media_type := "application/pdf"; body := fpdf_output pdf |}
        end
    end.

(** The drawing calls of a receipt, for the shipment [doc] and the QR
    picture [picture]. *)
Definition receipt_page (tracking_code : string) (doc : dict) (picture : list byte)
  : list PdfCommand :=
  [add_page;
   set_font "Arial" 16;
   set_text_color 230 0 0;
   cell 200 10 "CargoConnect Shipment Receipt" true "C";
   set_text_color 0 0 0;
   set_font "Arial" 12;
   cell 200 10 ("Tracking: " +:+ tracking_code) true EmptyString;
   cell 200 10 ("Sender: " +:+ format_or EmptyString (doc !! "sender_name"))
     true EmptyString;
   cell 200 10 ("Receiver: " +:+ format_or EmptyString (doc !! "receiver_name"))
     true EmptyString;
   cell 200 10 ("Amount: $" +:+ format_or "0" (doc !! "amount")) true EmptyString;
   image ("logs/" +:+ tracking_code +:+ "-qr.png") picture 160 20 30 30].

End Receipts.

(** ** More vocabulary *)

(** The fields that an update or an upload may write. *)
Definition written_fields : list string :=
  ["status"; "timeline"; "location"; "last_update"; "proof_of_delivery_url"].

(** The [Authorization] header of a request to a route that depends on
    [get_current_admin]; [None] for the routes that do not. *)
Definition admin_route (r : Request) : option (option string) :=
  match r with
  | POST_auth_login _ _ => None
  | POST_shipments authorization _ => Some authorization
  | GET_shipments authorization => Some authorization
  | GET_track _ => None
  | PATCH_shipments authorization _ _ => Some authorization
  | POST_shipments_proof authorization _ _ _ => Some authorization
  | POST_shipments_notify authorization _ => Some authorization
  end.

(** Two worlds that differ in the number of clock readings only. *)
Definition same_but_ticks (w w' : World) : Prop :=
  shipment w' = shipment w ∧ files w' = files w ∧ smtp_log w' = smtp_log w.

(** The world after [w] with one more file. *)
Definition with_file (path : string) (content : list byte) (w : World) : World :=
  {| shipment := shipment w; ticks := ticks w;
     files := <[path := content]> (files w); smtp_log := smtp_log w |}.

(** A name that the file system takes for a file of [logs]: no NUL, no
    [/], at most 255 bytes. *)
Definition plain_file_name (name : string) : Prop :=
  Py.contains "000" name = false
  ∧ Py.contains "/" name = false
  ∧ (String.length name ≤ 255)%nat.

(** A float that is not a number. *)
Definition is_nan (x : spec_float) : bool :=
  match x with
  | S754_nan => true
  | _ => false
  end.

(** The body of a creation with its address replaced. *)
Definition with_receiver_email (email : string) (body : ShipmentCreate.t)
  : ShipmentCreate.t :=
  {| ShipmentCreate.sender_name := ShipmentCreate.sender_name body;
     ShipmentCreate.receiver_name := ShipmentCreate.receiver_name body;
     ShipmentCreate.receiver_email := email;
     ShipmentCreate.receiver_phone := ShipmentCreate.receiver_phone body;
     ShipmentCreate.address := ShipmentCreate.address body;
     ShipmentCreate.country := ShipmentCreate.country body;
     ShipmentCreate.weight := ShipmentCreate.weight body;
     ShipmentCreate.description := ShipmentCreate.description body;
     ShipmentCreate.amount := ShipmentCreate.amount body;
     ShipmentCreate.origin := ShipmentCreate.origin body;
     ShipmentCreate.destination := ShipmentCreate.destination body |}.

Section MoreVocabulary.
Context `{Collaborators}.

(** The token of a request is accepted at clock reading [t]. *)
Definition accepted_at (token : string) (t : datetime) : Prop :=
  ∃ payload, jwt_decode token SECRET_KEY t = Some payload
    ∧ payload !! "sub" = Some (VStr ADMIN_EMAIL).

(** The claims of the token that a login issues, with their expiry. *)
Definition login_claims (expire : datetime) : dict :=
  <["exp" := VDatetime expire]> {["sub" := VStr ADMIN_EMAIL]}.

(** The text of a notification. *)
Definition notification_subject (tracking_code : string) (doc : dict) : string :=
  "CargoConnect Update: " +:+ tracking_code +:+ " - " +:+ format_value (doc !! "status").

Definition notification_body (tracking_code : string) (doc : dict) : string :=
  "Hello " +:+ format_value (doc !! "receiver_name")
    +:+ String "," (String "010" (String "010" "Your shipment "))
    +:+ tracking_code +:+ " status is now: " +:+ format_value (doc !! "status")
    +:+ String "." (String "010" "Track here: ") +:+ tracking_code
    +:+ String "010" (String "010" "CargoConnect").

(** No world and no clock reading make [get_current_admin] accept the
    token of the request. *)
Definition never_accepted (r : Request) : Prop :=
  ∀ authorization, admin_route r = Some authorization →
    ∀ w admin w', admin_dependency authorization w ≠ (Returned admin, w').

End MoreVocabulary.

(** ** More concrete collaborators *)

Module Cases.

(** No mail host, and a mail port that is not a number. *)
Definition bad_port : Collaborators := {|
  clock := Demo.clock_2024;
  environ := {["SMTP_PORT" := "smtp"]};
  int_beyond := λ _, None;
  pwd_hash := Demo.toy_hash;
  pwd_verify := Demo.toy_verify;
  jwt_encode := Demo.toy_jwt_encode;
  jwt_decode := Demo.toy_jwt_decode;
  validate_email := Demo.toy_validate_email;
  header_parser := λ _ _, None;
  smtp_transport := λ _, None;
|}.

Fixpoint text_of_page (pdf : list PdfCommand) : string :=
  match pdf with
  | [] => EmptyString
  | cell _ _ txt _ _ :: rest => txt +:+ String "010" (text_of_page rest)
  | _ :: rest => text_of_page rest
  end.

(** A QR picture that is the bytes of its data, a document that is the
    bytes of its text. *)
Definition plain : Renderers := {|
  qrcode_png := λ _ _ data _ _, Some (String.list_byte_of_string data);
  fpdf_refuses := λ _, None;
  fpdf_output := λ pdf, String.list_byte_of_string (text_of_page pdf);
  str_value := λ _, "20.0";
|}.

(** Twelve hours after the first reading of the clock. *)
Definition login_expiry : datetime := Demo.clock_2024 0 + 12 * 3600 * 1000000.

(** A later clock reading of the same day, ten thousand seconds on. *)
Definition later_reading : datetime := (1730714400 + 10000) * 1000000.

Definition lost : ShipmentUpdate.body :=
  {| ShipmentUpdate.body_status := Some "Lost"; ShipmentUpdate.body_location := None |}.



(** A password verifier that refuses a secret with a NUL byte, as passlib
    does. *)
Definition secret_with_nul : string := String "a" (String "000" "b").

Definition strict_verify (p h : string) : answer bool :=
  if Py.contains "000" p then Throws "PasswordValueError"
  else Answers (String.eqb (Demo.toy_hash p) h).

Definition strict : Collaborators := {|
  clock := Demo.clock_2024;
  environ := ∅;
  int_beyond := λ _, None;
  pwd_hash := Demo.toy_hash;
  pwd_verify := strict_verify;
  jwt_encode := Demo.toy_jwt_encode;
  jwt_decode := Demo.toy_jwt_decode;
  validate_email := Demo.toy_validate_email;
  header_parser := λ _ _, None;
  smtp_transport := λ _, None;
|}.

End Cases.

(** * Properties *)

(** ** Decimal rendering *)

Section Decimal.

Lemma append_cons (c : ascii) (a b : string) :
  String c a +:+ b = String c (a +:+ b).
Proof. reflexivity. Qed.

Lemma append_nil_r (s : string) : s +:+ EmptyString = s.
Proof.
  induction s as [|c s IH]; [reflexivity|].
  now rewrite append_cons, IH.
Qed.

Lemma append_assoc (a b c : string) : (a +:+ b) +:+ c = a +:+ (b +:+ c).
Proof.
  induction a as [|x a IH]; [reflexivity|].
  now rewrite !append_cons, IH.
Qed.

Lemma length_append (a b : string) :
  String.length (a +:+ b) = (String.length a + String.length b)%nat.
Proof.
  induction a as [|x a IH]; [reflexivity|].
  rewrite append_cons. cbn [String.length]. now rewrite IH.
Qed.

Lemma drop_chars_append (a b : string) :
  Py.drop_chars (String.length a) (a +:+ b) = b.
Proof.
  induction a as [|x a IH]; [now destruct b|].
  rewrite append_cons. exact IH.
Qed.

Lemma slice_last_append (k : nat) (a b : string) :
  String.length b = k → Py.slice_last k (a +:+ b) = b.
Proof.
  intros Hb. unfold Py.slice_last. rewrite length_append, Hb.
  replace (String.length a + k - k)%nat with (String.length a) by lia.
  apply drop_chars_append.
Qed.

Lemma digits_onto_acc (fuel : nat) (n : Z) (acc : string) :
  Py.digits_onto fuel n acc = Py.digits_onto fuel n EmptyString +:+ acc.
Proof.
  revert n acc. induction fuel as [|fuel IH]; intros n acc; simpl; [reflexivity|].
  destruct (n / 10 =? 0); [reflexivity|].
  rewrite (IH _ (String _ acc)), (IH _ (String _ EmptyString)).
  now rewrite append_assoc.
Qed.

Lemma is_digit_digit_char (d : Z) : Py.is_digit (Py.digit_char d) = true.
Proof.
  unfold Py.digit_char.
  assert (Hr : 0 ≤ d mod 10 < 10) by (apply Z.mod_pos_bound; lia).
  assert (Hc : (Z.to_nat (d mod 10) < 10)%nat) by lia.
  destruct (Z.to_nat (d mod 10)) as [|[|[|[|[|[|[|[|[|[|k]]]]]]]]]];
    try reflexivity; lia.
Qed.

Lemma fuel_four (n : Z) :
  1000 ≤ n → ∃ f, S (Z.to_nat (Z.log2 n)) = S (S (S (S f))).
Proof.
  intros Hn.
  assert (Hl : 9 ≤ Z.log2 n).
  { change 9 with (Z.log2 1000). apply Z.log2_le_mono. exact Hn. }
  exists (Z.to_nat (Z.log2 n) - 3)%nat. lia.
Qed.

(** The rendering of a number of at least four digits ends with its four
    low-order digits. *)
Lemma str_int_low4 (n : Z) :
  1000 ≤ n → ∃ front, Py.str_int n = front +:+ low4 n.
Proof.
  intros Hn. unfold Py.str_int.
  destruct (Z.ltb_spec n 0) as [?|_]; [lia|].
  destruct (fuel_four n Hn) as [f ->].
  assert (H1 : n / 10 ≠ 0) by (intros E; apply Z.div_small_iff in E; lia).
  assert (H2 : n / 10 / 10 ≠ 0).
  { rewrite Z.div_div by lia. intros E; apply Z.div_small_iff in E; lia. }
  assert (H3 : n / 10 / 10 / 10 ≠ 0).
  { rewrite !Z.div_div by lia. intros E; apply Z.div_small_iff in E; lia. }
  cbn [Py.digits_onto].
  apply Z.eqb_neq in H1, H2, H3. rewrite H1, H2, H3.
  assert (Hl : String (Py.digit_char (n / 10 / 10 / 10))
                 (String (Py.digit_char (n / 10 / 10))
                    (String (Py.digit_char (n / 10)) (String (Py.digit_char n) EmptyString)))
               = low4 n).
  { unfold low4. now rewrite !Z.div_div by lia. }
  rewrite Hl.
  destruct (n / 10 / 10 / 10 / 10 =? 0).
  - exists EmptyString. reflexivity.
  - rewrite digits_onto_acc. eexists. reflexivity.
Qed.

Lemma length_low4 (n : Z) : String.length (low4 n) = 4%nat.
Proof. reflexivity. Qed.

Lemma slice_last_str_int (n : Z) :
  1000 ≤ n → Py.slice_last 4 (Py.str_int n) = low4 n.
Proof.
  intros Hn. destruct (str_int_low4 n Hn) as [front ->].
  apply slice_last_append, length_low4.
Qed.

(** A number of exactly four digits renders as those digits. *)
Lemma str_int_four_digits (n : Z) :
  1000 ≤ n ≤ 9999 → Py.str_int n = low4 n.
Proof.
  intros [Hlo Hhi]. unfold Py.str_int.
  destruct (Z.ltb_spec n 0) as [?|_]; [lia|].
  destruct (fuel_four n Hlo) as [f ->].
  assert (H1 : n / 10 ≠ 0) by (intros E; apply Z.div_small_iff in E; lia).
  assert (H2 : n / 10 / 10 ≠ 0).
  { rewrite Z.div_div by lia. intros E; apply Z.div_small_iff in E; lia. }
  assert (H3 : n / 10 / 10 / 10 ≠ 0).
  { rewrite !Z.div_div by lia. intros E; apply Z.div_small_iff in E; lia. }
  assert (H4 : n / 10 / 10 / 10 / 10 = 0).
  { rewrite !Z.div_div by lia. apply Z.div_small. lia. }
  cbn [Py.digits_onto].
  apply Z.eqb_neq in H1, H2, H3. apply Z.eqb_eq in H4.
  rewrite H1, H2, H3, H4. unfold low4. now rewrite !Z.div_div by lia.
Qed.

Lemma pad_two_digits (n : Z) :
  0 ≤ n < 100 → Datetime.pad 2 n = two_digits n.
Proof.
  intros Hn.
  assert (Hall : forallb (λ k, String.eqb (Datetime.pad 2 (Z.of_nat k))
                                 (two_digits (Z.of_nat k))) (seq 0 100) = true)
    by (vm_compute; reflexivity).
  rewrite forallb_forall in Hall.
  specialize (Hall (Z.to_nat n)).
  rewrite Z2Nat.id in Hall by lia.
  apply String.eqb_eq, Hall, in_seq. lia.
Qed.

Lemma pad_four_digits (n : Z) :
  1000 ≤ n ≤ 9999 → Datetime.pad 4 n = low4 n.
Proof.
  intros Hn. unfold Datetime.pad. rewrite (str_int_four_digits n Hn).
  reflexivity.
Qed.

End Decimal.

(** ** Doubles from integers *)

Section Doubles.

Lemma div_half_even_bounds (a b : Z) :
  0 < b → a / b ≤ Py.div_half_even a b ≤ a / b + 1.
Proof.
  intros Hb. unfold Py.div_half_even.
  destruct (2 * (a mod b) <? b); [lia|].
  destruct (b <? 2 * (a mod b)); [lia|].
  destruct (Z.even (a / b)); lia.
Qed.

Lemma div_half_even_up (a b : Z) :
  0 < b → Py.div_half_even a b ≠ a / b → b ≤ 2 * (a mod b).
Proof.
  intros Hb. unfold Py.div_half_even.
  destruct (Z.ltb_spec (2 * (a mod b)) b) as [?|?]; [congruence|lia].
Qed.

(** Below [2^n] with [n <= 52] the quotient keeps binary places after the
    point: at least [53 - n] of them. *)
Lemma truediv_pos_places (a b n : Z) :
  0 < a → 0 < b → 0 ≤ n ≤ 52 → a < 2 ^ n * b →
  ∃ s, 53 - n ≤ s
    ∧ Py.truediv_pos a b = (Py.div_half_even (a * 2 ^ s) b, - s).
Proof.
  intros Ha Hb Hn Hlt. unfold Py.truediv_pos.
  set (k := Z.log2 b + 1).
  assert (Hk : 0 < k) by (pose proof (Z.log2_nonneg b); lia).
  assert (Hbk : b < 2 ^ k).
  { unfold k. apply Z.log2_lt_pow2; lia. }
  set (X := a * 2 ^ k / b).
  assert (HX1 : 0 < X).
  { unfold X. apply Z.div_str_pos. split; [lia|]. nia. }
  assert (HX2 : X < 2 ^ (n + k)).
  { unfold X. apply Z.div_lt_upper_bound; [lia|].
    rewrite Z.pow_add_r by lia. nia. }
  assert (Hj : Z.log2 X < n + k) by (apply Z.log2_lt_pow2; lia).
  exists (52 - (Z.log2 X - k)). split; [lia|].
  destruct (Z.ltb_spec (Z.log2 X - k - 52) 0) as [_|?]; [|lia].
  replace (- (Z.log2 X - k - 52)) with (52 - (Z.log2 X - k)) by lia.
  replace (- (52 - (Z.log2 X - k))) with (Z.log2 X - k - 52) by lia.
  reflexivity.
Qed.

Lemma int_of_double_places (a b n : Z) :
  0 < a → 0 < b → 0 ≤ n ≤ 52 → a < 2 ^ n * b →
  ∃ s, 53 - n ≤ s
    ∧ Py.int_of_double (Py.truediv a b) = Py.div_half_even (a * 2 ^ s) b / 2 ^ s.
Proof.
  intros Ha Hb Hn Hlt.
  destruct (truediv_pos_places a b n Ha Hb Hn Hlt) as (s & Hs & Heq).
  exists s. split; [exact Hs|]. unfold Py.truediv.
  destruct (Z.eqb_spec a 0) as [?|_]; [lia|].
  destruct (Z.ltb_spec a 0) as [?|_]; [lia|].
  rewrite Heq. unfold Py.int_of_double.
  destruct (Z.ltb_spec (- s) 0) as [_|?]; [|lia].
  rewrite Z.opp_involutive.
  assert (HP : 0 < 2 ^ s) by (apply Z.pow_pos_nonneg; lia).
  apply Z.quot_div_nonneg; [|exact HP].
  pose proof (div_half_even_bounds (a * 2 ^ s) b Hb).
  assert (0 ≤ a * 2 ^ s / b) by (apply Z.div_pos; nia). lia.
Qed.

(** The truncated double is the exact quotient truncated, or one above. *)
Lemma scaled_quotient_bounds (a b P : Z) :
  0 ≤ a → 0 < b → 0 < P →
  a / b ≤ Py.div_half_even (a * P) b / P ≤ a / b + 1.
Proof.
  intros Ha Hb HP.
  pose proof (div_half_even_bounds (a * P) b Hb) as [Hlo Hhi].
  assert (Hq : a * P / b / P = a / b).
  { rewrite Z.div_div by lia. apply Z.div_mul_cancel_r; lia. }
  split.
  - rewrite <- Hq. apply Z.div_le_mono; lia.
  - transitivity ((a * P / b + 1 * P) / P).
    + apply Z.div_le_mono; lia.
    + rewrite Z.div_add by lia. lia.
Qed.

(** With enough binary places for the step [1 / b], it is the exact
    quotient truncated. *)
Lemma scaled_quotient_exact (a b P : Z) :
  0 ≤ a → 0 < b → 0 < P → b < 2 * P →
  Py.div_half_even (a * P) b / P = a / b.
Proof.
  intros Ha Hb HP Hstep.
  pose proof (scaled_quotient_bounds a b P Ha Hb HP) as [Hlo _].
  apply Z.le_antisymm; [|exact Hlo].
  apply Z.lt_succ_r. apply Z.div_lt_upper_bound; [lia|].
  pose proof (Z.div_mod a b ltac:(lia)) as Ha'.
  pose proof (Z.mod_pos_bound a b Hb) as Hr.
  set (n0 := a / b) in *. set (r := a mod b) in *.
  pose proof (Z.div_mod (r * P) b ltac:(lia)) as Hu.
  pose proof (Z.mod_pos_bound (r * P) b Hb) as Hv.
  set (u := r * P / b) in *. set (v := (r * P) mod b) in *.
  assert (Hfloor : a * P / b = n0 * P + u).
  { symmetry. apply (Z.div_unique_pos _ _ _ v); [lia|]. nia. }
  assert (Hmod : (a * P) mod b = v).
  { symmetry. apply (Z.mod_unique_pos _ _ (n0 * P + u)); [lia|]. nia. }
  assert (Hu1 : u ≤ P - 1) by nia.
  destruct (Z.eq_dec (Py.div_half_even (a * P) b) (a * P / b)) as [Heq|Hne].
  - rewrite Heq, Hfloor. nia.
  - pose proof (div_half_even_up _ _ Hb Hne) as Hup. rewrite Hmod in Hup.
    pose proof (div_half_even_bounds (a * P) b Hb) as [_ Hhi].
    rewrite Hfloor in Hhi.
    assert (u ≤ P - 2) by nia.
    nia.
Qed.

Lemma int_timestamp_bounds (t : datetime) :
  0 ≤ t ≤ Datetime.MAX →
  t / 1000000 ≤ Datetime.int_timestamp t ≤ t / 1000000 + 1.
Proof.
  intros [Hlo Hhi]. unfold Datetime.int_timestamp, Datetime.timestamp,
    Datetime.US_PER_SECOND.
  destruct (Z.eq_dec t 0) as [->|Hne]; [split; vm_compute; discriminate|].
  destruct (int_of_double_places t 1000000 38) as (s & Hs & ->); try lia.
  { unfold Datetime.MAX, Datetime.US_PER_DAY, Datetime.US_PER_SECOND,
      Datetime.EPOCH_ORDINAL in Hhi. lia. }
  apply scaled_quotient_bounds; lia.
Qed.

(** Before 2514-05-30T01:53:04Z, that is below [2^34] seconds, the double
    keeps the microseconds well enough: [int(t.timestamp())] is the whole
    second of [t]. *)
Lemma int_timestamp_exact (t : datetime) :
  0 ≤ t < 2 ^ 34 * 1000000 →
  Datetime.int_timestamp t = t / 1000000.
Proof.
  intros [Hlo Hhi]. unfold Datetime.int_timestamp, Datetime.timestamp,
    Datetime.US_PER_SECOND.
  destruct (Z.eq_dec t 0) as [->|Hne]; [reflexivity|].
  destruct (int_of_double_places t 1000000 34) as (s & Hs & ->); try lia.
  assert (HP : 2 ^ 19 ≤ 2 ^ s) by (apply Z.pow_le_mono_r; lia).
  apply scaled_quotient_exact; try lia.
Qed.

Lemma truediv_pos_mantissa (a b : Z) :
  0 ≤ a → 0 < b → 0 ≤ (Py.truediv_pos a b).1.
Proof.
  intros Ha Hb. unfold Py.truediv_pos. cbn [fst].
  set (e := Z.log2 _ - _ - 52). clearbody e.
  destruct (Z.ltb_spec e 0) as [He|He].
  - assert (HP : 0 < 2 ^ (- e)) by (apply Z.pow_pos_nonneg; lia).
    pose proof (div_half_even_bounds (a * 2 ^ (- e)) b Hb) as [Hlo _].
    assert (0 ≤ a * 2 ^ (- e) / b) by (apply Z.div_pos; nia).
    lia.
  - assert (HP : 0 < 2 ^ e) by (apply Z.pow_pos_nonneg; lia).
    assert (Hb' : 0 < b * 2 ^ e) by nia.
    pose proof (div_half_even_bounds a (b * 2 ^ e) Hb') as [Hlo _].
    assert (0 ≤ a / (b * 2 ^ e)) by (apply Z.div_pos; lia).
    lia.
Qed.

Lemma int_timestamp_nonpos (t : datetime) :
  t ≤ 0 → Datetime.int_timestamp t ≤ 0.
Proof.
  intros Ht. unfold Datetime.int_timestamp, Datetime.timestamp, Py.truediv.
  destruct (Z.eqb_spec t 0) as [?|Hne]; [vm_compute; discriminate|].
  destruct (Z.ltb_spec t 0) as [Hneg|?]; [|lia].
  pose proof (truediv_pos_mantissa (- t) Datetime.US_PER_SECOND ltac:(lia) eq_refl) as Hm.
  destruct (Py.truediv_pos (- t) Datetime.US_PER_SECOND) as [m e]. cbn [fst] in Hm.
  unfold Py.int_of_double.
  destruct (Z.ltb_spec e 0) as [He|He].
  - assert (HP : 0 < 2 ^ (- e)) by (apply Z.pow_pos_nonneg; lia).
    rewrite Z.quot_opp_l by lia.
    assert (0 ≤ m ÷ 2 ^ (- e)) by (apply Z.quot_pos; lia).
    lia.
  - assert (HP : 0 < 2 ^ e) by (apply Z.pow_pos_nonneg; lia). nia.
Qed.

Lemma clock_reading_ok_range (t : datetime) :
  clock_reading_ok t → 0 < t ≤ Datetime.MAX.
Proof.
  intros [Hlo Hhi]. split; [|exact Hhi].
  destruct (Z.lt_ge_cases 0 t) as [?|Hneg]; [assumption|].
  pose proof (int_timestamp_nonpos t Hneg). lia.
Qed.

End Doubles.

(** ** Calendar fields *)

Section Calendar.

Lemma month_day_bounds (n : Z) (leapyear : bool) :
  0 ≤ n < 365 →
  1 ≤ (Datetime.month_day n leapyear).1 ≤ 12
  ∧ 1 ≤ (Datetime.month_day n leapyear).2 ≤ 31.
Proof.
  intros Hn.
  pose (ok := λ (leap : bool) (k : nat),
    let md := Datetime.month_day (Z.of_nat k) leap in
    (1 <=? md.1) && (md.1 <=? 12) && (1 <=? md.2) && (md.2 <=? 31)).
  assert (Hall : ∀ leap, forallb (ok leap) (seq 0 365) = true)
    by (intros []; vm_compute; reflexivity).
  specialize (Hall leapyear). rewrite forallb_forall in Hall.
  specialize (Hall (Z.to_nat n)). unfold ok in Hall.
  rewrite Z2Nat.id in Hall by lia.
  cbv zeta in Hall.
  rewrite !andb_true_iff, !Z.leb_le in Hall.
  assert (Hin : In (Z.to_nat n) (seq 0 365)) by (apply in_seq; lia).
  specialize (Hall Hin). lia.
Qed.

Lemma ord2ymd_bounds (ordinal : Z) :
  719163 ≤ ordinal ≤ 3652059 →
  1970 ≤ (Datetime._ord2ymd ordinal).1.1 ≤ 9999
  ∧ 1 ≤ (Datetime._ord2ymd ordinal).1.2 ≤ 12
  ∧ 1 ≤ (Datetime._ord2ymd ordinal).2 ≤ 31.
Proof.
  intros Hord. unfold Datetime._ord2ymd.
  unfold Datetime._DI400Y, Datetime._DI100Y, Datetime._DI4Y.
  set (n0 := ordinal - 1).
  set (n400 := n0 / 146097). set (r400 := n0 mod 146097).
  set (n100 := r400 / 36524). set (r100 := r400 mod 36524).
  set (n4 := r100 / 1461). set (r4 := r100 mod 1461).
  set (n1 := r4 / 365). set (r1 := r4 mod 365).
  assert (Hyear : 1970 ≤ n400 * 400 + 1 + n100 * 100 + n4 * 4 + n1
                  ∧ (n1 = 4 ∨ n100 = 4 → 1971 ≤ n400 * 400 + 1 + n100 * 100 + n4 * 4 + n1)
                  ∧ (n1 ≠ 4 → n100 ≠ 4 → n400 * 400 + 1 + n100 * 100 + n4 * 4 + n1 ≤ 9999)
                  ∧ n400 * 400 + 1 + n100 * 100 + n4 * 4 + n1 ≤ 10000).
  { subst n1 r1 n4 r4 n100 r100 n400 r400 n0.
    Z.to_euclidean_division_equations. lia. }
  assert (Hr1 : 0 ≤ r1 < 365) by (subst r1; apply Z.mod_pos_bound; lia).
  destruct ((n1 =? 4) || (n100 =? 4)) eqn:Hlast.
  - cbn [fst snd].
    apply orb_true_iff in Hlast. rewrite !Z.eqb_eq in Hlast. lia.
  - apply orb_false_iff in Hlast. rewrite !Z.eqb_neq in Hlast.
    pose proof (month_day_bounds r1
      ((n1 =? 3) && (negb (n4 =? 24) || (n100 =? 3))) Hr1) as Hmd.
    destruct (Datetime.month_day r1 _) as [m d]. cbn [fst snd] in *. lia.
Qed.

Lemma toordinal_bounds (t : datetime) :
  clock_reading_ok t → 719163 ≤ Datetime.toordinal t ≤ 3652059.
Proof.
  intros Ht. apply clock_reading_ok_range in Ht as [Hlo Hhi].
  unfold Datetime.toordinal, Datetime.MAX, Datetime.US_PER_DAY, Datetime.EPOCH_ORDINAL,
    Datetime.US_PER_SECOND in *.
  Z.to_euclidean_division_equations. lia.
Qed.

Lemma strftime_Ymd_digits (t : datetime) :
  clock_reading_ok t →
  Datetime.strftime_Ymd t
  = low4 (Datetime.year t) +:+ two_digits (Datetime.month t)
      +:+ two_digits (Datetime.day t).
Proof.
  intros Ht. unfold Datetime.strftime_Ymd.
  pose proof (ord2ymd_bounds _ (toordinal_bounds t Ht)) as (Hy & Hm & Hd).
  fold (Datetime.year t) in Hy. fold (Datetime.month t) in Hm.
  fold (Datetime.day t) in Hd.
  rewrite pad_four_digits by lia.
  now rewrite !pad_two_digits by lia.
Qed.

End Calendar.

(** ** Running handlers *)

Ltac run_handler :=
  unfold mbind, M_bind, mret, M_ret, fmap, M_fmap, raise, get_shipment,
    put_shipment, write_file, validated, now;
  cbn [fst snd shipment ticks files smtp_log].

Section Creation.
Context `{Collaborators}.

Lemma generate_tracking_code_eq (w : World) :
  generate_tracking_code w
  = (Returned (tracking_code_at (clock (ticks w))), with_ticks (S (ticks w)) w).
Proof. reflexivity. Qed.

Lemma valid_content_inv (payload : ShipmentCreate.t) :
  valid_content payload →
  ∃ email, validate_email (ShipmentCreate.receiver_email payload) = Some email
    ∧ ge_0 (ShipmentCreate.weight payload) = true
    ∧ ge_0 (ShipmentCreate.amount payload) = true.
Proof.
  intros [p Hp]. unfold ShipmentCreate.validate in Hp.
  destruct (validate_email _) as [email|]; [|discriminate].
  exists email. cbn in Hp.
  destruct (ge_0 (ShipmentCreate.weight payload)), (ge_0 (ShipmentCreate.amount payload));
    try discriminate.
  auto.
Qed.

Lemma create_shipment_eq (payload : ShipmentCreate.t) (admin : dict) (w : World)
    (email : string) :
  validate_email (ShipmentCreate.receiver_email payload) = Some email →
  ge_0 (ShipmentCreate.weight payload) = true →
  ge_0 (ShipmentCreate.amount payload) = true →
  create_shipment payload admin w
  = (Returned (list_to_map
                 [("id", VStr (str_ObjectId (length (shipment w))));
                  ("tracking_code", VStr (tracking_code_at (clock (ticks w))))]),
     with_ticks (S (S (S (ticks w))))
       (with_shipment
          (shipment w ++ [new_shipment payload email (tracking_code_at (clock (ticks w)))
                            (clock (S (ticks w))) (clock (S (S (ticks w))))]) w)).
Proof.
  intros Hemail Hw Ha. unfold create_shipment.
  run_handler. unfold generate_tracking_code. run_handler.
  unfold Shipment.validate. cbn [Shipment.receiver_email Shipment.weight Shipment.amount].
  rewrite Hemail. cbn [mbind option_bind]. rewrite Hw, Ha. cbn [andb].
  reflexivity.
Qed.

End Creation.

Section TrackingCode.
Context `{Collaborators}.

Lemma tracking_code_at_digits (t : datetime) :
  clock_reading_ok t →
  tracking_code_at t
  = "CC-" +:+ (low4 (Datetime.year t) +:+ two_digits (Datetime.month t)
                 +:+ two_digits (Datetime.day t))
      +:+ "-" +:+ low4 (Datetime.int_timestamp t).
Proof.
  intros Ht. unfold tracking_code_at.
  rewrite (strftime_Ymd_digits t Ht).
  rewrite slice_last_str_int by apply Ht.
  reflexivity.
Qed.

Lemma tracking_code_at_format (t : datetime) :
  clock_reading_ok t → tracking_code_format (tracking_code_at t) = true.
Proof.
  intros Ht. rewrite (tracking_code_at_digits t Ht).
  unfold low4, two_digits. cbv [String.append].
  cbn -[Py.is_digit Py.digit_char].
  now rewrite !is_digit_digit_char.
Qed.

(** C8.  For valid content fields and a clock reading [t] within range,
    the tracking code returned by [create_shipment] has the fixed format
    [CC-<8 digits>-<4 digits>]: the date of [t] followed by the four
    low-order digits of [int(t.timestamp())]; and the same code comes back
    whatever the collection holds, so the store is not consulted.
    [int(t.timestamp())] is the epoch second of [t] for every reading
    before [2^34] seconds (the year 2514); from there on the double of
    [timestamp()] no longer keeps the microseconds apart, and it is the
    epoch second or the next one. *)
Theorem create_tracking_code_format (payload : ShipmentCreate.t) (admin : dict)
    (w : World) :
  valid_content payload →
  clock_reading_ok (clock (ticks w)) →
  ∃ code : string,
    (∃ oid w', create_shipment payload admin w
       = (Returned (list_to_map [("id", VStr oid); ("tracking_code", VStr code)]), w'))
    ∧ tracking_code_format code = true
    ∧ code = "CC-" +:+ Datetime.strftime_Ymd (clock (ticks w)) +:+ "-"
               +:+ low4 (Datetime.int_timestamp (clock (ticks w)))
    ∧ (∀ c : Collection.t, ∃ oid w',
         create_shipment payload admin (with_shipment c w)
         = (Returned (list_to_map [("id", VStr oid); ("tracking_code", VStr code)]), w'))
    ∧ clock (ticks w) / 1000000 ≤ Datetime.int_timestamp (clock (ticks w))
      ≤ clock (ticks w) / 1000000 + 1
    ∧ (clock (ticks w) < 2 ^ 34 * 1000000 →
       Datetime.int_timestamp (clock (ticks w)) = clock (ticks w) / 1000000).
Proof.
  intros Hvalid Ht.
  destruct (valid_content_inv payload Hvalid) as (email & Hemail & Hw & Ha).
  pose proof (clock_reading_ok_range _ Ht) as Hrange.
  exists (tracking_code_at (clock (ticks w))).
  split; [|split; [|split; [|split; [|split]]]].
  - rewrite (create_shipment_eq payload admin w email Hemail Hw Ha). eauto.
  - apply tracking_code_at_format, Ht.
  - unfold tracking_code_at. now rewrite slice_last_str_int by apply Ht.
  - intros c.
    rewrite (create_shipment_eq payload admin (with_shipment c w) email Hemail Hw Ha).
    cbn [with_shipment ticks]. eauto.
  - apply int_timestamp_bounds. lia.
  - intros Hearly. apply int_timestamp_exact. lia.
Qed.

End TrackingCode.

(** ** The document store *)

Section Store.

Implicit Types (c : Collection.t) (fields doc : dict) (oid : nat).

Lemma find_index_first_match key text c oid fields :
  first_match key text c oid fields → Collection.find_index key text c = Some oid.
Proof.
  intros (Hlook & Hm & Hfirst). unfold Collection.find_index.
  assert (Hf : list_find (λ f, Collection.field_matches key text f = true) c
               = Some (oid, fields)).
  { apply list_find_Some. split; [exact Hlook|]. split; [exact Hm|].
    intros j fj Hj Hlt. rewrite (Hfirst j fj Hlt Hj). discriminate. }
  now rewrite Hf.
Qed.

Lemma find_index_Some key text c oid :
  Collection.find_index key text c = Some oid →
  ∃ fields, first_match key text c oid fields.
Proof.
  unfold Collection.find_index. intros Hf.
  destruct (list_find _ c) as [[i fields]|] eqn:E; [|discriminate].
  cbn in Hf. injection Hf as ->.
  apply list_find_Some in E as (Hlook & Hm & Hfirst).
  exists fields. split; [exact Hlook|]. split; [exact Hm|].
  intros j fj Hlt Hj. specialize (Hfirst j fj Hj Hlt).
  now destruct (Collection.field_matches key text fj).
Qed.

Lemma find_index_no_match key text c :
  no_match key text c → Collection.find_index key text c = None.
Proof.
  intros Hno. unfold Collection.find_index.
  assert (Hf : list_find (λ f, Collection.field_matches key text f = true) c = None).
  { apply list_find_None. eapply Forall_impl; [exact Hno|].
    intros f Hf. cbn in Hf. rewrite Hf. discriminate. }
  now rewrite Hf.
Qed.

Lemma find_index_None key text c :
  Collection.find_index key text c = None → no_match key text c.
Proof.
  unfold Collection.find_index. intros Hf.
  destruct (list_find _ c) as [[i fields]|] eqn:E; [discriminate|].
  apply list_find_None in E. eapply Forall_impl; [exact E|].
  intros f Hn. cbn in Hn. now destruct (Collection.field_matches key text f).
Qed.

Lemma find_one_first_match key text c oid fields :
  first_match key text c oid fields →
  Collection.find_one key text c = Some (Collection.document oid fields).
Proof.
  intros Hfm. unfold Collection.find_one.
  rewrite (find_index_first_match _ _ _ _ _ Hfm). cbn.
  destruct Hfm as (-> & _). reflexivity.
Qed.

Lemma find_one_no_match key text c :
  no_match key text c → Collection.find_one key text c = None.
Proof.
  intros Hno. unfold Collection.find_one.
  now rewrite (find_index_no_match _ _ _ Hno).
Qed.

Lemma document_id oid fields :
  Collection.document oid fields !! "_id" = Some (VObjectId oid).
Proof. apply lookup_insert_eq. Qed.

Lemma document_field oid fields (k : string) :
  k ≠ "_id" → Collection.document oid fields !! k = fields !! k.
Proof. intros Hk. unfold Collection.document. now rewrite lookup_insert_ne. Qed.

Lemma truthy_document oid fields :
  truthy_doc (Some (Collection.document oid fields)) = true.
Proof.
  unfold truthy_doc, Collection.document.
  destruct (size (<["_id" := VObjectId oid]> fields)) eqn:E; [|reflexivity].
  apply map_size_empty_iff in E. now apply insert_non_empty in E.
Qed.

Lemma stringify_document oid fields :
  <["_id" := VStr (str_ObjectId oid)]> (Collection.document oid fields)
  = <["_id" := VStr (str_ObjectId oid)]> fields.
Proof. unfold Collection.document. apply insert_insert_eq. Qed.

End Store.

Section Lookup.
Context `{Collaborators}.

Lemma stringify_id_document (oid : nat) (fields : dict) (w : World) :
  stringify_id (Collection.document oid fields) w
  = (Returned (<["_id" := VStr (str_ObjectId oid)]> fields), w).
Proof.
  unfold stringify_id. rewrite document_id. run_handler.
  now rewrite stringify_document.
Qed.

(** C4.  [public_track] on a code that no stored shipment carries fails
    with [404 Tracking Number Not Found], of kind [NotFound], and with
    nothing else; on a code that a stored shipment carries it returns
    that shipment (the first in the collection should several carry the
    code) with every stored field as it is: [location], [timeline],
    [proof_of_delivery_url] and all others; only [_id] is turned into
    text. *)
Theorem public_track_spec (tracking_code : string) (w : World) :
  (no_match "tracking_code" tracking_code (shipment w) →
     public_track tracking_code w
     = (Raised (HTTPException 404 "Tracking Number Not Found"), w)
     ∧ error_kind (HTTPException 404 "Tracking Number Not Found") = NotFound)
  ∧ (∀ oid fields,
       first_match "tracking_code" tracking_code (shipment w) oid fields →
       ∃ doc, public_track tracking_code w = (Returned doc, w)
         ∧ doc !! "_id" = Some (VStr (str_ObjectId oid))
         ∧ (∀ k : string, k ≠ "_id" → doc !! k = fields !! k)
         ∧ doc !! "location" = fields !! "location"
         ∧ doc !! "timeline" = fields !! "timeline"
         ∧ doc !! "proof_of_delivery_url" = fields !! "proof_of_delivery_url").
Proof.
  split.
  - intros Hno. split; [|reflexivity].
    unfold public_track. run_handler.
    now rewrite (find_one_no_match _ _ _ Hno).
  - intros oid fields Hfm.
    exists (<["_id" := VStr (str_ObjectId oid)]> fields).
    split; [|split; [|split]].
    + unfold public_track. run_handler.
      rewrite (find_one_first_match _ _ _ _ _ Hfm), truthy_document. cbn [negb].
      apply stringify_id_document.
    + apply lookup_insert_eq.
    + intros k Hk. now rewrite lookup_insert_ne.
    + now rewrite !lookup_insert_ne.
Qed.

End Lookup.

(** ** Status and location updates *)

Section Update.
Context `{Collaborators}.

Lemma truthy_status_text (s : StatusLiteral) : Py.truthy_str (status_text s) = true.
Proof. now destruct s. Qed.

Lemma timeline_default (fields : dict) :
  timeline_is_list fields →
  default (VList []) (fields !! "timeline") = VList (doc_timeline fields).
Proof.
  unfold timeline_is_list, doc_timeline.
  destruct (fields !! "timeline") as [[]|]; cbn; intros Hl; try easy.
Qed.

Lemma update_shipment_unknown (tracking_code : string) (payload : ShipmentUpdate.t)
    (admin : dict) (w : World) :
  no_match "tracking_code" tracking_code (shipment w) →
  update_shipment tracking_code payload admin w
  = (Raised (HTTPException 404 "Shipment not found"), w).
Proof.
  intros Hno. unfold update_shipment. run_handler.
  now rewrite (find_one_no_match _ _ _ Hno).
Qed.

Lemma appendable_or_not (payload : ShipmentUpdate.t) (fields : dict) :
  appendable payload fields ∨ ¬ appendable payload fields.
Proof.
  unfold appendable, timeline_is_list.
  destruct (ShipmentUpdate.status payload); [|now left].
  destruct (fields !! "timeline") as [[]|]; (now left) || (now right).
Qed.

Lemma update_shipment_found (tracking_code : string) (payload : ShipmentUpdate.t)
    (admin : dict) (w : World) (oid : nat) (fields : dict) :
  first_match "tracking_code" tracking_code (shipment w) oid fields →
  appendable payload fields →
  let updates := update_set payload (doc_timeline fields) (ticks w) in
  update_shipment tracking_code payload admin w
  = (Returned (<["_id" := VStr (str_ObjectId oid)]> (updates ∪ fields)),
     with_ticks (S (update_last_tick payload (ticks w)))
       (with_shipment (<[oid := updates ∪ fields]> (shipment w)) w)).
Proof.
  intros Hfm Hlist updates. subst updates.
  unfold update_shipment. run_handler.
  rewrite (find_one_first_match _ _ _ _ _ Hfm), truthy_document. cbn [negb].
  rewrite document_id.
  rewrite (document_field oid fields "timeline") by discriminate.
  destruct Hfm as (Hlook & _).
  assert (Halter : ∀ u : dict,
    Collection.update_one_id oid u (shipment w) = <[oid := u ∪ fields]> (shipment w)).
  { intros u. unfold Collection.update_one_id, Collection.set_fields.
    apply list_eq. intros j. destruct (decide (j = oid)) as [->|Hne].
    - rewrite list_lookup_alter_eq, Hlook. cbn.
      rewrite list_lookup_insert_eq; [reflexivity|]. now apply lookup_lt_Some in Hlook.
    - rewrite list_lookup_alter_ne, list_lookup_insert_ne by auto. reflexivity. }
  assert (Hafter : ∀ u : dict,
    Collection.find_one_id oid (<[oid := u ∪ fields]> (shipment w))
    = Some (Collection.document oid (u ∪ fields))).
  { intros u. unfold Collection.find_one_id.
    rewrite list_lookup_insert_eq; [reflexivity|]. now apply lookup_lt_Some in Hlook. }
  unfold appendable in Hlist.
  unfold update_set, update_last_tick, timeline_entry.
  destruct (ShipmentUpdate.status payload) as [s|].
  - rewrite (timeline_default fields Hlist).
    rewrite truthy_status_text. unfold timeline_append. run_handler.
    rewrite Halter, Hafter. rewrite stringify_id_document. reflexivity.
  - run_handler. rewrite Halter, Hafter. rewrite stringify_id_document. reflexivity.
Qed.

End Update.

Section UpdateSpec.
Context `{Collaborators}.

Lemma update_set_status (payload : ShipmentUpdate.t) (items : list value) (n : nat) :
  update_set payload items n !! "status"
  = (λ s, VStr (status_text s)) <$> ShipmentUpdate.status payload.
Proof.
  unfold update_set.
  destruct (ShipmentUpdate.status payload), (ShipmentUpdate.location payload);
    now simplify_map_eq.
Qed.

Lemma update_set_timeline (payload : ShipmentUpdate.t) (items : list value) (n : nat) :
  update_set payload items n !! "timeline"
  = (λ s, VList (items ++ [VDict (timeline_entry (status_text s) (clock n))]))
      <$> ShipmentUpdate.status payload.
Proof.
  unfold update_set.
  destruct (ShipmentUpdate.status payload), (ShipmentUpdate.location payload);
    now simplify_map_eq.
Qed.

Lemma update_set_location (payload : ShipmentUpdate.t) (items : list value) (n : nat) :
  update_set payload items n !! "location"
  = (λ l, VDict (Location_model_dump l)) <$> ShipmentUpdate.location payload.
Proof.
  unfold update_set.
  destruct (ShipmentUpdate.status payload), (ShipmentUpdate.location payload);
    now simplify_map_eq.
Qed.

Lemma update_set_last_update (payload : ShipmentUpdate.t) (items : list value) (n : nat) :
  update_set payload items n !! "last_update"
  = Some (VDatetime (clock (update_last_tick payload n))).
Proof. unfold update_set. now simplify_map_eq. Qed.

Lemma update_set_other (payload : ShipmentUpdate.t) (items : list value) (n : nat)
    (k : string) :
  k ≠ "status" → k ≠ "timeline" → k ≠ "location" → k ≠ "last_update" →
  update_set payload items n !! k = None.
Proof.
  intros. unfold update_set.
  destruct (ShipmentUpdate.status payload), (ShipmentUpdate.location payload);
    now simplify_map_eq.
Qed.

(** C2.  [update_shipment] on a code that no stored shipment carries
    fails with [404 Shipment not found].  On the shipment that carries the
    code: a supplied status is written to [status] and one entry with that
    status and the clock reading of the call is appended to the timeline;
    a supplied location replaces [location] as a whole; [last_update]
    becomes the last clock reading of the call, whether or not status and
    location were supplied; every other field stays; and the record as
    updated is returned. *)
Theorem update_shipment_spec (tracking_code : string) (payload : ShipmentUpdate.t)
    (admin : dict) (w : World) :
  (no_match "tracking_code" tracking_code (shipment w) →
     update_shipment tracking_code payload admin w
     = (Raised (HTTPException 404 "Shipment not found"), w)
     ∧ error_kind (HTTPException 404 "Shipment not found") = NotFound)
  ∧ (∀ oid fields,
       first_match "tracking_code" tracking_code (shipment w) oid fields →
       appendable payload fields →
       ∃ fields' w',
         update_shipment tracking_code payload admin w
         = (Returned (<["_id" := VStr (str_ObjectId oid)]> fields'), w')
         ∧ shipment w' = <[oid := fields']> (shipment w)
         ∧ (∀ s, ShipmentUpdate.status payload = Some s →
              fields' !! "status" = Some (VStr (status_text s))
              ∧ fields' !! "timeline"
                = Some (VList (doc_timeline fields
                          ++ [VDict (timeline_entry (status_text s) (clock (ticks w)))])))
         ∧ (ShipmentUpdate.status payload = None →
              fields' !! "status" = fields !! "status"
              ∧ fields' !! "timeline" = fields !! "timeline")
         ∧ (∀ l, ShipmentUpdate.location payload = Some l →
              fields' !! "location" = Some (VDict (Location_model_dump l)))
         ∧ (ShipmentUpdate.location payload = None →
              fields' !! "location" = fields !! "location")
         ∧ (ticks w < ticks w')%nat
         ∧ fields' !! "last_update" = Some (VDatetime (clock (ticks w' - 1)))
         ∧ (∀ k : string,
              k ≠ "status" → k ≠ "timeline" → k ≠ "location" → k ≠ "last_update" →
              fields' !! k = fields !! k)).
Proof.
  split.
  - intros Hno. split; [|reflexivity].
    now apply update_shipment_unknown.
  - intros oid fields Hfm Hlist.
    eexists _, _. split; [apply (update_shipment_found _ _ _ _ _ _ Hfm Hlist)|].
    cbn [with_ticks with_shipment shipment ticks].
    split; [reflexivity|].
    split; [|split; [|split; [|split; [|split; [|split]]]]].
    + intros s Hs.
      split; apply lookup_union_Some_l.
      * now rewrite update_set_status, Hs.
      * now rewrite update_set_timeline, Hs.
    + intros Hs.
      split; apply lookup_union_r.
      * now rewrite update_set_status, Hs.
      * now rewrite update_set_timeline, Hs.
    + intros l Hl. apply lookup_union_Some_l.
      now rewrite update_set_location, Hl.
    + intros Hl. apply lookup_union_r.
      now rewrite update_set_location, Hl.
    + unfold update_last_tick. destruct (ShipmentUpdate.status payload); lia.
    + apply lookup_union_Some_l. rewrite update_set_last_update.
      do 3 f_equal. lia.
    + intros k ? ? ? ?. apply lookup_union_r. now apply update_set_other.
Qed.

End UpdateSpec.

(** ** What one operation does to the collection *)

Section Effects.
Context `{Collaborators}.

Lemma match_or_not (key text : string) (c : Collection.t) :
  no_match key text c ∨ ∃ oid fields, first_match key text c oid fields.
Proof.
  destruct (Collection.find_index key text c) as [oid|] eqn:E.
  - right. exists oid. now apply find_index_Some.
  - left. now apply find_index_None.
Qed.

Lemma stringify_id_world (doc : dict) (w : World) : (stringify_id doc w).2 = w.
Proof. unfold stringify_id. now destruct (doc !! "_id") as [[]|]. Qed.

Lemma stringify_ids_world (items : list dict) (w : World) :
  (stringify_ids items w).2 = w.
Proof.
  induction items as [|it rest IH]; [reflexivity|].
  cbn [stringify_ids]. run_handler.
  pose proof (stringify_id_world it w) as Hit.
  destruct (stringify_id it w) as [[it'|e] w1]; cbn in Hit; subst w1; [|reflexivity].
  destruct (stringify_ids rest w) as [[rest'|e] w2]; cbn in IH; subst w2; reflexivity.
Qed.

Lemma login_shipment (username password : string) (w : World) :
  shipment (login username password w).2 = shipment w.
Proof.
  unfold login, credentials_refused, verify_password, create_access_token.
  run_handler.
  destruct (negb (String.eqb username ADMIN_EMAIL)); [reflexivity|].
  destruct (pwd_verify password ADMIN_HASH) as [[]|exception]; try reflexivity.
  cbn [negb]. now destruct (Datetime.add _ _).
Qed.

Lemma send_email_shipment (to_email : option value) (subject body : string) (w : World) :
  shipment (send_email to_email subject body w).2 = shipment w.
Proof.
  unfold send_email.
  destruct (int_text _); [|reflexivity].
  destruct (getenv "SMTP_HOST"), (getenv "SMTP_USER"), (getenv "SMTP_PASS");
    try reflexivity.
  destruct (negb _); [reflexivity|].
  unfold set_header, smtp_send. run_handler.
  destruct (header_error "From" _); [reflexivity|].
  destruct (header_error "To" _); [reflexivity|].
  destruct (header_error "Subject" _); [reflexivity|].
  now destruct (smtp_transport _).
Qed.

Lemma notify_receiver_shipment (tracking_code : string) (admin : dict) (w : World) :
  shipment (notify_receiver tracking_code admin w).2 = shipment w.
Proof.
  unfold notify_receiver. run_handler.
  destruct (negb _); [reflexivity|].
  destruct (Collection.find_one _ _ _) as [doc|]; [|reflexivity].
  match goal with |- context [send_email ?a ?b ?c w] =>
    pose proof (send_email_shipment a b c w) as Hs;
    destruct (send_email a b c w) as [[ok|e] w1] end; exact Hs.
Qed.

Lemma public_track_shipment (tracking_code : string) (w : World) :
  shipment (public_track tracking_code w).2 = shipment w.
Proof.
  unfold public_track. run_handler.
  destruct (negb _); [reflexivity|].
  destruct (Collection.find_one _ _ _) as [doc|]; [|reflexivity].
  now rewrite stringify_id_world.
Qed.

Lemma update_shipment_stuck (tracking_code : string) (payload : ShipmentUpdate.t)
    (admin : dict) (w : World) (oid : nat) (fields : dict) :
  first_match "tracking_code" tracking_code (shipment w) oid fields →
  ¬ appendable payload fields →
  update_shipment tracking_code payload admin w
  = (Raised (Uncaught "AttributeError"), w).
Proof.
  intros Hfm Hstuck. unfold update_shipment. run_handler.
  rewrite (find_one_first_match _ _ _ _ _ Hfm), truthy_document. cbn [negb].
  rewrite (document_field oid fields "timeline") by discriminate.
  unfold appendable, timeline_is_list in Hstuck.
  destruct (ShipmentUpdate.status payload) as [s|]; [|now destruct Hstuck].
  rewrite truthy_status_text.
  destruct (fields !! "timeline") as [[]|]; try reflexivity; now destruct Hstuck.
Qed.

Lemma append_assoc_stem (a b c : string) : (a +:+ b +:+ "-") +:+ c = a +:+ b +:+ "-" +:+ c.
Proof. now rewrite !append_assoc. Qed.

Lemma upload_proof_eq (tracking_code filename : string) (content : list byte)
    (admin : dict) (w : World) :
  open_error ("logs/" +:+ tracking_code +:+ "-") filename (files w) = None →
  let path := "logs/" +:+ tracking_code +:+ "-" +:+ filename in
  upload_proof tracking_code filename content admin w
  = (Returned {["url" := VStr ("/" +:+ path)]},
     {| shipment :=
          Collection.update_one "tracking_code" tracking_code
            {["proof_of_delivery_url" := VStr ("/" +:+ path)]} (shipment w);
        ticks := ticks w;
        files := <[path := content]> (files w);
        smtp_log := smtp_log w |}).
Proof.
  intros Hopen path. unfold upload_proof, write_upload. run_handler.
  rewrite Hopen. cbn [fst snd shipment ticks files smtp_log].
  now rewrite append_assoc_stem.
Qed.

Lemma upload_proof_refused (tracking_code filename : string) (content : list byte)
    (admin : dict) (w : World) (exception : string) :
  open_error ("logs/" +:+ tracking_code +:+ "-") filename (files w) = Some exception →
  upload_proof tracking_code filename content admin w = (Raised (Uncaught exception), w).
Proof.
  intros Hopen. unfold upload_proof, write_upload. run_handler. now rewrite Hopen.
Qed.

Lemma alter_first_match (key text : string) (c : Collection.t) (oid : nat)
    (fields : dict) (g : dict → dict) :
  first_match key text c oid fields → alter g oid c = <[oid := g fields]> c.
Proof.
  intros (Hlook & _). apply list_eq. intros j.
  destruct (decide (j = oid)) as [->|Hne].
  - rewrite list_lookup_alter_eq, Hlook. cbn.
    rewrite list_lookup_insert_eq; [reflexivity|]. now apply lookup_lt_Some in Hlook.
  - now rewrite list_lookup_alter_ne, list_lookup_insert_ne by auto.
Qed.

(** Every operation has one of the listed effects. *)
Lemma run_effect (op : Op) (w : World) : op_effect w op (shipment (run op w).2).
Proof.
  destruct op as [u p|payload admin|admin|code|code payload admin
                  |code filename content admin|code admin]; cbn [run]; run_handler.
  - pose proof (login_shipment u p w) as Hs.
    destruct (login u p w) as [[r|e] w1]; cbn in Hs |- *; rewrite Hs; constructor.
  - destruct (validate_email (ShipmentCreate.receiver_email payload)) as [email|] eqn:He;
      [destruct (ge_0 (ShipmentCreate.weight payload)) eqn:Hw;
       [destruct (ge_0 (ShipmentCreate.amount payload)) eqn:Ha|]|].
    + rewrite (create_shipment_eq payload admin w email He Hw Ha). cbn.
      now apply effect_create.
    + assert (Hr : shipment (create_shipment payload admin w).2 = shipment w).
      { unfold create_shipment, generate_tracking_code, Shipment.validate. run_handler.
        cbn. rewrite He. cbn. now rewrite Hw, Ha. }
      destruct (create_shipment payload admin w) as [[r|e] w1]; cbn in Hr |- *;
        rewrite Hr; apply effect_create_refused;
        intros Hv; apply valid_content_inv in Hv as (? & ? & ? & ?); congruence.
    + assert (Hr : shipment (create_shipment payload admin w).2 = shipment w).
      { unfold create_shipment, generate_tracking_code, Shipment.validate. run_handler.
        cbn. rewrite He. cbn. now rewrite Hw. }
      destruct (create_shipment payload admin w) as [[r|e] w1]; cbn in Hr |- *;
        rewrite Hr; apply effect_create_refused;
        intros Hv; apply valid_content_inv in Hv as (? & ? & ? & ?); congruence.
    + assert (Hr : shipment (create_shipment payload admin w).2 = shipment w).
      { unfold create_shipment, generate_tracking_code, Shipment.validate. run_handler.
        cbn. now rewrite He. }
      destruct (create_shipment payload admin w) as [[r|e] w1]; cbn in Hr |- *;
        rewrite Hr; apply effect_create_refused;
        intros Hv; apply valid_content_inv in Hv as (? & ? & ? & ?); congruence.
  - unfold list_shipments. run_handler.
    pose proof (stringify_ids_world
      (Collection.find_sort_desc_limit "last_update" 200 (shipment w)) w) as Hs.
    destruct (stringify_ids _ w) as [[r|e] w1]; cbn in Hs |- *; subst w1; constructor.
  - pose proof (public_track_shipment code w) as Hs.
    destruct (public_track code w) as [[r|e] w1]; cbn in Hs |- *; rewrite Hs; constructor.
  - destruct (match_or_not "tracking_code" code (shipment w)) as [Hno|(oid & f & Hfm)].
    + rewrite (update_shipment_unknown code payload admin w Hno). cbn.
      now apply effect_update_unknown.
    + destruct (appendable_or_not payload f) as [Hok|Hstuck].
      * rewrite (update_shipment_found code payload admin w oid f Hfm Hok). cbn.
        now apply effect_update.
      * rewrite (update_shipment_stuck code payload admin w oid f Hfm Hstuck). cbn.
        now apply (effect_update_stuck w code payload admin oid f).
  - destruct (open_error ("logs/" +:+ code +:+ "-") filename (files w)) as [exception|]
      eqn:Hopen.
    { rewrite (upload_proof_refused _ _ _ _ _ _ Hopen). cbn.
      apply effect_proof_refused. now rewrite Hopen. }
    rewrite (upload_proof_eq _ _ _ _ _ Hopen). cbn. unfold Collection.update_one.
    destruct (match_or_not "tracking_code" code (shipment w)) as [Hno|(oid & f & Hfm)].
    + rewrite (find_index_no_match _ _ _ Hno). now apply effect_proof_unknown.
    + rewrite (find_index_first_match _ _ _ _ _ Hfm).
      rewrite (alter_first_match _ _ _ _ _ _ Hfm). now apply effect_proof.
  - pose proof (notify_receiver_shipment code admin w) as Hs.
    destruct (notify_receiver code admin w) as [[r|e] w1]; cbn in Hs |- *; rewrite Hs;
      constructor.
Qed.

End Effects.

(** ** Timelines over sequences of operations *)

Section Timeline.
Context `{Collaborators}.

Implicit Types (c : Collection.t) (fields : dict) (oid : nat).

Lemma first_match_unique key text c i j f g :
  first_match key text c i f → first_match key text c j g → i = j ∧ f = g.
Proof.
  intros (Hi & Hmi & Hfi) (Hj & Hmj & Hfj).
  assert (i = j) as ->.
  { destruct (Nat.lt_trichotomy i j) as [Hlt|[Heq|Hgt]]; [|exact Heq|].
    - rewrite (Hfj i f Hlt Hi) in Hmi. discriminate.
    - rewrite (Hfi j g Hgt Hj) in Hmj. discriminate. }
  split; [reflexivity|]. congruence.
Qed.

Lemma doc_timeline_eq fields fields' :
  fields' !! "timeline" = fields !! "timeline" →
  doc_timeline fields' = doc_timeline fields.
Proof. unfold doc_timeline. now intros ->. Qed.

Lemma doc_timeline_list fields items :
  fields !! "timeline" = Some (VList items) → doc_timeline fields = items.
Proof. unfold doc_timeline. now intros ->. Qed.

(** What an update leaves in the document it reaches. *)
Lemma updated_timeline payload fields n :
  appendable payload fields →
  doc_timeline (update_set payload (doc_timeline fields) n ∪ fields)
  = doc_timeline fields
      ++ match ShipmentUpdate.status payload with
         | Some s => [VDict (timeline_entry (status_text s) (clock n))]
         | None => []
         end.
Proof.
  intros Hok. destruct (ShipmentUpdate.status payload) as [s|] eqn:Hs.
  - apply doc_timeline_list, lookup_union_Some_l.
    now rewrite update_set_timeline, Hs.
  - rewrite app_nil_r. apply doc_timeline_eq, lookup_union_r.
    now rewrite update_set_timeline, Hs.
Qed.


Lemma proof_timeline (url : value) fields :
  ({["proof_of_delivery_url" := url]} ∪ fields : dict) !! "timeline"
  = fields !! "timeline".
Proof. apply lookup_union_r. now simplify_map_eq. Qed.

Lemma proof_status (url : value) fields :
  ({["proof_of_delivery_url" := url]} ∪ fields : dict) !! "status"
  = fields !! "status".
Proof. apply lookup_union_r. now simplify_map_eq. Qed.



End Timeline.

Section Shipments.
Context `{Collaborators}.

Implicit Types (c : Collection.t) (fields : dict) (oid : nat).

Lemma new_shipment_status payload email code t1 t2 :
  new_shipment payload email code t1 t2 !! "status" = Some (VStr "Order Received").
Proof. reflexivity. Qed.

Lemma new_shipment_timeline payload email code t1 t2 :
  new_shipment payload email code t1 t2 !! "timeline"
  = Some (VList [VDict (timeline_entry "Order Received" t1)]).
Proof. reflexivity. Qed.

Lemma new_shipment_last_update payload email code t1 t2 :
  new_shipment payload email code t1 t2 !! "last_update" = Some (VDatetime t2).
Proof. reflexivity. Qed.

Lemma new_shipment_tracking_code payload email code t1 t2 :
  new_shipment payload email code t1 t2 !! "tracking_code" = Some (VStr code).
Proof. reflexivity. Qed.

Lemma timeline_entry_status status t :
  entry_status (VDict (timeline_entry status t)) = Some (VStr status).
Proof. reflexivity. Qed.




(** The status field keeps repeating the last timeline entry. *)
Lemma run_status_last (op : Op) (w : World) oid fields :
  shipment w !! oid = Some fields →
  status_is_last_entry fields →
  ∃ fields', shipment (run op w).2 !! oid = Some fields' ∧ status_is_last_entry fields'.
Proof.
  intros Hlook Hinv. pose proof (run_effect op w) as Heff.
  set (c' := shipment (run op w).2) in *. clearbody c'.
  inversion Heff as
    [u p Hop Hc|payload admin email He Hw Ha Hop Hc|payload admin Hinv' Hop Hc
    |admin Hop Hc|code Hop Hc|code payload admin Hno Hop Hc
    |code payload admin j f Hfm Hok Hop Hc|code payload admin j f Hfm Hstuck Hop Hc
    |code fn content admin Hno Hop Hc|code fn content admin Hrefused Hop Hc
    |code fn content admin j f Hfm Hop Hc
    |code admin Hop Hc]; subst op c'.
  1, 3, 4, 5, 6, 8, 9, 10, 12: by (exists fields).
  - exists fields. split; [|exact Hinv]. now apply lookup_app_l_Some.
  - destruct (decide (j = oid)) as [->|Hne].
    + assert (f = fields) as -> by (destruct Hfm as (Hf & _); congruence).
      eexists. split; [apply list_lookup_insert_eq; now apply lookup_lt_Some in Hlook|].
      unfold status_is_last_entry. rewrite (updated_timeline payload fields _ Hok).
      destruct (ShipmentUpdate.status payload) as [s|] eqn:Hs.
      * exists (status_text s). split.
        -- apply lookup_union_Some_l. now rewrite update_set_status, Hs.
        -- now rewrite last_snoc.
      * destruct Hinv as (st & Hst & Hlast). exists st. split.
        -- rewrite lookup_union_r; [exact Hst|]. now rewrite update_set_status, Hs.
        -- now rewrite app_nil_r.
    + exists fields. split; [|exact Hinv]. now rewrite list_lookup_insert_ne.
  - destruct (decide (j = oid)) as [->|Hne].
    + assert (f = fields) as -> by (destruct Hfm as (Hf & _); congruence).
      eexists. split; [apply list_lookup_insert_eq; now apply lookup_lt_Some in Hlook|].
      destruct Hinv as (st & Hst & Hlast). exists st. split.
      * now rewrite proof_status.
      * now rewrite (doc_timeline_eq fields _ (proof_timeline _ fields)).
    + exists fields. split; [|exact Hinv]. now rewrite list_lookup_insert_ne.
Qed.

Lemma run_all_status_last (ops : list Op) (w : World) oid fields :
  shipment w !! oid = Some fields →
  status_is_last_entry fields →
  ∃ fields', shipment (run_all ops w) !! oid = Some fields'
    ∧ status_is_last_entry fields'.
Proof.
  revert w fields. induction ops as [|op ops IH]; intros w fields Hlook Hinv.
  - now exists fields.
  - destruct (run_status_last op w oid fields Hlook Hinv) as (f1 & Hl1 & Hinv1).
    exact (IH _ f1 Hl1 Hinv1).
Qed.

(** The shipment that a creation stores. *)
Lemma created_shipment (payload : ShipmentCreate.t) (admin : dict) (w : World) :
  valid_content payload →
  ∃ email,
    validate_email (ShipmentCreate.receiver_email payload) = Some email
    ∧ shipment (create_shipment payload admin w).2
      = shipment w ++ [new_shipment payload email (tracking_code_at (clock (ticks w)))
                         (clock (S (ticks w))) (clock (S (S (ticks w))))].
Proof.
  intros Hvalid.
  destruct (valid_content_inv payload Hvalid) as (email & Hemail & Hw & Ha).
  exists email. split; [exact Hemail|].
  now rewrite (create_shipment_eq payload admin w email Hemail Hw Ha).
Qed.

(** C10.  A shipment stored by [create_shipment] has, after any sequence
    of operations, a [status] field that equals the status of the last
    entry of its timeline. *)
Theorem status_equals_last_timeline_entry (payload : ShipmentCreate.t) (admin : dict)
    (w : World) (ops : list Op) :
  valid_content payload →
  ∃ fields status,
    shipment (run_all ops (create_shipment payload admin w).2) !! length (shipment w)
    = Some fields
    ∧ fields !! "status" = Some (VStr status)
    ∧ (entry_status <$> last (doc_timeline fields)) = Some (Some (VStr status)).
Proof.
  intros Hvalid.
  destruct (created_shipment payload admin w Hvalid) as (email & _ & Hc).
  set (doc := new_shipment payload email (tracking_code_at (clock (ticks w)))
                (clock (S (ticks w))) (clock (S (S (ticks w))))) in Hc.
  assert (Hlook : shipment (create_shipment payload admin w).2 !! length (shipment w)
                  = Some doc).
  { rewrite Hc. apply list_lookup_middle. reflexivity. }
  assert (Hinv : status_is_last_entry doc).
  { exists "Order Received". split; reflexivity. }
  destruct (run_all_status_last ops _ _ doc Hlook Hinv) as (f & Hf & st & Hst & Hlast).
  now exists f, st.
Qed.

End Shipments.

Section ByCode.
Context `{Collaborators}.

Implicit Types (c : Collection.t) (fields : dict) (oid : nat).

Lemma field_matches_key (key text : string) fields fields' :
  fields' !! key = fields !! key →
  Collection.field_matches key text fields' = Collection.field_matches key text fields.
Proof. unfold Collection.field_matches. now intros ->. Qed.







End ByCode.

(** ** Listing *)

Section Listing.
Context `{Collaborators}.

#[local] Instance key_le_total : Total Collection.key_le.
Proof. intros [a1 a2] [b1 b2]. unfold Collection.key_le. cbn. lia. Qed.

#[local] Instance key_le_trans : Transitive Collection.key_le.
Proof.
  intros [a1 a2] [b1 b2] [c1 c2]. unfold Collection.key_le. cbn. lia.
Qed.

#[local] Instance desc_total key : Total (Collection.desc key).
Proof. intros a b. unfold Collection.desc. apply key_le_total. Qed.

#[local] Instance desc_trans key : Transitive (Collection.desc key).
Proof.
  intros a b c Hab Hbc. unfold Collection.desc in *.
  exact (key_le_trans _ _ _ Hbc Hab).
Qed.

Lemma stringify_ids_stored (items : list dict) (w : World) :
  Forall has_object_id items →
  stringify_ids items w = (Returned (with_text_id <$> items), w).
Proof.
  induction 1 as [|it rest [oid Hid] _ IH]; [reflexivity|].
  cbn [stringify_ids]. run_handler.
  unfold stringify_id, with_text_id. rewrite Hid. run_handler.
  rewrite IH. cbn. unfold with_text_id at 1. now rewrite Hid.
Qed.

Lemma find_has_object_id (c : Collection.t) :
  Forall has_object_id (Collection.find c).
Proof.
  apply Forall_forall. intros doc Hin. unfold Collection.find in Hin.
  apply elem_of_lookup_imap in Hin as (i & f & -> & _).
  exists i. apply document_id.
Qed.

Lemma sort_key_with_text_id (key : string) (doc : dict) :
  key ≠ "_id" → Collection.sort_key key (with_text_id doc) = Collection.sort_key key doc.
Proof.
  intros Hk. unfold Collection.sort_key, with_text_id.
  destruct (doc !! "_id") as [[]|]; try reflexivity.
  now rewrite lookup_insert_ne by auto.
Qed.

(** C7.  [list_shipments] returns, in every state of the store, at most
    200 records, ordered by [last_update] from the latest down: every
    record stands before all records that sort lower. *)
Theorem list_shipments_spec (admin : dict) (w : World) :
  ∃ items,
    list_shipments admin w = (Returned items, w)
    ∧ (length items ≤ 200)%nat
    ∧ length items = Nat.min 200 (length (shipment w))
    ∧ StronglySorted (Collection.desc "last_update") items
    ∧ Sorted (Collection.desc "last_update") items.
Proof.
  set (sorted := merge_sort (Collection.desc "last_update") (Collection.find (shipment w))).
  assert (Hperm : sorted ≡ₚ Collection.find (shipment w)) by apply merge_sort_Permutation.
  assert (Hids : Forall has_object_id (take 200 sorted)).
  { apply Forall_take. rewrite Hperm. apply find_has_object_id. }
  assert (Hsorted : StronglySorted (Collection.desc "last_update") (take 200 sorted)).
  { apply (StronglySorted_app_1_l _ _ (drop 200 sorted)). rewrite take_drop.
    apply Sorted_StronglySorted; [apply _|]. apply Sorted_merge_sort. apply _. }
  assert (Hout : StronglySorted (Collection.desc "last_update")
                   (with_text_id <$> take 200 sorted)).
  { eapply StronglySorted_fmap; [|exact Hsorted].
    intros x y. unfold Collection.desc.
    now rewrite !sort_key_with_text_id by discriminate. }
  exists (with_text_id <$> take 200 sorted).
  split; [|split; [|split; [|split]]].
  - unfold list_shipments. run_handler.
    unfold Collection.find_sort_desc_limit. fold sorted.
    apply stringify_ids_stored, Hids.
  - rewrite length_fmap, length_take. lia.
  - rewrite length_fmap, length_take, Hperm.
    unfold Collection.find. now rewrite length_imap.
  - exact Hout.
  - now apply StronglySorted_Sorted.
Qed.

End Listing.

Example demo_create :
  (@create_shipment Demo.offline Demo.parcel ∅ Demo.empty_world).1
  = Returned (list_to_map [("id", VStr "000000000000000000000000");
                           ("tracking_code", VStr "CC-20241104-4400")]).
Proof. vm_compute. reflexivity. Qed.

Example demo_track_after_update :
  match (public_track Demo.parcel_code
           (@update_shipment Demo.offline Demo.parcel_code Demo.in_transit ∅
              (Demo.one_parcel Demo.offline)).2).1 with
  | Returned doc => (doc !! "status", length (doc_timeline doc))
  | Raised _ => (None, 0%nat)
  end = (Some (VStr "In Transit"), 2%nat).
Proof. vm_compute. reflexivity. Qed.

(** ** Login *)

Section Login.
Context `{Collaborators}.

Lemma login_wrong_identity (username password : string) (w : World) :
  username ≠ ADMIN_EMAIL →
  login username password w = (Raised (HTTPException 401 "Invalid credentials"), w).
Proof.
  intros Hu. apply String.eqb_neq in Hu.
  unfold login, credentials_refused. run_handler. now rewrite Hu.
Qed.

Lemma login_wrong_secret (password : string) (w : World) :
  pwd_verify password ADMIN_HASH = Answers false →
  login ADMIN_EMAIL password w = (Raised (HTTPException 401 "Invalid credentials"), w).
Proof.
  intros Hp. unfold login, credentials_refused, verify_password. run_handler.
  now rewrite String.eqb_refl, Hp.
Qed.

Lemma login_verifier_raises (password exception : string) (w : World) :
  pwd_verify password ADMIN_HASH = Throws exception →
  login ADMIN_EMAIL password w = (Raised (Uncaught exception), w).
Proof.
  intros Hp. unfold login, credentials_refused, verify_password. run_handler.
  now rewrite String.eqb_refl, Hp.
Qed.

(** C9, where the code departs from it.  [login] looks at the secret only
    when the identity is the admin's, and lets an exception of the
    password verifier through: for a secret that makes the verifier raise,
    a wrong identity is answered [401 Invalid credentials] and the right
    identity ends in the exception, an internal error, so the two failures
    tell the identities apart. *)
Theorem login_failure_tells_identities_apart (username password exception : string)
    (w : World) :
  username ≠ ADMIN_EMAIL →
  pwd_verify password ADMIN_HASH = Throws exception →
  login username password w = (Raised (HTTPException 401 "Invalid credentials"), w)
  ∧ login ADMIN_EMAIL password w = (Raised (Uncaught exception), w)
  ∧ error_kind (HTTPException 401 "Invalid credentials") = InvalidCredentials
  ∧ error_kind (Uncaught exception) = InternalError
  ∧ login username password w ≠ login ADMIN_EMAIL password w.
Proof.
  intros Hu Hp.
  rewrite (login_wrong_identity username password w Hu).
  rewrite (login_verifier_raises password exception w Hp).
  repeat split. discriminate.
Qed.

End Login.

(** ** Creation requests *)

Section CreateRequest.
Context `{Collaborators}.

Lemma negative_not_ge_0 (x : spec_float) : negative x → ge_0 x = false.
Proof.
  unfold negative, ge_0, SFltb, SFleb.
  destruct x as [[]|[]| |[] m e]; cbn; congruence.
Qed.

Lemma admin_dependency_world (authorization : option string) (w : World)
    (admin : dict) (w0 : World) :
  admin_dependency authorization w = (Returned admin, w0) →
  w0 = with_ticks (S (ticks w)) w.
Proof.
  unfold admin_dependency, oauth2_scheme, get_current_admin.
  destruct authorization as [token|]; run_handler; [|discriminate].
  destruct (jwt_decode _ _ _) as [payload|]; [|discriminate].
  destruct (payload !! "sub") as [[]|]; try discriminate.
  destruct (negb _); [discriminate|].
  now intros [= _ <-].
Qed.

(** C3.  For a request whose token is accepted: when the content fields
    are valid, creation stores one new shipment with status
    [Order Received], a timeline of exactly one entry stamped with a clock
    reading of the call, and [last_update] set to a clock reading of the
    call, and returns the identifier of the stored shipment with the
    generated tracking code; when the weight or the amount is negative, or
    the receiver address is not an e-mail address, the request fails with
    a validation error and stores nothing. *)
Theorem create_request_spec (authorization : option string) (body : ShipmentCreate.t)
    (w : World) (admin : dict) (w0 : World) :
  admin_dependency authorization w = (Returned admin, w0) →
  (∀ payload,
     ShipmentCreate.validate validate_email body = Some payload →
     valid_content payload →
     ∃ code fields w',
       handle (POST_shipments authorization body) w
       = (Returned (VDict (list_to_map
                      [("id", VStr (str_ObjectId (length (shipment w))));
                       ("tracking_code", VStr code)])), w')
       ∧ shipment w' = shipment w ++ [fields]
       ∧ fields !! "tracking_code" = Some (VStr code)
       ∧ fields !! "status" = Some (VStr "Order Received")
       ∧ fields !! "timeline"
         = Some (VList [VDict (timeline_entry "Order Received" (clock (S (ticks w0))))])
       ∧ fields !! "last_update" = Some (VDatetime (clock (S (S (ticks w0)))))
       ∧ ticks w' = S (S (S (ticks w0))))
  ∧ (negative (ShipmentCreate.weight body)
     ∨ negative (ShipmentCreate.amount body)
     ∨ validate_email (ShipmentCreate.receiver_email body) = None →
     handle (POST_shipments authorization body) w = (Raised RequestValidationError, w0)
     ∧ error_kind RequestValidationError = ValidationError
     ∧ shipment w0 = shipment w).
Proof.
  intros Hauth.
  pose proof (admin_dependency_world _ _ _ _ Hauth) as Hw0.
  split.
  - intros payload Hbody Hvalid.
    destruct (valid_content_inv payload Hvalid) as (email & Hemail & Hw & Ha).
    eexists _, _, _. split.
    + unfold handle. cbn [resolve]. run_handler. rewrite Hauth, Hbody.
      run_handler. cbn [run]. run_handler.
      rewrite (create_shipment_eq payload admin w0 email Hemail Hw Ha).
      replace (shipment w0) with (shipment w) by now rewrite Hw0.
      reflexivity.
    + cbn [with_ticks with_shipment shipment ticks]. repeat split.
  - intros Hbad. split; [|split; [reflexivity|now rewrite Hw0]].
    assert (Hnone : ShipmentCreate.validate validate_email body = None).
    { unfold ShipmentCreate.validate.
      destruct (validate_email _) as [email|]; [cbn|reflexivity].
      destruct Hbad as [Hneg|[Hneg|Hemail]]; [| |discriminate].
      - now rewrite (negative_not_ge_0 _ Hneg).
      - rewrite (negative_not_ge_0 _ Hneg). now rewrite andb_false_r. }
    unfold handle. cbn [resolve]. run_handler. now rewrite Hauth, Hnone.
Qed.

End CreateRequest.

(** ** Proof of delivery *)

Section ProofOfDelivery.

(** What an upload does when the file can be opened: the content is
    written under [logs/<tracking_code>-<filename>], and the first shipment
    carrying the code, if there is one, gets the path as
    [proof_of_delivery_url]. *)
Lemma upload_proof_stores (tracking_code filename : string) (content : list byte)
    (admin : dict) (w : World) :
  open_error ("logs/" +:+ tracking_code +:+ "-") filename (files w) = None →
  let path := "logs/" +:+ tracking_code +:+ "-" +:+ filename in
  ∃ w', upload_proof tracking_code filename content admin w
        = (Returned {["url" := VStr ("/" +:+ path)]}, w')
    ∧ files w' !! path = Some content
    ∧ (no_match "tracking_code" tracking_code (shipment w) → shipment w' = shipment w)
    ∧ (∀ oid fields,
         first_match "tracking_code" tracking_code (shipment w) oid fields →
         ∃ fields', shipment w' = <[oid := fields']> (shipment w)
           ∧ fields' !! "proof_of_delivery_url" = Some (VStr ("/" +:+ path))
           ∧ ∀ k : string, k ≠ "proof_of_delivery_url" → fields' !! k = fields !! k).
Proof.
  intros Hopen path. eexists. split; [apply upload_proof_eq, Hopen|].
  cbn [files shipment]. split; [apply lookup_insert_eq|]. split.
  - intros Hno. unfold Collection.update_one.
    now rewrite (find_index_no_match _ _ _ Hno).
  - intros oid fields Hfm. unfold Collection.update_one.
    rewrite (find_index_first_match _ _ _ _ _ Hfm).
    rewrite (alter_first_match _ _ _ _ _ _ Hfm).
    eexists. split; [reflexivity|]. unfold Collection.set_fields. split.
    + apply lookup_union_Some_l. apply lookup_singleton_eq.
    + intros k Hk. apply lookup_union_r. now apply lookup_singleton_ne.
Qed.

(** C5.  An upload for a tracking code that no stored shipment carries
    does not fail: on the empty collection, [upload_proof] writes the file
    and returns its path, where the other handlers answer
    [404 Shipment not found]. *)
Theorem upload_proof_unknown_code_succeeds :
  no_match "tracking_code" "CC-19990101-0000" (shipment Demo.empty_world)
  ∧ upload_proof "CC-19990101-0000" "pod.png" [x00; xff] ∅ Demo.empty_world
    = (Returned {["url" := VStr "/logs/CC-19990101-0000-pod.png"]},
       {| shipment := []; ticks := 0;
          files := {["logs/CC-19990101-0000-pod.png" := [x00; xff]]};
          smtp_log := [] |})
  ∧ @update_shipment Demo.offline "CC-19990101-0000" Demo.touch ∅ Demo.empty_world
    = (Raised (HTTPException 404 "Shipment not found"), Demo.empty_world).
Proof. split; [constructor|]. split; reflexivity. Qed.

End ProofOfDelivery.

(** ** Notification *)

Section Notification.
Context `{Collaborators}.

Lemma send_email_eq (to_email : option value) (subject body : string) (w : World)
    (port : Z) :
  int_text (getenv_default "SMTP_PORT" "587") = Some port →
  send_email to_email subject body w
  = if transport_configured
    then match headers_error to_email subject with
         | Some exception => (Raised (Uncaught exception), w)
         | None =>
             (session_outcome (mail_session port to_email subject body) true,
              with_session (mail_session port to_email subject body) w)
         end
    else (Returned false, w).
Proof.
  intros Hport.
  unfold send_email, transport_configured, mail_session, headers_error. rewrite Hport.
  destruct (getenv "SMTP_HOST") as [host|]; [|reflexivity].
  destruct (getenv "SMTP_USER") as [user|]; [|cbn; now rewrite andb_false_r].
  destruct (getenv "SMTP_PASS") as [password|]; [|cbn; now rewrite andb_false_r].
  cbn [truthy_opt_str default].
  destruct (Py.truthy_str host && Py.truthy_str user && Py.truthy_str password);
    [|reflexivity].
  cbn [negb]. unfold set_header, smtp_send, session_outcome. run_handler.
  destruct (header_error "From" _); [reflexivity|].
  destruct (header_error "To" _); [reflexivity|].
  destruct (header_error "Subject" _); [reflexivity|].
  now destruct (smtp_transport _).
Qed.

Lemma header_error_lines (name text : string) :
  (1 < length (Py.splitlines text))%nat →
  header_error name (Some (VStr text)) = Some "ValueError".
Proof.
  intros Hlines. unfold header_error.
  now destruct (Nat.ltb_spec 1 (length (Py.splitlines text))); [|lia].
Qed.

Lemma notify_receiver_found (tracking_code : string) (admin : dict) (w : World)
    (oid : nat) (fields : dict) :
  first_match "tracking_code" tracking_code (shipment w) oid fields →
  notify_receiver tracking_code admin w
  = match send_email (fields !! "receiver_email")
            (notification_subject tracking_code fields)
            (notification_body tracking_code fields) w with
    | (Returned ok, w') => (Returned {["sent" := VBool ok]}, w')
    | (Raised e, w') => (Raised e, w')
    end.
Proof.
  intros Hfm. unfold notify_receiver. run_handler.
  rewrite (find_one_first_match _ _ _ _ _ Hfm), truthy_document. cbn [negb].
  rewrite (document_field oid fields "receiver_email") by discriminate.
  rewrite (document_field oid fields "status") by discriminate.
  rewrite (document_field oid fields "receiver_name") by discriminate.
  reflexivity.
Qed.

Lemma notify_receiver_unknown (tracking_code : string) (admin : dict) (w : World) :
  no_match "tracking_code" tracking_code (shipment w) →
  notify_receiver tracking_code admin w
  = (Raised (HTTPException 404 "Shipment not found"), w).
Proof.
  intros Hno. unfold notify_receiver. run_handler.
  now rewrite (find_one_no_match _ _ _ Hno).
Qed.

(** C6, as the code has it.  When [SMTP_PORT] is unset or holds an
    integer: without host, user or password the dispatcher reports
    "not sent" and opens no mail session.  With them, a header value that
    the e-mail library refuses (text of more than one line is refused with
    [ValueError]) ends the call in that exception before any session is
    opened; when the three headers are taken it opens one session
    addressed to the receiver, reports "sent" when the mail server accepts
    it, and raises the exception of the mail server to its caller when the
    server does not. *)
Theorem notification_outcomes (to_email : option value) (subject body : string)
    (tracking_code : string) (admin : dict) (w : World) (port : Z) :
  int_text (getenv_default "SMTP_PORT" "587") = Some port →
  (transport_configured = false →
     send_email to_email subject body w = (Returned false, w)
     ∧ ∀ oid fields,
         first_match "tracking_code" tracking_code (shipment w) oid fields →
         notify_receiver tracking_code admin w = (Returned {["sent" := VBool false]}, w))
  ∧ (transport_configured = true →
     let session := mail_session port to_email subject body in
     (∀ exception, headers_error to_email subject = Some exception →
        send_email to_email subject body w = (Raised (Uncaught exception), w))
     ∧ ((1 < length (Py.splitlines subject))%nat →
        ∃ exception, headers_error to_email subject = Some exception)
     ∧ (headers_error to_email subject = None →
        (smtp_transport session = None →
           send_email to_email subject body w = (Returned true, with_session session w))
        ∧ (∀ exception, smtp_transport session = Some exception →
             send_email to_email subject body w
             = (Raised (Uncaught exception), with_session session w)))
     ∧ ∀ oid fields,
         first_match "tracking_code" tracking_code (shipment w) oid fields →
         rendered_as_is (fields !! "status") →
         rendered_as_is (fields !! "receiver_name") →
         headers_error (fields !! "receiver_email")
           (notification_subject tracking_code fields) = None →
         ∃ session' : SmtpSession,
           msg_To (smtp_message session') = fields !! "receiver_email"
           ∧ notify_receiver tracking_code admin w
             = (session_outcome session' {["sent" := VBool true]},
                with_session session' w)).
Proof.
  intros Hport. split.
  - intros Hoff. split.
    + rewrite (send_email_eq _ _ _ _ port Hport). now rewrite Hoff.
    + intros oid fields Hfm. rewrite (notify_receiver_found _ _ _ _ _ Hfm).
      rewrite (send_email_eq _ _ _ _ port Hport). now rewrite Hoff.
  - intros Hon session. split; [|split; [|split]].
    + intros exception Hrefused.
      rewrite (send_email_eq _ _ _ _ port Hport), Hon. now rewrite Hrefused.
    + intros Hlines. unfold headers_error.
      destruct (header_error "From" _) as [e|]; [now exists e|].
      destruct (header_error "To" _) as [e|]; [now exists e|].
      exists "ValueError". now apply header_error_lines.
    + intros Htaken. split.
      * intros Hok. rewrite (send_email_eq _ _ _ _ port Hport), Hon, Htaken.
        unfold session_outcome. fold session. now rewrite Hok.
      * intros exception Hfail.
        rewrite (send_email_eq _ _ _ _ port Hport), Hon, Htaken.
        unfold session_outcome. fold session. now rewrite Hfail.
    + intros oid fields Hfm _ _ Htaken.
      rewrite (notify_receiver_found _ _ _ _ _ Hfm).
      rewrite (send_email_eq _ _ _ _ port Hport), Hon, Htaken.
      exists (mail_session port (fields !! "receiver_email")
                (notification_subject tracking_code fields)
                (notification_body tracking_code fields)).
      split; [reflexivity|].
      unfold session_outcome. now destruct (smtp_transport _).
Qed.

End Notification.

(** C6 does not hold as stated: with the mail transport configured and a
    mail server that drops the session, the notification request ends in the
    exception of the mail server, not in a result that says "not sent". *)
Lemma delivery_failure_fails_the_request :
  @transport_configured Demo.mail_down = true
  ∧ (@notify_receiver Demo.mail_down Demo.parcel_code ∅ (Demo.one_parcel Demo.mail_down)).1
    = Raised (Uncaught "SMTPServerDisconnected")
  ∧ ¬ ∃ (sent : bool) (w' : World),
        @notify_receiver Demo.mail_down Demo.parcel_code ∅ (Demo.one_parcel Demo.mail_down)
        = (Returned {["sent" := VBool sent]}, w').
Proof.
  assert (Hrun : (@notify_receiver Demo.mail_down Demo.parcel_code ∅
                    (Demo.one_parcel Demo.mail_down)).1
                 = Raised (Uncaught "SMTPServerDisconnected"))
    by (vm_compute; reflexivity).
  split; [reflexivity|]. split; [exact Hrun|].
  intros (sent & w' & Heq). rewrite Heq in Hrun. discriminate Hrun.
Qed.


(** ** The properties at a concrete run

    One parcel is created on an empty collection at 2024-11-04T10:00:00Z;
    it gets the code [CC-20241104-4400]. *)


Lemma parcel_is_valid : @valid_content Demo.offline Demo.parcel.
Proof. eexists. reflexivity. Defined.

Lemma parcel_is_first :
  first_match "tracking_code" Demo.parcel_code
    (shipment (Demo.one_parcel Demo.offline)) 0 Run.stored_parcel.
Proof.
  split; [reflexivity|]. split; [reflexivity|].
  intros j fj Hlt. lia.
Defined.

Lemma nothing_else_stored :
  no_match "tracking_code" "CC-19990101-0000" (shipment (Demo.one_parcel Demo.offline)).
Proof. repeat constructor. Defined.



Lemma update_shipment_spec_witness :
  first_match "tracking_code" Demo.parcel_code
    (shipment (Demo.one_parcel Demo.offline)) 0 Run.stored_parcel
  ∧ appendable Demo.in_transit Run.stored_parcel
  ∧ no_match "tracking_code" "CC-19990101-0000" (shipment (Demo.one_parcel Demo.offline))
  ∧ (∃ fields' w',
       @update_shipment Demo.offline Demo.parcel_code Demo.in_transit ∅
         (Demo.one_parcel Demo.offline)
       = (Returned (<["_id" := VStr (str_ObjectId 0)]> fields'), w')
       ∧ fields' !! "status" = Some (VStr "In Transit"))
  ∧ @update_shipment Demo.offline "CC-19990101-0000" Demo.in_transit ∅
      (Demo.one_parcel Demo.offline)
    = (Raised (HTTPException 404 "Shipment not found"), Demo.one_parcel Demo.offline).
Proof.
  assert (Hok : appendable Demo.in_transit Run.stored_parcel) by exact Logic.I.
  split; [exact parcel_is_first|]. split; [exact Hok|].
  split; [exact nothing_else_stored|]. split.
  - destruct (update_shipment_spec (H := Demo.offline) Demo.parcel_code Demo.in_transit ∅
                (Demo.one_parcel Demo.offline)) as [_ Hfound].
    destruct (Hfound 0%nat Run.stored_parcel parcel_is_first Hok)
      as (fields' & w' & Hrun & _ & Hstatus & _).
    exists fields', w'. split; [exact Hrun|].
    exact (proj1 (Hstatus InTransit eq_refl)).
  - destruct (update_shipment_spec (H := Demo.offline) "CC-19990101-0000" Demo.in_transit ∅
                (Demo.one_parcel Demo.offline)) as [Hunknown _].
    exact (proj1 (Hunknown nothing_else_stored)).
Defined.

Lemma create_request_spec_witness :
  @admin_dependency Demo.offline (Some Demo.admin_token) Demo.empty_world
  = (Returned {["email" := VStr "admin@cargoconnect.com"]},
     with_ticks 1 Demo.empty_world)
  ∧ (∃ code fields w',
       @handle Demo.offline (POST_shipments (Some Demo.admin_token) Demo.parcel)
         Demo.empty_world
       = (Returned (VDict (list_to_map
                      [("id", VStr (str_ObjectId 0)); ("tracking_code", VStr code)])), w')
       ∧ shipment w' = [fields]
       ∧ fields !! "status" = Some (VStr "Order Received"))
  ∧ @handle Demo.offline (POST_shipments (Some Demo.admin_token) Demo.parcel_negative_weight)
      Demo.empty_world
    = (Raised RequestValidationError, with_ticks 1 Demo.empty_world).
Proof.
  assert (Hauth : @admin_dependency Demo.offline (Some Demo.admin_token) Demo.empty_world
                  = (Returned {["email" := VStr "admin@cargoconnect.com"]},
                     with_ticks 1 Demo.empty_world)) by (vm_compute; reflexivity).
  split; [exact Hauth|]. split.
  - destruct (create_request_spec (H := Demo.offline) (Some Demo.admin_token) Demo.parcel
                Demo.empty_world _ _ Hauth) as [Hvalid _].
    destruct (Hvalid Demo.parcel eq_refl parcel_is_valid)
      as (code & fields & w' & Hrun & Hstore & _ & Hstatus & _).
    exists code, fields, w'. split; [exact Hrun|]. split; [exact Hstore|exact Hstatus].
  - destruct (create_request_spec (H := Demo.offline) (Some Demo.admin_token)
                Demo.parcel_negative_weight Demo.empty_world _ _ Hauth) as [_ Hinvalid].
    exact (proj1 (Hinvalid (or_introl eq_refl))).
Defined.

Lemma public_track_spec_witness :
  first_match "tracking_code" Demo.parcel_code
    (shipment (Demo.one_parcel Demo.offline)) 0 Run.stored_parcel
  ∧ no_match "tracking_code" "CC-19990101-0000" (shipment (Demo.one_parcel Demo.offline))
  ∧ (∃ doc, public_track Demo.parcel_code (Demo.one_parcel Demo.offline)
            = (Returned doc, Demo.one_parcel Demo.offline)
       ∧ doc !! "timeline" = Run.stored_parcel !! "timeline")
  ∧ public_track "CC-19990101-0000" (Demo.one_parcel Demo.offline)
    = (Raised (HTTPException 404 "Tracking Number Not Found"), Demo.one_parcel Demo.offline).
Proof.
  split; [exact parcel_is_first|]. split; [exact nothing_else_stored|]. split.
  - destruct (public_track_spec Demo.parcel_code (Demo.one_parcel Demo.offline))
      as [_ Hfound].
    destruct (Hfound 0%nat Run.stored_parcel parcel_is_first)
      as (doc & Hrun & _ & _ & _ & Htimeline & _).
    exists doc. split; [exact Hrun|exact Htimeline].
  - destruct (public_track_spec "CC-19990101-0000" (Demo.one_parcel Demo.offline))
      as [Hunknown _].
    exact (proj1 (Hunknown nothing_else_stored)).
Defined.

Lemma notification_outcomes_witness :
  @int_text Demo.mail_down (@getenv_default Demo.mail_down "SMTP_PORT" "587") = Some 587
  ∧ @transport_configured Demo.mail_down = true
  ∧ @send_email Demo.mail_down (Some (VStr "grace@example.org")) "subject" "body"
      Demo.empty_world
    = (Raised (Uncaught "SMTPServerDisconnected"),
       @with_session
         (@mail_session Demo.mail_down 587 (Some (VStr "grace@example.org"))
            "subject" "body")
         Demo.empty_world)
  ∧ @int_text Demo.offline (@getenv_default Demo.offline "SMTP_PORT" "587") = Some 587
  ∧ @transport_configured Demo.offline = false
  ∧ @notify_receiver Demo.offline Demo.parcel_code ∅ (Demo.one_parcel Demo.offline)
    = (Returned {["sent" := VBool false]}, Demo.one_parcel Demo.offline).
Proof.
  assert (Hport : @int_text Demo.mail_down (@getenv_default Demo.mail_down "SMTP_PORT" "587")
                  = Some 587) by reflexivity.
  assert (Hport' : @int_text Demo.offline (@getenv_default Demo.offline "SMTP_PORT" "587")
                   = Some 587) by reflexivity.
  split; [exact Hport|]. split; [reflexivity|]. split.
  - destruct (notification_outcomes (H := Demo.mail_down)
                (Some (VStr "grace@example.org")) "subject" "body" Demo.parcel_code ∅
                Demo.empty_world 587 Hport) as [_ Hon].
    destruct (Hon eq_refl) as (_ & _ & Htaken & _).
    exact (proj2 (Htaken eq_refl) "SMTPServerDisconnected" eq_refl).
  - split; [exact Hport'|]. split; [reflexivity|].
    destruct (notification_outcomes (H := Demo.offline)
                None "subject" "body" Demo.parcel_code ∅
                (Demo.one_parcel Demo.offline) 587 Hport') as [Hoff _].
    destruct (Hoff eq_refl) as (_ & Hnotify).
    exact (Hnotify 0%nat Run.stored_parcel parcel_is_first).
Defined.

Lemma create_tracking_code_format_witness :
  @valid_content Demo.offline Demo.parcel
  ∧ clock_reading_ok (Demo.clock_2024 0)
  ∧ ∃ code : string,
      (∃ oid w', @create_shipment Demo.offline Demo.parcel ∅ Demo.empty_world
         = (Returned (list_to_map [("id", VStr oid); ("tracking_code", VStr code)]), w'))
      ∧ tracking_code_format code = true.
Proof.
  assert (Hclock : clock_reading_ok (Demo.clock_2024 0)).
  { split; vm_compute; discriminate. }
  split; [exact parcel_is_valid|]. split; [exact Hclock|].
  destruct (create_tracking_code_format (H := Demo.offline) Demo.parcel ∅ Demo.empty_world
              parcel_is_valid Hclock) as (code & Hrun & Hformat & _).
  exists code. split; [exact Hrun|exact Hformat].
Defined.

Lemma login_failure_tells_identities_apart_witness :
  "mallory@example.org" ≠ @ADMIN_EMAIL Cases.strict
  ∧ @pwd_verify Cases.strict Cases.secret_with_nul (@ADMIN_HASH Cases.strict)
    = Throws "PasswordValueError"
  ∧ @login Cases.strict "mallory@example.org" Cases.secret_with_nul Demo.empty_world
    = (Raised (HTTPException 401 "Invalid credentials"), Demo.empty_world)
  ∧ @login Cases.strict (@ADMIN_EMAIL Cases.strict) Cases.secret_with_nul Demo.empty_world
    = (Raised (Uncaught "PasswordValueError"), Demo.empty_world).
Proof.
  assert (Hname : "mallory@example.org" ≠ @ADMIN_EMAIL Cases.strict) by discriminate.
  assert (Hraises : @pwd_verify Cases.strict Cases.secret_with_nul (@ADMIN_HASH Cases.strict)
                    = Throws "PasswordValueError") by reflexivity.
  split; [exact Hname|]. split; [exact Hraises|].
  destruct (login_failure_tells_identities_apart (H := Cases.strict)
              "mallory@example.org" Cases.secret_with_nul "PasswordValueError"
              Demo.empty_world Hname Hraises) as (Hwrong & Hright & _).
  split; [exact Hwrong|exact Hright].
Defined.

Lemma status_equals_last_timeline_entry_witness :
  @valid_content Demo.offline Demo.parcel
  ∧ ∃ fields status,
      shipment (@run_all Demo.offline Run.updates (Demo.one_parcel Demo.offline)) !! 0%nat
      = Some fields
      ∧ fields !! "status" = Some (VStr status)
      ∧ (entry_status <$> last (doc_timeline fields)) = Some (Some (VStr status)).
Proof.
  split; [exact parcel_is_valid|].
  exact (status_equals_last_timeline_entry (H := Demo.offline) Demo.parcel ∅
           Demo.empty_world Run.updates parcel_is_valid).
Defined.

Example run_timeline_statuses :
  entry_status
    <$> doc_timeline
          (default ∅ (shipment (@run_all Demo.offline Run.updates
                                  (Demo.one_parcel Demo.offline)) !! 0%nat))
  = [Some (VStr "Order Received"); Some (VStr "In Transit"); Some (VStr "Delivered")].
Proof. vm_compute. reflexivity. Qed.

(** ** Worked examples *)

Example strftime_example :
  Datetime.strftime_Ymd (1730714400 * 1000000 + 123456) = "20241104".
Proof. vm_compute. reflexivity. Qed.

Example isoformat_example :
  Datetime.isoformat (1730714400 * 1000000 + 123456) = "2024-11-04T10:00:00.123456+00:00".
Proof. vm_compute. reflexivity. Qed.

Example isoformat_leap :
  Datetime.isoformat (1709251199 * 1000000) = "2024-02-29T23:59:59+00:00".
Proof. vm_compute. reflexivity. Qed.

Example isoformat_eoy :
  Datetime.isoformat (1735689599 * 1000000) = "2024-12-31T23:59:59+00:00".
Proof. vm_compute. reflexivity. Qed.

Example ordinal_max : Datetime._ord2ymd 3652059 = (9999, 12, 31).
Proof. vm_compute. reflexivity. Qed.

Example ordinal_min : Datetime._ord2ymd 1 = (1, 1, 1).
Proof. vm_compute. reflexivity. Qed.

Example int_examples :
  Py.int_of_str "587" = Some 587 /\ Py.int_of_str " -5_87 " = Some (-587)
  /\ Py.int_of_str "abc" = None /\ Py.int_of_str EmptyString = None /\ Py.int_of_str "5__8" = None.
Proof. vm_compute. repeat split. Qed.

(** [int(t.timestamp())] at 2514-05-30T01:53:04Z and its last microsecond,
    and one second earlier. *)
Example int_timestamp_examples :
  Datetime.int_timestamp (17179869184 * 1000000) = 17179869184
  /\ Datetime.int_timestamp (17179869184 * 1000000 + 999999) = 17179869185
  /\ Datetime.int_timestamp (17179869183 * 1000000 + 999999) = 17179869183
  /\ Datetime.int_timestamp (1730714400 * 1000000 + 999999) = 1730714400
  /\ Datetime.int_timestamp (-1) = 0
  /\ Datetime.int_timestamp (-1500000) = -1.
Proof. vm_compute. repeat split. Qed.

Example splitlines_examples :
  Py.splitlines (String "a" (String "010" "b")) = ["a"; "b"]
  /\ Py.splitlines (String "a" (String "010" EmptyString)) = ["a"]
  /\ Py.splitlines (String "010" EmptyString) = [EmptyString]
  /\ Py.splitlines (String "a" (String "013" (String "010" "b"))) = ["a"; "b"]
  /\ Py.splitlines (String "010" (String "010" EmptyString)) = [EmptyString; EmptyString]
  /\ Py.splitlines (String "a" (String "226" (String "128" (String "168" "b")))) = ["a"; "b"]
  /\ Py.splitlines (String "a" (String "031" "b")) = [String "a" (String "031" "b")]
  /\ Py.splitlines EmptyString = [].
Proof. vm_compute. repeat split. Qed.

Example open_error_examples :
  open_error "logs/C-" "pod.png" ∅ = None
  /\ open_error "logs/C-" "sub/pod.png" ∅ = Some "FileNotFoundError"
  /\ open_error "logs/C-" "sub/pod.png" {["logs/C-sub" := []]} = Some "NotADirectoryError"
  /\ open_error "logs/C-" "sub/" ∅ = Some "IsADirectoryError"
  /\ open_error "logs/C-" "../../x" ∅ = Some "FileNotFoundError"
  /\ open_error "logs/C-" (String "a" (String "000" "/b")) ∅ = Some "ValueError".
Proof. vm_compute. repeat split. Qed.

Example str_examples :
  Py.str_int 0 = "0" /\ Py.str_int 1730714400 = "1730714400" /\ Py.str_int (-42) = "-42"
  /\ Py.slice_last 4 (Py.str_int 1730714400) = "4400" /\ Py.slice_last 4 "5" = "5".
Proof. vm_compute. repeat split. Qed.

(** A later location replaces the earlier one as a whole: the city of the
    first update is gone after the second. *)
Example location_is_replaced :
  let w1 := (@update_shipment Demo.offline Demo.parcel_code Demo.at_city ∅
               (Demo.one_parcel Demo.offline)).2 in
  let w2 := (@update_shipment Demo.offline Demo.parcel_code Demo.at_coordinates ∅ w1).2 in
  (default ∅ (shipment w1 !! 0%nat) !! "location",
   default ∅ (shipment w2 !! 0%nat) !! "location")
  = (Some (VDict (list_to_map [("lat", VNone); ("lng", VNone); ("city", VStr "Coimbra")])),
     Some (VDict (list_to_map [("lat", VFloat (Demo.float_of_nat 41));
                               ("lng", VFloat (Demo.float_of_nat 8));
                               ("city", VNone)]))).
Proof. reflexivity. Qed.

(** With the mail transport configured and a mail server that accepts the
    session, the notification is reported as sent. *)
Example notification_sent :
  (@notify_receiver Demo.mail_up Demo.parcel_code ∅ (Demo.one_parcel Demo.mail_up)).1
  = Returned {["sent" := VBool true]}.
Proof. reflexivity. Qed.

(** Two creations within one second get the same tracking code; an update
    under that code then reaches the first of the two shipments only. *)
Example same_second_same_code :
  let w1 := (@create_shipment Demo.frozen Demo.parcel ∅ Demo.empty_world).2 in
  let w2 := (@create_shipment Demo.frozen Demo.parcel ∅ w1).2 in
  let w3 := (@update_shipment Demo.frozen Demo.parcel_code Demo.in_transit ∅ w2).2 in
  (default ∅ (shipment w2 !! 0%nat) !! "tracking_code",
   default ∅ (shipment w2 !! 1%nat) !! "tracking_code",
   length (doc_timeline (default ∅ (shipment w3 !! 0%nat))),
   length (doc_timeline (default ∅ (shipment w3 !! 1%nat))))
  = (Some (VStr "CC-20241104-4400"), Some (VStr "CC-20241104-4400"), 2%nat, 1%nat).
Proof. reflexivity. Qed.

(** * Further properties of the code *)

(** ** Tokens *)

Section Tokens.
Context `{Collaborators}.

Lemma get_current_admin_accepted (token : string) (w : World) :
  accepted_at token (clock (ticks w)) →
  get_current_admin token w
  = (Returned {["email" := VStr ADMIN_EMAIL]}, with_ticks (S (ticks w)) w).
Proof.
  intros (payload & Hdecode & Hsub). unfold get_current_admin. run_handler.
  rewrite Hdecode, Hsub, String.eqb_refl. reflexivity.
Qed.

Lemma get_current_admin_rejected (token : string) (w : World) :
  ¬ accepted_at token (clock (ticks w)) →
  get_current_admin token w
  = (Raised (HTTPException 401 "Could not validate credentials"),
     with_ticks (S (ticks w)) w).
Proof.
  intros Hno. unfold get_current_admin. run_handler.
  destruct (jwt_decode token SECRET_KEY (clock (ticks w))) as [payload|] eqn:Hdecode;
    [|reflexivity].
  destruct (payload !! "sub") as [[| email | | | | | |]|] eqn:Hsub; try reflexivity.
  destruct (String.eqb_spec email ADMIN_EMAIL) as [->|Hne]; [|reflexivity].
  exfalso. apply Hno. now exists payload.
Qed.

(** X1.  [get_current_admin] accepts a token exactly when the JWT library
    decodes it under the secret key, at the time of the call, to claims whose
    subject is the configured admin address; it then yields that address.
    Every other token (not decodable, no subject, a subject that is not
    text, another subject) is refused in one and the same way,
    [401 Could not validate credentials]. *)
Theorem get_current_admin_spec (token : string) (w : World) :
  (accepted_at token (clock (ticks w)) →
     get_current_admin token w
     = (Returned {["email" := VStr ADMIN_EMAIL]}, with_ticks (S (ticks w)) w))
  ∧ (¬ accepted_at token (clock (ticks w)) →
     get_current_admin token w
     = (Raised (HTTPException 401 "Could not validate credentials"),
        with_ticks (S (ticks w)) w)
     ∧ error_kind (HTTPException 401 "Could not validate credentials") = Unauthenticated)
  ∧ (∀ admin w', get_current_admin token w = (Returned admin, w') →
       accepted_at token (clock (ticks w)) ∧ admin = {["email" := VStr ADMIN_EMAIL]}).
Proof.
  split; [apply get_current_admin_accepted|]. split.
  - intros Hno. split; [now apply get_current_admin_rejected|reflexivity].
  - intros admin w' Hrun.
    assert (Hacc : accepted_at token (clock (ticks w))).
    { unfold get_current_admin in Hrun. run_handler. revert Hrun. run_handler.
      destruct (jwt_decode token SECRET_KEY (clock (ticks w))) as [payload|] eqn:Hdecode;
        [|discriminate].
      destruct (payload !! "sub") as [[| email | | | | | |]|] eqn:Hsub; try discriminate.
      destruct (String.eqb_spec email ADMIN_EMAIL) as [->|Hne]; [|discriminate].
      intros _. now exists payload. }
    split; [exact Hacc|].
    rewrite (get_current_admin_accepted token w Hacc) in Hrun. congruence.
Qed.

Lemma login_accepted (password : string) (w : World) (expire : datetime) :
  pwd_verify password ADMIN_HASH = Answers true →
  Datetime.add (clock (ticks w)) (Datetime.timedelta_minutes 720) = Some expire →
  login ADMIN_EMAIL password w
  = (Returned (list_to_map
       [("access_token", VStr (jwt_encode (login_claims expire) SECRET_KEY));
        ("token_type", VStr "bearer")]),
     with_ticks (S (ticks w)) w).
Proof.
  intros Hpw Hexp. unfold login, credentials_refused, verify_password. run_handler.
  rewrite String.eqb_refl, Hpw. cbn [negb].
  unfold create_access_token. run_handler.
  change (Datetime.timedelta_minutes ACCESS_TOKEN_EXPIRE_MINUTES)
    with (Datetime.timedelta_minutes 720).
  rewrite Hexp. reflexivity.
Qed.

(** X2.  A login with the admin address and a secret that verifies returns
    a bearer token whose claims are the admin address as subject and an
    expiry twelve hours after the clock reading of the login.  At every
    later moment at which the JWT library decodes that token to claims
    with the subject it was made from, a request that carries the token
    passes [Depends(get_current_admin)] as the admin. *)
Theorem login_token_is_accepted (password : string) (w : World) (expire : datetime) :
  pwd_verify password ADMIN_HASH = Answers true →
  Datetime.add (clock (ticks w)) (Datetime.timedelta_minutes 720) = Some expire →
  let token := jwt_encode (login_claims expire) SECRET_KEY in
  expire = clock (ticks w) + 12 * 3600 * 1000000
  ∧ login ADMIN_EMAIL password w
    = (Returned (list_to_map [("access_token", VStr token); ("token_type", VStr "bearer")]),
       with_ticks (S (ticks w)) w)
  ∧ (∀ (w2 : World) (payload : dict),
       jwt_decode token SECRET_KEY (clock (ticks w2)) = Some payload →
       payload !! "sub" = login_claims expire !! "sub" →
       admin_dependency (Some token) w2
       = (Returned {["email" := VStr ADMIN_EMAIL]}, with_ticks (S (ticks w2)) w2)).
Proof.
  intros Hpw Hexp token. split; [|split].
  - unfold Datetime.add in Hexp.
    destruct (_ && _); [|discriminate]. injection Hexp as <-.
    unfold Datetime.timedelta_minutes, Datetime.US_PER_SECOND. lia.
  - now apply login_accepted.
  - intros w2 payload Hdecode Hsub.
    unfold admin_dependency, oauth2_scheme. run_handler.
    apply get_current_admin_accepted. exists payload.
    split; [exact Hdecode|]. rewrite Hsub. unfold login_claims. now simplify_map_eq.
Qed.

Lemma admin_dependency_refused (authorization : option string) (w : World) :
  (∀ admin w', admin_dependency authorization w ≠ (Returned admin, w')) →
  ∃ detail w',
    admin_dependency authorization w = (Raised (HTTPException 401 detail), w')
    ∧ error_kind (HTTPException 401 detail) = Unauthenticated
    ∧ same_but_ticks w w'.
Proof.
  intros Hno. unfold admin_dependency, oauth2_scheme in *.
  destruct authorization as [token|]; revert Hno; run_handler; intros Hno.
  - assert (Hnot : ¬ accepted_at token (clock (ticks w))).
    { intros Hacc. exact (Hno _ _ (get_current_admin_accepted token w Hacc)). }
    rewrite (get_current_admin_rejected token w Hnot).
    eexists _, _. split; [reflexivity|]. repeat split.
  - eexists _, _. split; [reflexivity|]. repeat split.
Qed.

(** X3.  A request to a route that depends on [get_current_admin]
    (create, list, update, proof upload, notify) whose token is missing or
    refused ends in a [401] of kind [Unauthenticated] and changes neither
    the collection, nor the files, nor the mail log. *)
Theorem admin_routes_refuse_without_admin (r : Request) (authorization : option string)
    (w : World) :
  admin_route r = Some authorization →
  (∀ admin w', admin_dependency authorization w ≠ (Returned admin, w')) →
  ∃ detail w',
    handle r w = (Raised (HTTPException 401 detail), w')
    ∧ error_kind (HTTPException 401 detail) = Unauthenticated
    ∧ same_but_ticks w w'.
Proof.
  intros Hroute Hno.
  destruct (admin_dependency_refused authorization w Hno) as (detail & w' & Hrun & Hk & Hs).
  exists detail, w'. split; [|split; [exact Hk|exact Hs]].
  destruct r; cbn in Hroute; try discriminate; injection Hroute as ->;
    unfold handle; cbn [resolve]; run_handler; now rewrite Hrun.
Qed.

End Tokens.

(** ** Notifications, further *)

Section Mail.
Context `{Collaborators}.

(** X4.  [send_email] converts [SMTP_PORT] before it looks at host, user
    and password: when [int] raises [ValueError] on the text of
    [SMTP_PORT], the call raises it whether or not the transport is
    configured, opens no mail session, and the notification of a stored
    shipment fails with it.  Text of ASCII characters is read as [int]
    reads it; what [int] makes of other text is the interpreter's. *)
Theorem send_email_reads_port_first (to_email : option value) (subject body : string)
    (tracking_code : string) (admin : dict) (w : World) :
  int_text (getenv_default "SMTP_PORT" "587") = None →
  send_email to_email subject body w = (Raised (Uncaught "ValueError"), w)
  ∧ ∀ oid fields,
      first_match "tracking_code" tracking_code (shipment w) oid fields →
      notify_receiver tracking_code admin w = (Raised (Uncaught "ValueError"), w).
Proof.
  intros Hport.
  assert (Hsend : ∀ a b c, send_email a b c w = (Raised (Uncaught "ValueError"), w)).
  { intros a b c. unfold send_email. now rewrite Hport. }
  split; [apply Hsend|].
  intros oid fields Hfm.
  rewrite (notify_receiver_found _ _ _ _ _ Hfm). now rewrite Hsend.
Qed.

(** X5.  [notify_receiver] looks the shipment up first: for a code that no
    stored shipment carries it answers [404 Shipment not found] and touches
    nothing, whatever the mail configuration.  For a stored shipment whose
    status and receiver name are text, with the transport configured: when
    the e-mail library takes the three headers, it opens one mail session
    to the configured host, on port 587 when [SMTP_PORT] is unset, from the
    configured user to the receiver address of the shipment, with the
    tracking code and the current status in the subject; when a header is
    refused (a tracking code or status of more than one line is), the
    request ends in that exception and no session is opened.  The
    collection and the files stay as they are. *)
Theorem notify_receiver_spec (tracking_code : string) (admin : dict) (w : World) :
  (no_match "tracking_code" tracking_code (shipment w) →
     notify_receiver tracking_code admin w
     = (Raised (HTTPException 404 "Shipment not found"), w))
  ∧ (getenv "SMTP_PORT" = None →
     int_text (getenv_default "SMTP_PORT" "587") = Some 587)
  ∧ (∀ oid fields port,
       first_match "tracking_code" tracking_code (shipment w) oid fields →
       rendered_as_is (fields !! "status") →
       rendered_as_is (fields !! "receiver_name") →
       int_text (getenv_default "SMTP_PORT" "587") = Some port →
       transport_configured = true →
       let subject := notification_subject tracking_code fields in
       let session :=
         mail_session port (fields !! "receiver_email") subject
           (notification_body tracking_code fields) in
       (headers_error (fields !! "receiver_email") subject = None →
          notify_receiver tracking_code admin w
          = (session_outcome session {["sent" := VBool true]}, with_session session w)
          ∧ getenv "SMTP_HOST" = Some (smtp_host session)
          ∧ getenv "SMTP_USER" = Some (msg_From (smtp_message session))
          ∧ msg_To (smtp_message session) = fields !! "receiver_email"
          ∧ msg_Subject (smtp_message session)
            = "CargoConnect Update: " +:+ tracking_code +:+ " - "
                +:+ format_value (fields !! "status"))
       ∧ (∀ exception,
            headers_error (fields !! "receiver_email") subject = Some exception →
            notify_receiver tracking_code admin w = (Raised (Uncaught exception), w))
       ∧ ((1 < length (Py.splitlines subject))%nat →
          ∃ exception,
            notify_receiver tracking_code admin w = (Raised (Uncaught exception), w))).
Proof.
  split; [apply notify_receiver_unknown|]. split.
  - unfold getenv, getenv_default. now intros ->.
  - intros oid fields port Hfm _ _ Hport Hon subject session.
    assert (Hrefused : ∀ exception,
      headers_error (fields !! "receiver_email") subject = Some exception →
      notify_receiver tracking_code admin w = (Raised (Uncaught exception), w)).
    { intros exception Hr. rewrite (notify_receiver_found _ _ _ _ _ Hfm).
      fold subject. rewrite (send_email_eq _ _ _ _ port Hport), Hon. now rewrite Hr. }
    split; [|split; [exact Hrefused|]].
    + intros Htaken. split; [|split; [|split; [|split]]]; try reflexivity.
      * rewrite (notify_receiver_found _ _ _ _ _ Hfm). fold subject.
        rewrite (send_email_eq _ _ _ _ port Hport), Hon, Htaken. fold session.
        unfold session_outcome. now destruct (smtp_transport session).
      * unfold transport_configured in Hon. cbn [session mail_session smtp_host].
        destruct (getenv "SMTP_HOST"); [reflexivity|discriminate].
      * unfold transport_configured in Hon.
        cbn [session mail_session smtp_message msg_From].
        destruct (getenv "SMTP_USER"); [reflexivity|].
        cbn in Hon. now rewrite andb_false_r in Hon.
    + intros Hlines.
      destruct (headers_error (fields !! "receiver_email") subject) as [e|] eqn:He.
      * exists e. now apply Hrefused.
      * exfalso. unfold headers_error in He.
        destruct (header_error "From" _); [discriminate|].
        destruct (header_error "To" _); [discriminate|].
        now rewrite (header_error_lines _ _ Hlines) in He.
Qed.

End Mail.

(** ** Request bodies *)

Section Bodies.

Lemma StatusLiteral_validate_text (s : StatusLiteral) :
  StatusLiteral_validate (status_text s) = Some s.
Proof. now destruct s. Qed.

Lemma StatusLiteral_validate_Some (text : string) (s : StatusLiteral) :
  StatusLiteral_validate text = Some s → status_text s = text.
Proof.
  unfold StatusLiteral_validate. intros Hfind.
  apply find_some in Hfind as [_ Heq]. now apply String.eqb_eq.
Qed.

(** X6.  Validation of the body of an update accepts a status exactly when
    it is the text of one of the seven statuses, and hands on that status
    and the location as they were sent; any other status text is refused. *)
Theorem update_body_validation (b : ShipmentUpdate.body) :
  (∀ s, StatusLiteral_validate (status_text s) = Some s)
  ∧ (∀ text s, StatusLiteral_validate text = Some s → status_text s = text)
  ∧ (ShipmentUpdate.validate b = None
     ↔ ∃ text, ShipmentUpdate.body_status b = Some text ∧ ∀ s, status_text s ≠ text)
  ∧ (∀ p, ShipmentUpdate.validate b = Some p →
       ShipmentUpdate.location p = ShipmentUpdate.body_location b
       ∧ (status_text <$> ShipmentUpdate.status p) = ShipmentUpdate.body_status b).
Proof.
  split; [apply StatusLiteral_validate_text|].
  split; [apply StatusLiteral_validate_Some|].
  unfold ShipmentUpdate.validate.
  destruct (ShipmentUpdate.body_status b) as [text|].
  - destruct (StatusLiteral_validate text) as [s|] eqn:Hv; cbn.
    + apply StatusLiteral_validate_Some in Hv. split.
      * split; [discriminate|]. intros (text' & [= <-] & Hnone). now destruct (Hnone s).
      * intros p [= <-]. cbn. split; [reflexivity|]. now rewrite Hv.
    + split.
      * split; [|reflexivity]. intros _. exists text. split; [reflexivity|].
        intros s Hs. subst text. now rewrite StatusLiteral_validate_text in Hv.
      * intros p. discriminate.
  - split.
    + split; [discriminate|]. intros (text & Hsome & _). discriminate.
    + intros p [= <-]. now cbn.
Qed.

Lemma ge_0_iff (x : spec_float) : ge_0 x = true ↔ is_nan x = false ∧ ¬ negative x.
Proof.
  unfold ge_0, negative, SFleb, SFltb.
  destruct x as [[]|[]| |[] m e]; cbn; split; try (intros [? ?]); try congruence;
    try (split; congruence).
Qed.

(** X7.  Validation of the body of a creation succeeds exactly when the
    address validator accepts the receiver address and weight and amount are
    numbers that are not below zero (a NaN is refused; zero, minus zero and
    infinity pass); the validated body is the body sent, with the address in
    the form the validator returns. *)
Theorem create_body_validation (validate_email : string → option string)
    (body : ShipmentCreate.t) :
  (∀ x, ge_0 x = true ↔ is_nan x = false ∧ ¬ negative x)
  ∧ (∀ p, ShipmentCreate.validate validate_email body = Some p
       ↔ ∃ email,
           validate_email (ShipmentCreate.receiver_email body) = Some email
           ∧ ge_0 (ShipmentCreate.weight body) = true
           ∧ ge_0 (ShipmentCreate.amount body) = true
           ∧ p = with_receiver_email email body)
  ∧ (ShipmentCreate.validate validate_email body = None
     ↔ validate_email (ShipmentCreate.receiver_email body) = None
       ∨ ge_0 (ShipmentCreate.weight body) = false
       ∨ ge_0 (ShipmentCreate.amount body) = false).
Proof.
  split; [apply ge_0_iff|]. unfold ShipmentCreate.validate.
  destruct (validate_email (ShipmentCreate.receiver_email body)) as [email|]; cbn.
  - destruct (ge_0 (ShipmentCreate.weight body)), (ge_0 (ShipmentCreate.amount body)); cbn.
    + split.
      * intros p. split.
        -- intros [= <-]. now exists email.
        -- intros (email' & [= <-] & _ & _ & ->). reflexivity.
      * split; [discriminate|]. intros [|[|]]; discriminate.
    + split.
      * intros p. split; [discriminate|]. intros (? & _ & _ & ? & _). discriminate.
      * split; auto.
    + split.
      * intros p. split; [discriminate|]. intros (? & _ & ? & _). discriminate.
      * split; auto.
    + split.
      * intros p. split; [discriminate|]. intros (? & _ & ? & _). discriminate.
      * split; auto.
  - split.
    + intros p. split; [discriminate|]. intros (? & ? & _). discriminate.
    + split; auto.
Qed.

End Bodies.

(** ** The collection under the operations *)

Section CollectionFacts.
Context `{Collaborators}.

Implicit Types (c : Collection.t) (fields : dict) (oid : nat).

Lemma not_written (k : string) :
  k ∉ written_fields →
  k ≠ "status" ∧ k ≠ "timeline" ∧ k ≠ "location" ∧ k ≠ "last_update"
  ∧ k ≠ "proof_of_delivery_url".
Proof.
  unfold written_fields. rewrite !not_elem_of_cons. tauto.
Qed.

(** One operation keeps every field that is not among the written ones, in
    every stored shipment. *)
Lemma run_field_kept (op : Op) (w : World) oid fields (k : string) :
  shipment w !! oid = Some fields →
  k ∉ written_fields →
  ∃ fields', shipment (run op w).2 !! oid = Some fields' ∧ fields' !! k = fields !! k.
Proof.
  intros Hlook Hk. apply not_written in Hk as (H1 & H2 & H3 & H4 & H5).
  pose proof (run_effect op w) as Heff.
  set (c' := shipment (run op w).2) in *. clearbody c'.
  inversion Heff as
    [u p Hop Hc|payload admin email He Hw Ha Hop Hc|payload admin Hinv' Hop Hc
    |admin Hop Hc|code Hop Hc|code payload admin Hno Hop Hc
    |code payload admin j f Hfm Hok Hop Hc|code payload admin j f Hfm Hstuck Hop Hc
    |code fn content admin Hno Hop Hc|code fn content admin Hrefused Hop Hc
    |code fn content admin j f Hfm Hop Hc
    |code admin Hop Hc]; subst op c'.
  1, 3, 4, 5, 6, 8, 9, 10, 12: by (exists fields).
  - exists fields. split; [|reflexivity]. now apply lookup_app_l_Some.
  - destruct (decide (j = oid)) as [->|Hne].
    + assert (f = fields) as -> by (destruct Hfm as (Hf & _); congruence).
      eexists. split; [apply list_lookup_insert_eq; now apply lookup_lt_Some in Hlook|].
      apply lookup_union_r. now apply update_set_other.
    + exists fields. split; [|reflexivity]. now rewrite list_lookup_insert_ne.
  - destruct (decide (j = oid)) as [->|Hne].
    + assert (f = fields) as -> by (destruct Hfm as (Hf & _); congruence).
      eexists. split; [apply list_lookup_insert_eq; now apply lookup_lt_Some in Hlook|].
      apply lookup_union_r. now apply lookup_singleton_ne.
    + exists fields. split; [|reflexivity]. now rewrite list_lookup_insert_ne.
Qed.

Lemma run_all_field_kept (ops : list Op) (w : World) oid fields (k : string) :
  shipment w !! oid = Some fields →
  k ∉ written_fields →
  ∃ fields', shipment (run_all ops w) !! oid = Some fields' ∧ fields' !! k = fields !! k.
Proof.
  revert w fields. induction ops as [|op ops IH]; intros w fields Hlook Hk.
  - now exists fields.
  - destruct (run_field_kept op w oid fields k Hlook Hk) as (f1 & Hl1 & Hk1).
    destruct (IH _ f1 Hl1 Hk) as (f2 & Hl2 & Hk2).
    exists f2. split; [exact Hl2|congruence].
Qed.

(** X8.  No sequence of operations changes a field of a stored shipment
    other than [status], [timeline], [location], [last_update] and
    [proof_of_delivery_url]: the tracking code, the names, the receiver
    address, weight, amount and the rest stay as creation stored them, and
    the shipment stays at its place in the collection. *)
Theorem content_fields_never_change (ops : list Op) (w : World) (oid : nat)
    (fields : dict) (k : string) :
  shipment w !! oid = Some fields →
  k ∉ written_fields →
  ∃ fields', shipment (run_all ops w) !! oid = Some fields' ∧ fields' !! k = fields !! k.
Proof. apply run_all_field_kept. Qed.

Lemma created_length (payload : ShipmentCreate.t) (admin : dict) (w : World) :
  valid_content payload →
  length (shipment (create_shipment payload admin w).2) = S (length (shipment w)).
Proof.
  intros Hvalid. destruct (created_shipment payload admin w Hvalid) as (email & _ & ->).
  rewrite length_app. cbn. lia.
Qed.

(** X9.  The collection grows by exactly one document when a creation with
    valid content runs, and keeps its length under every other operation:
    nothing is ever deleted, and a creation that fails stores nothing. *)
Theorem collection_grows_only_by_creation (op : Op) (w : World) :
  (∀ payload admin, op = Create payload admin → valid_content payload →
     length (shipment (run op w).2) = S (length (shipment w)))
  ∧ ((∀ payload admin, op = Create payload admin → ¬ valid_content payload) →
     length (shipment (run op w).2) = length (shipment w))
  ∧ (length (shipment w) ≤ length (shipment (run op w).2))%nat.
Proof.
  pose proof (run_effect op w) as Heff.
  assert (Hcases :
    (∃ payload admin, op = Create payload admin ∧ valid_content payload
       ∧ length (shipment (run op w).2) = S (length (shipment w)))
    ∨ ((∀ payload admin, op = Create payload admin → ¬ valid_content payload)
       ∧ length (shipment (run op w).2) = length (shipment w))).
  { set (c' := shipment (run op w).2) in *. clearbody c'.
    inversion Heff as
      [u p Hop Hc|payload admin email He Hw Ha Hop Hc|payload admin Hinv' Hop Hc
      |admin Hop Hc|code Hop Hc|code payload admin Hno Hop Hc
      |code payload admin j f Hfm Hok Hop Hc|code payload admin j f Hfm Hstuck Hop Hc
      |code fn content admin Hno Hop Hc|code fn content admin Hrefused Hop Hc
    |code fn content admin j f Hfm Hop Hc
      |code admin Hop Hc]; subst op c'.
    2: { left. exists payload, admin. split; [reflexivity|]. split.
         - unfold valid_content, ShipmentCreate.validate. rewrite He. cbn.
           rewrite Hw, Ha. cbn. eauto.
         - rewrite length_app. cbn. lia. }
    2: { right. split; [|reflexivity]. now intros ? ? [= <- <-]. }
    all: right; split; [discriminate|]; rewrite ?length_insert; reflexivity. }
  split; [|split].
  - intros payload admin -> Hvalid. cbn [run]. unfold fmap, M_fmap.
    pose proof (created_length payload admin w Hvalid) as Hlen.
    now destruct (create_shipment payload admin w) as [[r|e] w1].
  - intros Hnot. destruct Hcases as [(payload & admin & -> & Hvalid & _)|[_ Hlen]];
      [|exact Hlen].
    now destruct (Hnot payload admin eq_refl).
  - destruct Hcases as [(_ & _ & _ & _ & Hlen)|[_ Hlen]]; lia.
Qed.

End CollectionFacts.

(** ** Writing, then reading *)

Section RoundTrips.
Context `{Collaborators}.

Implicit Types (c : Collection.t) (fields : dict) (oid : nat).

Lemma first_match_insert_same (key text : string) c oid fields fields' :
  first_match key text c oid fields →
  fields' !! key = fields !! key →
  first_match key text (<[oid := fields']> c) oid fields'.
Proof.
  intros (Hlook & Hm & Hfirst) Hsame.
  split; [apply list_lookup_insert_eq; now apply lookup_lt_Some in Hlook|].
  split; [now rewrite (field_matches_key _ _ fields fields' Hsame)|].
  intros j fj Hlt Hj. rewrite list_lookup_insert_ne in Hj by lia.
  now apply (Hfirst j fj Hlt).
Qed.

Lemma public_track_found (tracking_code : string) (w : World) oid fields :
  first_match "tracking_code" tracking_code (shipment w) oid fields →
  public_track tracking_code w
  = (Returned (<["_id" := VStr (str_ObjectId oid)]> fields), w).
Proof.
  intros Hfm. unfold public_track. run_handler.
  rewrite (find_one_first_match _ _ _ _ _ Hfm), truthy_document. cbn [negb].
  apply stringify_id_document.
Qed.

Lemma first_match_new_document (code : string) c fields :
  no_match "tracking_code" code c →
  fields !! "tracking_code" = Some (VStr code) →
  first_match "tracking_code" code (c ++ [fields]) (length c) fields.
Proof.
  intros Hfresh Hcode. split; [apply list_lookup_middle; reflexivity|]. split.
  - unfold Collection.field_matches. rewrite Hcode. cbn. apply String.eqb_refl.
  - intros j fj Hlt Hj. rewrite lookup_app_l in Hj by exact Hlt.
    unfold no_match in Hfresh. rewrite Forall_lookup in Hfresh.
    exact (Hfresh j fj Hj).
Qed.

(** X10.  A shipment created under a code that no stored shipment carried
    is found by the public lookup under the code that creation returned: the
    lookup returns the identifier that creation returned and the content
    that was sent (with the receiver address as the validator normalised
    it), status [Order Received] and a timeline of one entry. *)
Theorem create_then_track (payload : ShipmentCreate.t) (admin : dict) (w : World) :
  valid_content payload →
  no_match "tracking_code" (tracking_code_at (clock (ticks w))) (shipment w) →
  let code := tracking_code_at (clock (ticks w)) in
  let w1 := (create_shipment payload admin w).2 in
  ∃ email doc,
    validate_email (ShipmentCreate.receiver_email payload) = Some email
    ∧ (create_shipment payload admin w).1
      = Returned (list_to_map [("id", VStr (str_ObjectId (length (shipment w))));
                               ("tracking_code", VStr code)])
    ∧ public_track code w1 = (Returned doc, w1)
    ∧ doc !! "_id" = Some (VStr (str_ObjectId (length (shipment w))))
    ∧ doc !! "tracking_code" = Some (VStr code)
    ∧ doc !! "sender_name" = Some (VStr (ShipmentCreate.sender_name payload))
    ∧ doc !! "receiver_name" = Some (VStr (ShipmentCreate.receiver_name payload))
    ∧ doc !! "receiver_email" = Some (VStr email)
    ∧ doc !! "address" = Some (VStr (ShipmentCreate.address payload))
    ∧ doc !! "country" = Some (VStr (ShipmentCreate.country payload))
    ∧ doc !! "weight" = Some (VFloat (ShipmentCreate.weight payload))
    ∧ doc !! "amount" = Some (VFloat (ShipmentCreate.amount payload))
    ∧ doc !! "origin" = Some (VStr (ShipmentCreate.origin payload))
    ∧ doc !! "destination" = Some (VStr (ShipmentCreate.destination payload))
    ∧ doc !! "status" = Some (VStr "Order Received")
    ∧ length (doc_timeline doc) = 1%nat
    ∧ doc !! "location" = Some VNone
    ∧ doc !! "proof_of_delivery_url" = Some VNone.
Proof.
  intros Hvalid Hfresh code w1.
  destruct (valid_content_inv payload Hvalid) as (email & Hemail & Hw & Ha).
  pose proof (create_shipment_eq payload admin w email Hemail Hw Ha) as Hrun.
  fold code in Hrun.
  set (new := new_shipment payload email code (clock (S (ticks w)))
                (clock (S (S (ticks w))))) in Hrun.
  assert (Hstore : shipment w1 = shipment w ++ [new]) by (unfold w1; now rewrite Hrun).
  assert (Hfm : first_match "tracking_code" code (shipment w1) (length (shipment w)) new).
  { rewrite Hstore. now apply first_match_new_document. }
  exists email, (<["_id" := VStr (str_ObjectId (length (shipment w)))]> new).
  split; [exact Hemail|]. split; [now rewrite Hrun|].
  split; [now apply public_track_found|].
  split; [apply lookup_insert_eq|].
  repeat split.
Qed.

(** X11.  What an update returns is what the public lookup returns right
    after it, under the same code. *)
Theorem update_then_track (tracking_code : string) (payload : ShipmentUpdate.t)
    (admin : dict) (w : World) (doc : dict) (w' : World) :
  update_shipment tracking_code payload admin w = (Returned doc, w') →
  public_track tracking_code w' = (Returned doc, w').
Proof.
  intros Hrun.
  destruct (match_or_not "tracking_code" tracking_code (shipment w))
    as [Hno|(oid & fields & Hfm)].
  { rewrite (update_shipment_unknown _ payload admin w Hno) in Hrun. discriminate. }
  destruct (appendable_or_not payload fields) as [Hok|Hstuck].
  2: { rewrite (update_shipment_stuck _ payload admin w oid fields Hfm Hstuck) in Hrun.
       discriminate. }
  rewrite (update_shipment_found _ payload admin w oid fields Hfm Hok) in Hrun.
  injection Hrun as <- <-.
  apply public_track_found. cbn [with_ticks with_shipment shipment].
  eapply first_match_insert_same; [exact Hfm|].
  apply lookup_union_r. now apply update_set_other.
Qed.

Lemma contains_append (c : ascii) (a b : string) :
  Py.contains c (a +:+ b) = Py.contains c a || Py.contains c b.
Proof.
  induction a as [|x a IH]; [reflexivity|].
  rewrite append_cons. cbn [Py.contains]. rewrite IH. apply orb_assoc.
Qed.

Lemma partition_absent (c : ascii) (s : string) :
  Py.contains c s = false → Py.partition c s = None.
Proof.
  induction s as [|x s IH]; [reflexivity|]. cbn [Py.contains Py.partition].
  destruct (Ascii.eqb c x); [discriminate|]. cbn [orb]. intros Hs. now rewrite (IH Hs).
Qed.

Lemma partition_present (c : ascii) (s : string) :
  Py.contains c s = true → ∃ head rest, Py.partition c s = Some (head, rest).
Proof.
  induction s as [|x s IH]; [discriminate|]. cbn [Py.contains Py.partition].
  destruct (Ascii.eqb c x); [eauto|]. cbn [orb]. intros Hs.
  destruct (IH Hs) as (head & rest & ->). eauto.
Qed.

Lemma open_error_plain (stem filename : string) (files : gmap string (list byte)) :
  Py.contains "000" filename = false → Py.contains "/" filename = false →
  open_error stem filename files = None.
Proof.
  intros Hnul Hslash. unfold open_error.
  now rewrite Hnul, (partition_absent _ _ Hslash).
Qed.

Lemma open_error_slash (stem filename : string) (files : gmap string (list byte)) :
  Py.contains "/" filename = true → is_Some (open_error stem filename files).
Proof.
  intros Hslash. unfold open_error.
  destruct (Py.contains "000" filename); [eauto|].
  destruct (partition_present _ _ Hslash) as (head & rest & ->).
  destruct (Py.all_chars "/" rest); [eauto|].
  destruct (decide _); eauto.
Qed.

(** X12.  After an upload for the code of a stored shipment under a file
    name that the file system takes, the public lookup under that code
    shows the path of the uploaded file as [proof_of_delivery_url], the
    file at that path holds the uploaded content, and the other fields of
    the shipment are as before.  A file name with a [/] or a NUL makes
    [open] raise: the upload fails, no file is written and no shipment is
    changed. *)
Theorem upload_then_track (tracking_code filename : string) (content : list byte)
    (admin : dict) (w : World) (oid : nat) (fields : dict) :
  first_match "tracking_code" tracking_code (shipment w) oid fields →
  let path := "logs/" +:+ tracking_code +:+ "-" +:+ filename in
  let w' := (upload_proof tracking_code filename content admin w).2 in
  (plain_file_name (tracking_code +:+ "-" +:+ filename) →
   ∃ doc,
     public_track tracking_code w' = (Returned doc, w')
     ∧ (upload_proof tracking_code filename content admin w).1
       = Returned {["url" := VStr ("/" +:+ path)]}
     ∧ doc !! "proof_of_delivery_url" = Some (VStr ("/" +:+ path))
     ∧ files w' !! path = Some content
     ∧ doc !! "_id" = Some (VStr (str_ObjectId oid))
     ∧ ∀ k : string, k ≠ "_id" → k ≠ "proof_of_delivery_url" → doc !! k = fields !! k)
  ∧ (Py.contains "/" filename = true ∨ Py.contains "000" filename = true →
     ∃ exception,
       upload_proof tracking_code filename content admin w
       = (Raised (Uncaught exception), w))
  ∧ (Py.contains "000" filename = true →
     upload_proof tracking_code filename content admin w
     = (Raised (Uncaught "ValueError"), w)).
Proof.
  intros Hfm path w'. split; [|split].
  - intros (Hnul & Hslash & _).
    rewrite !contains_append in Hnul, Hslash.
    apply orb_false_iff in Hnul as [_ Hnul]. apply orb_false_iff in Hnul as [_ Hnul].
    apply orb_false_iff in Hslash as [_ Hslash].
    apply orb_false_iff in Hslash as [_ Hslash].
    pose proof (open_error_plain ("logs/" +:+ tracking_code +:+ "-") filename (files w)
                  Hnul Hslash) as Hopen.
    unfold w'. rewrite (upload_proof_eq _ _ _ _ _ Hopen). fold path. cbn [fst snd].
    unfold Collection.update_one.
    rewrite (find_index_first_match _ _ _ _ _ Hfm), (alter_first_match _ _ _ _ _ _ Hfm).
    unfold Collection.set_fields.
    set (fields' := ({["proof_of_delivery_url" := VStr ("/" +:+ path)]} ∪ fields : dict)).
    assert (Hpod : fields' !! "proof_of_delivery_url" = Some (VStr ("/" +:+ path))).
    { apply lookup_union_Some_l. apply lookup_singleton_eq. }
    assert (Hother : ∀ k : string, k ≠ "proof_of_delivery_url" → fields' !! k = fields !! k).
    { intros k Hk. apply lookup_union_r. now apply lookup_singleton_ne. }
    exists (<["_id" := VStr (str_ObjectId oid)]> fields').
    split; [|split; [reflexivity|split; [|split; [|split]]]].
    + apply public_track_found. cbn [shipment].
      eapply first_match_insert_same; [exact Hfm|]. now apply Hother.
    + now rewrite lookup_insert_ne.
    + apply lookup_insert_eq.
    + apply lookup_insert_eq.
    + intros k Hid Hk. rewrite lookup_insert_ne by auto. now apply Hother.
  - intros Hbad.
    assert (Hopen : is_Some (open_error ("logs/" +:+ tracking_code +:+ "-") filename
                               (files w))).
    { destruct Hbad as [Hslash|Hnul]; [now apply open_error_slash|].
      unfold open_error. rewrite Hnul. eauto. }
    destruct Hopen as [exception Hopen]. exists exception.
    now apply upload_proof_refused.
  - intros Hnul. apply upload_proof_refused. unfold open_error. now rewrite Hnul.
Qed.

End RoundTrips.

(** ** Two shipments under one code *)

Section Shadowing.
Context `{Collaborators}.

Implicit Types (c : Collection.t) (fields : dict) (oid : nat).


Lemma tracking_code_not_written : "tracking_code" ∉ written_fields.
Proof. unfold written_fields. rewrite !not_elem_of_cons. repeat split; try discriminate.
  apply not_elem_of_nil. Qed.



End Shadowing.

(** ** What a listing holds *)

Section ListingContents.

(** X14.  The records of a listing are stored shipments, each with its
    identifier as text and its fields as stored.  Together with the
    shipments left out they are all the stored shipments; nothing is left
    out while the collection holds at most 200 shipments; and a shipment
    that is left out never sorts above one that is listed, so the listing
    holds the most recently updated ones. *)
Theorem list_shipments_contents (admin : dict) (w : World) :
  ∃ listed omitted : list dict,
    list_shipments admin w = (Returned (with_text_id <$> listed), w)
    ∧ listed ++ omitted ≡ₚ Collection.find (shipment w)
    ∧ ((length (shipment w) ≤ 200)%nat → omitted = [])
    ∧ (∀ it om, it ∈ listed → om ∈ omitted → Collection.desc "last_update" it om)
    ∧ (∀ it, it ∈ listed →
         ∃ oid fields,
           shipment w !! oid = Some fields
           ∧ it = Collection.document oid fields
           ∧ with_text_id it = <["_id" := VStr (str_ObjectId oid)]> fields).
Proof.
  set (sorted := merge_sort (Collection.desc "last_update") (Collection.find (shipment w))).
  assert (Hperm : sorted ≡ₚ Collection.find (shipment w)) by apply merge_sort_Permutation.
  assert (Hstrong : StronglySorted (Collection.desc "last_update") sorted).
  { apply Sorted_StronglySorted; [apply desc_trans|].
    apply Sorted_merge_sort. apply desc_total. }
  exists (take 200 sorted), (drop 200 sorted).
  split; [|split; [|split; [|split]]].
  - unfold list_shipments. run_handler.
    unfold Collection.find_sort_desc_limit. fold sorted.
    apply stringify_ids_stored, Forall_take. rewrite Hperm. apply find_has_object_id.
  - now rewrite take_drop.
  - intros Hsmall. apply drop_ge. rewrite Hperm.
    unfold Collection.find. now rewrite length_imap.
  - intros it om Hit Hom.
    rewrite <- (take_drop 200 sorted) in Hstrong.
    exact (StronglySorted_app_1_elem_of _ _ _ it om Hstrong Hit Hom).
  - intros it Hit.
    assert (Hin : it ∈ Collection.find (shipment w)).
    { rewrite <- Hperm, <- (take_drop 200 sorted). apply elem_of_app. now left. }
    unfold Collection.find in Hin.
    apply elem_of_lookup_imap in Hin as (oid & fields & -> & Hlook).
    exists oid, fields. split; [exact Hlook|]. split; [reflexivity|].
    unfold with_text_id. rewrite document_id. apply stringify_document.
Qed.

End ListingContents.

(** ** Codes that come again *)

Section Repeats.

Lemma digit_char_mod (a b : Z) : a mod 10 = b mod 10 → Py.digit_char a = Py.digit_char b.
Proof. unfold Py.digit_char. now intros ->. Qed.

Lemma low4_mod (n : Z) : low4 (n mod 10000) = low4 n.
Proof.
  unfold low4.
  rewrite (digit_char_mod (n mod 10000 / 1000) (n / 1000)),
    (digit_char_mod (n mod 10000 / 100) (n / 100)),
    (digit_char_mod (n mod 10000 / 10) (n / 10)),
    (digit_char_mod (n mod 10000) n);
    [reflexivity|..]; Z.to_euclidean_division_equations; lia.
Qed.

Lemma low4_congruent (a b : Z) : a mod 10000 = b mod 10000 → low4 a = low4 b.
Proof. intros Heq. now rewrite <- (low4_mod a), <- (low4_mod b), Heq. Qed.

Lemma strftime_Ymd_ordinal (t1 t2 : datetime) :
  Datetime.toordinal t1 = Datetime.toordinal t2 →
  Datetime.strftime_Ymd t1 = Datetime.strftime_Ymd t2.
Proof.
  intros Hord. unfold Datetime.strftime_Ymd, Datetime.year, Datetime.month, Datetime.day.
  now rewrite Hord.
Qed.

(** X15.  The tracking code depends on the UTC day of the clock reading and
    on the last four digits of [int(t.timestamp())] only: two readings of
    one day whose [int(t.timestamp())] agree in the last four digits give
    the same code.  Before [2^34] seconds (the year 2514)
    [int(t.timestamp())] is the epoch second: two readings in the same
    second give the same code, and so do two readings of one day whose
    epoch seconds differ by a multiple of 10000. *)
Theorem tracking_code_repeats (t1 t2 : datetime) :
  clock_reading_ok t1 →
  clock_reading_ok t2 →
  (Datetime.toordinal t1 = Datetime.toordinal t2 →
     Datetime.int_timestamp t1 mod 10000 = Datetime.int_timestamp t2 mod 10000 →
     tracking_code_at t1 = tracking_code_at t2)
  ∧ (t1 < 2 ^ 34 * 1000000 → t2 < 2 ^ 34 * 1000000 →
     (t1 / 1000000 = t2 / 1000000 → tracking_code_at t1 = tracking_code_at t2)
     ∧ (Datetime.toordinal t1 = Datetime.toordinal t2 →
        (t1 / 1000000) mod 10000 = (t2 / 1000000) mod 10000 →
        tracking_code_at t1 = tracking_code_at t2)).
Proof.
  intros H1 H2.
  assert (Hgeneral : Datetime.toordinal t1 = Datetime.toordinal t2 →
    Datetime.int_timestamp t1 mod 10000 = Datetime.int_timestamp t2 mod 10000 →
    tracking_code_at t1 = tracking_code_at t2).
  { intros Hord Hmod. unfold tracking_code_at.
    rewrite (strftime_Ymd_ordinal t1 t2 Hord).
    rewrite !slice_last_str_int by (apply H1 || apply H2).
    now rewrite (low4_congruent _ _ Hmod). }
  split; [exact Hgeneral|].
  intros Hearly1 Hearly2.
  pose proof (clock_reading_ok_range t1 H1) as [Hpos1 _].
  pose proof (clock_reading_ok_range t2 H2) as [Hpos2 _].
  pose proof (int_timestamp_exact t1 ltac:(lia)) as Hs1.
  pose proof (int_timestamp_exact t2 ltac:(lia)) as Hs2.
  split.
  - intros Hsec. apply Hgeneral; [|now rewrite Hs1, Hs2, Hsec].
    unfold Datetime.toordinal, Datetime.US_PER_DAY, Datetime.US_PER_SECOND.
    f_equal. Z.to_euclidean_division_equations. lia.
  - intros Hord Hmod. apply Hgeneral; [exact Hord|]. now rewrite Hs1, Hs2.
Qed.

End Repeats.

(** ** Receipts *)

Section ReceiptFacts.
Context `{Renderers}.

Lemma draw_accepted (cmd : PdfCommand) (pdf : list PdfCommand) (w : World) :
  fpdf_refuses cmd = None → draw cmd pdf w = (Returned (pdf ++ [cmd]), w).
Proof. intros Hok. unfold draw. now rewrite Hok. Qed.

Lemma generate_receipt_unknown (tracking_code : string) (w : World) :
  no_match "tracking_code" tracking_code (shipment w) →
  generate_receipt tracking_code w
  = (Raised (HTTPException 404 "Shipment not found"), w).
Proof.
  intros Hno. unfold generate_receipt. run_handler.
  now rewrite (find_one_no_match _ _ _ Hno).
Qed.

Lemma generate_receipt_found (tracking_code : string) (w : World) (oid : nat)
    (fields : dict) (picture : list byte) :
  first_match "tracking_code" tracking_code (shipment w) oid fields →
  qrcode_png 6 2 ("/track/" +:+ tracking_code) "black" "white" = Some picture →
  Forall (λ cmd, fpdf_refuses cmd = None) (receipt_page tracking_code fields picture) →
  generate_receipt tracking_code w
  = (Returned {| media_type := "application/pdf";
                 body := fpdf_output (receipt_page tracking_code fields picture) |},
     with_file ("logs/" +:+ tracking_code +:+ "-qr.png") picture w).
Proof.
  intros Hfm Hqr Hpage. unfold generate_receipt. run_handler.
  rewrite (find_one_first_match _ _ _ _ _ Hfm), truthy_document. cbn [negb].
  rewrite Hqr.
  rewrite (document_field oid fields "sender_name") by discriminate.
  rewrite (document_field oid fields "receiver_name") by discriminate.
  rewrite (document_field oid fields "amount") by discriminate.
  unfold receipt_page in Hpage. rewrite !Forall_cons in Hpage.
  destruct Hpage as (H1 & H2 & H3 & H4 & H5 & H6 & H7 & H8 & H9 & H10 & H11 & _).
  rewrite (draw_accepted _ _ _ H1). cbn [app].
  rewrite (draw_accepted _ _ _ H2). cbn [app].
  rewrite (draw_accepted _ _ _ H3). cbn [app].
  rewrite (draw_accepted _ _ _ H4). cbn [app].
  rewrite (draw_accepted _ _ _ H5). cbn [app].
  rewrite (draw_accepted _ _ _ H6). cbn [app].
  rewrite (draw_accepted _ _ _ H7). cbn [app].
  rewrite (draw_accepted _ _ _ H8). cbn [app].
  rewrite (draw_accepted _ _ _ H9). cbn [app].
  rewrite (draw_accepted _ _ _ H10). cbn [app].
  unfold read_file. cbn [files]. rewrite lookup_insert_eq.
  rewrite (draw_accepted _ _ _ H11). cbn [app].
  reflexivity.
Qed.

(** X16.  The receipt route takes no token.  For a code that no stored
    shipment carries it answers [404 Shipment not found] and writes
    nothing.  For a stored shipment, when the QR library renders
    [/track/<code>] and the PDF library takes the drawing calls, it writes
    the QR picture to [logs/<code>-qr.png], leaves the collection as it is,
    and returns as [application/pdf] a page with the tracking code, the
    sender, the receiver and the amount of the shipment and that picture. *)
Theorem generate_receipt_spec (tracking_code : string) (w : World) :
  (no_match "tracking_code" tracking_code (shipment w) →
     generate_receipt tracking_code w
     = (Raised (HTTPException 404 "Shipment not found"), w))
  ∧ (∀ oid fields picture,
       first_match "tracking_code" tracking_code (shipment w) oid fields →
       qrcode_png 6 2 ("/track/" +:+ tracking_code) "black" "white" = Some picture →
       Forall (λ cmd, fpdf_refuses cmd = None)
         (receipt_page tracking_code fields picture) →
       ∃ w',
         generate_receipt tracking_code w
         = (Returned {| media_type := "application/pdf";
                        body := fpdf_output (receipt_page tracking_code fields picture) |},
            w')
         ∧ shipment w' = shipment w
         ∧ smtp_log w' = smtp_log w
         ∧ files w' !! ("logs/" +:+ tracking_code +:+ "-qr.png") = Some picture
         ∧ (∀ path : string, path ≠ "logs/" +:+ tracking_code +:+ "-qr.png" →
              files w' !! path = files w !! path)
         ∧ cell 200 10 ("Tracking: " +:+ tracking_code) true EmptyString
           ∈ receipt_page tracking_code fields picture
         ∧ image ("logs/" +:+ tracking_code +:+ "-qr.png") picture 160 20 30 30
           ∈ receipt_page tracking_code fields picture).
Proof.
  split; [apply generate_receipt_unknown|].
  intros oid fields picture Hfm Hqr Hpage.
  eexists. split; [now apply (generate_receipt_found _ _ oid)|].
  cbn [with_file shipment smtp_log files].
  split; [reflexivity|]. split; [reflexivity|]. split; [apply lookup_insert_eq|].
  split; [intros path Hpath; now rewrite lookup_insert_ne|].
  unfold receipt_page. split; set_solver.
Qed.

Lemma receipt_page_fields (tracking_code : string) (fields fields' : dict)
    (picture : list byte) :
  fields' !! "sender_name" = fields !! "sender_name" →
  fields' !! "receiver_name" = fields !! "receiver_name" →
  fields' !! "amount" = fields !! "amount" →
  receipt_page tracking_code fields' picture = receipt_page tracking_code fields picture.
Proof. unfold receipt_page. now intros -> -> ->. Qed.

(** X17.  A proof of delivery uploaded under the file name [qr.png] is
    stored at the path where the receipt route writes its QR picture: a
    receipt generated afterwards replaces the uploaded content with the
    picture, while the shipment still names that path as its
    [proof_of_delivery_url]. *)
Theorem receipt_overwrites_proof_named_qr (tracking_code : string) (content : list byte)
    (admin : dict) (w : World) (oid : nat) (fields : dict) (picture : list byte) :
  first_match "tracking_code" tracking_code (shipment w) oid fields →
  qrcode_png 6 2 ("/track/" +:+ tracking_code) "black" "white" = Some picture →
  Forall (λ cmd, fpdf_refuses cmd = None) (receipt_page tracking_code fields picture) →
  let path := "logs/" +:+ tracking_code +:+ "-qr.png" in
  let w1 := (upload_proof tracking_code "qr.png" content admin w).2 in
  let w2 := (generate_receipt tracking_code w1).2 in
  (upload_proof tracking_code "qr.png" content admin w).1
  = Returned {["url" := VStr ("/" +:+ path)]}
  ∧ files w1 !! path = Some content
  ∧ files w2 !! path = Some picture
  ∧ ∃ doc, public_track tracking_code w2 = (Returned doc, w2)
      ∧ doc !! "proof_of_delivery_url" = Some (VStr ("/" +:+ path)).
Proof.
  intros Hfm Hqr Hpage path w1 w2.
  assert (Hupload : upload_proof tracking_code "qr.png" content admin w
    = (Returned {["url" := VStr ("/" +:+ path)]},
       {| shipment :=
            <[oid := {["proof_of_delivery_url" := VStr ("/" +:+ path)]} ∪ fields]>
              (shipment w);
          ticks := ticks w;
          files := <[path := content]> (files w);
          smtp_log := smtp_log w |})).
  { rewrite upload_proof_eq by reflexivity. unfold Collection.update_one.
    rewrite (find_index_first_match _ _ _ _ _ Hfm), (alter_first_match _ _ _ _ _ _ Hfm).
    reflexivity. }
  set (fields' := ({["proof_of_delivery_url" := VStr ("/" +:+ path)]} ∪ fields : dict))
    in Hupload.
  assert (Hother : ∀ k : string, k ≠ "proof_of_delivery_url" → fields' !! k = fields !! k).
  { intros k Hk. apply lookup_union_r. now apply lookup_singleton_ne. }
  assert (Hfm1 : first_match "tracking_code" tracking_code (shipment w1) oid fields').
  { unfold w1. rewrite Hupload. cbn [snd shipment].
    eapply first_match_insert_same; [exact Hfm|]. now apply Hother. }
  assert (Hpage1 : Forall (λ cmd, fpdf_refuses cmd = None)
                     (receipt_page tracking_code fields' picture)).
  { rewrite (receipt_page_fields tracking_code fields fields' picture); [exact Hpage|..];
      now apply Hother. }
  assert (Hreceipt := generate_receipt_found tracking_code w1 oid fields' picture
                        Hfm1 Hqr Hpage1).
  fold path in Hreceipt.
  split; [now rewrite Hupload|]. split.
  { unfold w1. rewrite Hupload. cbn [snd files]. apply lookup_insert_eq. }
  split.
  { unfold w2. rewrite Hreceipt. cbn [snd with_file files]. apply lookup_insert_eq. }
  exists (<["_id" := VStr (str_ObjectId oid)]> fields'). split.
  - apply public_track_found. unfold w2. rewrite Hreceipt. cbn [snd with_file shipment].
    exact Hfm1.
  - rewrite lookup_insert_ne by discriminate.
    apply lookup_union_Some_l. apply lookup_singleton_eq.
Qed.

End ReceiptFacts.

(** ** Update requests *)

Section UpdateRequest.
Context `{Collaborators}.

(** X18.  For an update request whose token is accepted: a status text that
    is not one of the seven statuses is refused with a validation error
    before the handler runs, and nothing is stored; a body that validates
    is handed to [update_shipment] as validated. *)
Theorem update_request_validation (authorization : option string)
    (tracking_code : string) (b : ShipmentUpdate.body) (w : World) (admin : dict)
    (w0 : World) :
  admin_dependency authorization w = (Returned admin, w0) →
  (∀ text, ShipmentUpdate.body_status b = Some text → (∀ s, status_text s ≠ text) →
     handle (PATCH_shipments authorization tracking_code b) w
     = (Raised RequestValidationError, w0)
     ∧ error_kind RequestValidationError = ValidationError
     ∧ shipment w0 = shipment w)
  ∧ (∀ payload, ShipmentUpdate.validate b = Some payload →
     handle (PATCH_shipments authorization tracking_code b) w
     = (VDict <$> update_shipment tracking_code payload admin) w0).
Proof.
  intros Hauth.
  pose proof (admin_dependency_world _ _ _ _ Hauth) as Hw0.
  split.
  - intros text Htext Hnone.
    assert (Hv : ShipmentUpdate.validate b = None).
    { unfold ShipmentUpdate.validate. rewrite Htext.
      destruct (StatusLiteral_validate text) as [s|] eqn:Hs; [|reflexivity].
      apply StatusLiteral_validate_Some in Hs. now destruct (Hnone s). }
    split; [|split; [reflexivity|now rewrite Hw0]].
    unfold handle. cbn [resolve]. run_handler. now rewrite Hauth, Hv.
  - intros payload Hv. unfold handle. cbn [resolve]. run_handler.
    rewrite Hauth, Hv. run_handler. cbn [run]. reflexivity.
Qed.

End UpdateRequest.

(** ** Refused logins *)

Section RefusedLogins.
Context `{Collaborators}.

(** X20.  A wrong identity, and the right identity with a secret that the
    password verifier answers "no" to, end in the same way,
    [401 Invalid credentials] with the world as it was; and no attempt other
    than the admin's with a secret that verifies returns a token, also
    where the verifier raises. *)
Theorem login_refusals (username1 password1 password2 : string) (w : World) :
  username1 ≠ ADMIN_EMAIL →
  pwd_verify password2 ADMIN_HASH = Answers false →
  login username1 password1 w = login ADMIN_EMAIL password2 w
  ∧ login username1 password1 w
    = (Raised (HTTPException 401 "Invalid credentials"), w)
  ∧ error_kind (HTTPException 401 "Invalid credentials") = InvalidCredentials
  ∧ (∀ username password,
       username ≠ ADMIN_EMAIL ∨ pwd_verify password ADMIN_HASH ≠ Answers true →
       ∀ token w', login username password w ≠ (Returned token, w')).
Proof.
  intros Hu Hp.
  rewrite (login_wrong_identity username1 password1 w Hu).
  rewrite (login_wrong_secret password2 w Hp).
  split; [reflexivity|]. split; [reflexivity|]. split; [reflexivity|].
  intros u p Hbad token w' Heq.
  destruct (String.eqb_spec u ADMIN_EMAIL) as [->|Hne].
  - destruct (pwd_verify p ADMIN_HASH) as [[]|exception] eqn:Hv.
    + destruct Hbad as [Hbad|Hbad]; now apply Hbad.
    + rewrite (login_wrong_secret p w Hv) in Heq. discriminate.
    + rewrite (login_verifier_raises p exception w Hv) in Heq. discriminate.
  - rewrite (login_wrong_identity u p w Hne) in Heq. discriminate.
Qed.

End RefusedLogins.

(** ** Requests without an accepted token *)

Section Unauthenticated.
Context `{Collaborators}.

Lemma same_but_ticks_refl (w : World) : same_but_ticks w w.
Proof. repeat split. Qed.

Lemma same_but_ticks_trans (w1 w2 w3 : World) :
  same_but_ticks w1 w2 → same_but_ticks w2 w3 → same_but_ticks w1 w3.
Proof. intros (? & ? & ?) (? & ? & ?). repeat split; congruence. Qed.

Lemma login_same_but_ticks (username password : string) (w : World) :
  same_but_ticks w (login username password w).2.
Proof.
  unfold login, credentials_refused, verify_password, create_access_token.
  run_handler.
  destruct (negb (String.eqb username ADMIN_EMAIL)); [apply same_but_ticks_refl|].
  destruct (pwd_verify password ADMIN_HASH) as [[]|exception];
    try apply same_but_ticks_refl.
  cbn [negb]. destruct (Datetime.add _ _); repeat split.
Qed.

Lemma public_track_world (tracking_code : string) (w : World) :
  (public_track tracking_code w).2 = w.
Proof.
  unfold public_track. run_handler.
  destruct (negb _); [reflexivity|].
  destruct (Collection.find_one _ _ _) as [doc|]; [|reflexivity].
  apply stringify_id_world.
Qed.

Lemma handle_without_admin (r : Request) (w : World) :
  never_accepted r → same_but_ticks w (handle r w).2.
Proof.
  intros Hnever.
  destruct (admin_route r) as [authorization|] eqn:Hroute.
  - destruct (admin_dependency_refused authorization w) as (detail & w' & Hrun & _ & Hs).
    { intros admin w'. exact (Hnever authorization Hroute w admin w'). }
    assert (Hhandle : handle r w = (Raised (HTTPException 401 detail), w')).
    { destruct r; cbn in Hroute; try discriminate; injection Hroute as ->;
        unfold handle; cbn [resolve]; run_handler; now rewrite Hrun. }
    now rewrite Hhandle.
  - destruct r; cbn in Hroute; try discriminate.
    + unfold handle. cbn [resolve]. run_handler. cbn [run]. unfold fmap, M_fmap.
      pose proof (login_same_but_ticks username password w) as Hs.
      now destruct (login username password w) as [[r|e] w1].
    + unfold handle. cbn [resolve]. run_handler. cbn [run]. unfold fmap, M_fmap.
      pose proof (public_track_world tracking_code w) as Hs.
      destruct (public_track tracking_code w) as [[r|e] w1]; cbn in Hs |- *; subst w1;
        apply same_but_ticks_refl.
Qed.

(** X19.  Requests that carry no accepted token change nothing, however
    many are served: after any sequence of logins, public lookups and
    requests to admin routes whose token is missing or refused, the
    collection, the files and the mail log are what they were. *)
Theorem serve_without_admin (rs : list Request) (w : World) :
  Forall never_accepted rs →
  same_but_ticks w (serve rs w).
Proof.
  intros Hall. revert w. induction Hall as [|r rs Hr _ IH]; intros w.
  - apply same_but_ticks_refl.
  - cbn [serve]. eapply same_but_ticks_trans; [|apply IH].
    now apply handle_without_admin.
Qed.

End Unauthenticated.

(** ** The further properties at concrete runs *)

Lemma login_token_is_accepted_witness :
  @pwd_verify Demo.offline "Admin@123" (@ADMIN_HASH Demo.offline) = Answers true
  ∧ Datetime.add (Demo.clock_2024 0) (Datetime.timedelta_minutes 720)
    = Some Cases.login_expiry
  ∧ @login Demo.offline "admin@cargoconnect.com" "Admin@123" Demo.empty_world
    = (Returned (list_to_map
         [("access_token", VStr "dev-secret-change.admin@cargoconnect.com");
          ("token_type", VStr "bearer")]),
       with_ticks 1 Demo.empty_world)
  ∧ @admin_dependency Demo.offline (Some "dev-secret-change.admin@cargoconnect.com")
      (Demo.one_parcel Demo.offline)
    = (Returned {["email" := VStr "admin@cargoconnect.com"]},
       with_ticks 4 (Demo.one_parcel Demo.offline)).
Proof.
  assert (Hpw : @pwd_verify Demo.offline "Admin@123" (@ADMIN_HASH Demo.offline)
                = Answers true) by reflexivity.
  assert (Hexp : Datetime.add (@clock Demo.offline (ticks Demo.empty_world))
                   (Datetime.timedelta_minutes 720) = Some Cases.login_expiry)
    by reflexivity.
  destruct (login_token_is_accepted (H := Demo.offline) "Admin@123" Demo.empty_world
              Cases.login_expiry Hpw Hexp) as (_ & Hlogin & Haccepted).
  split; [exact Hpw|]. split; [exact Hexp|]. split; [exact Hlogin|].
  exact (Haccepted (Demo.one_parcel Demo.offline)
           {["sub" := VStr "admin@cargoconnect.com"]} eq_refl eq_refl).
Defined.

Lemma admin_routes_refuse_without_admin_witness :
  ∃ detail w',
    @handle Demo.offline (POST_shipments None Demo.parcel) Demo.empty_world
    = (Raised (HTTPException 401 detail), w')
    ∧ same_but_ticks Demo.empty_world w'.
Proof.
  assert (Hno : ∀ admin w',
    @admin_dependency Demo.offline None Demo.empty_world ≠ (Returned admin, w'))
    by (intros admin w' Heq; discriminate Heq).
  destruct (admin_routes_refuse_without_admin (H := Demo.offline)
              (POST_shipments None Demo.parcel) None Demo.empty_world eq_refl Hno)
    as (detail & w' & Hrun & _ & Hsame).
  exists detail, w'. split; [exact Hrun|exact Hsame].
Defined.

Lemma send_email_reads_port_first_witness :
  @int_text Cases.bad_port (@getenv_default Cases.bad_port "SMTP_PORT" "587") = None
  ∧ @transport_configured Cases.bad_port = false
  ∧ @send_email Cases.bad_port None "subject" "body" Demo.empty_world
    = (Raised (Uncaught "ValueError"), Demo.empty_world).
Proof.
  assert (Hport : @int_text Cases.bad_port (@getenv_default Cases.bad_port "SMTP_PORT" "587")
                  = None) by reflexivity.
  split; [exact Hport|]. split; [reflexivity|].
  exact (proj1 (send_email_reads_port_first (H := Cases.bad_port) None "subject" "body"
                  Demo.parcel_code ∅ Demo.empty_world Hport)).
Defined.

Lemma content_fields_never_change_witness :
  shipment (Demo.one_parcel Demo.offline) !! 0%nat = Some Run.stored_parcel
  ∧ ("tracking_code" ∉ written_fields)
  ∧ ∃ fields',
      shipment (@run_all Demo.offline Run.updates (Demo.one_parcel Demo.offline)) !! 0%nat
      = Some fields'
      ∧ fields' !! "tracking_code" = Run.stored_parcel !! "tracking_code".
Proof.
  assert (Hlook : shipment (Demo.one_parcel Demo.offline) !! 0%nat
                  = Some Run.stored_parcel) by reflexivity.
  split; [exact Hlook|]. split; [exact tracking_code_not_written|].
  exact (content_fields_never_change (H := Demo.offline) Run.updates
           (Demo.one_parcel Demo.offline) 0 Run.stored_parcel "tracking_code"
           Hlook tracking_code_not_written).
Defined.

Lemma create_then_track_witness :
  @valid_content Demo.offline Demo.parcel
  ∧ no_match "tracking_code" (tracking_code_at (Demo.clock_2024 0))
      (shipment Demo.empty_world)
  ∧ ∃ doc,
      public_track (tracking_code_at (Demo.clock_2024 0)) (Demo.one_parcel Demo.offline)
      = (Returned doc, Demo.one_parcel Demo.offline)
      ∧ doc !! "sender_name" = Some (VStr "Ada").
Proof.
  assert (Hfresh : no_match "tracking_code" (tracking_code_at (Demo.clock_2024 0))
                     (shipment Demo.empty_world)) by constructor.
  split; [exact parcel_is_valid|]. split; [exact Hfresh|].
  destruct (create_then_track (H := Demo.offline) Demo.parcel ∅ Demo.empty_world
              parcel_is_valid Hfresh)
    as (email & doc & _ & _ & Htrack & _ & _ & Hsender & _).
  exists doc. split; [exact Htrack|exact Hsender].
Defined.

Lemma update_then_track_witness :
  ∃ doc w',
    @update_shipment Demo.offline Demo.parcel_code Demo.in_transit ∅
      (Demo.one_parcel Demo.offline)
    = (Returned doc, w')
    ∧ public_track Demo.parcel_code w' = (Returned doc, w').
Proof.
  pose proof (update_shipment_found (H := Demo.offline) Demo.parcel_code Demo.in_transit ∅
                (Demo.one_parcel Demo.offline) 0 Run.stored_parcel parcel_is_first
                Logic.I) as Hrun.
  eexists _, _. split; [exact Hrun|].
  exact (update_then_track (H := Demo.offline) _ _ _ _ _ _ Hrun).
Defined.

Lemma upload_then_track_witness :
  first_match "tracking_code" Demo.parcel_code
    (shipment (Demo.one_parcel Demo.offline)) 0 Run.stored_parcel
  ∧ plain_file_name (Demo.parcel_code +:+ "-" +:+ "pod.png")
  ∧ (∃ doc,
      public_track Demo.parcel_code
        (upload_proof Demo.parcel_code "pod.png" [x00] ∅ (Demo.one_parcel Demo.offline)).2
      = (Returned doc,
         (upload_proof Demo.parcel_code "pod.png" [x00] ∅ (Demo.one_parcel Demo.offline)).2)
      ∧ doc !! "proof_of_delivery_url"
        = Some (VStr ("/" +:+ "logs/" +:+ Demo.parcel_code +:+ "-" +:+ "pod.png")))
  ∧ ∃ exception,
      upload_proof Demo.parcel_code "sub/pod.png" [x00] ∅ (Demo.one_parcel Demo.offline)
      = (Raised (Uncaught exception), Demo.one_parcel Demo.offline).
Proof.
  assert (Hplain : plain_file_name (Demo.parcel_code +:+ "-" +:+ "pod.png")).
  { split; [reflexivity|]. split; [reflexivity|]. vm_compute. lia. }
  split; [exact parcel_is_first|]. split; [exact Hplain|]. split.
  - destruct (proj1 (upload_then_track Demo.parcel_code "pod.png" [x00] ∅
                       (Demo.one_parcel Demo.offline) 0 Run.stored_parcel parcel_is_first)
                Hplain)
      as (doc & Htrack & _ & Hurl & _).
    exists doc. split; [exact Htrack|exact Hurl].
  - exact (proj1 (proj2 (upload_then_track Demo.parcel_code "sub/pod.png" [x00] ∅
                           (Demo.one_parcel Demo.offline) 0 Run.stored_parcel
                           parcel_is_first))
             (or_introl eq_refl)).
Defined.


Lemma tracking_code_repeats_witness :
  clock_reading_ok (Demo.clock_2024 0)
  ∧ clock_reading_ok Cases.later_reading
  ∧ Datetime.toordinal (Demo.clock_2024 0) = Datetime.toordinal Cases.later_reading
  ∧ Datetime.int_timestamp (Demo.clock_2024 0) mod 10000
    = Datetime.int_timestamp Cases.later_reading mod 10000
  ∧ tracking_code_at (Demo.clock_2024 0) = tracking_code_at Cases.later_reading.
Proof.
  assert (H1 : clock_reading_ok (Demo.clock_2024 0)) by (split; vm_compute; discriminate).
  assert (H2 : clock_reading_ok Cases.later_reading) by (split; vm_compute; discriminate).
  assert (Hday : Datetime.toordinal (Demo.clock_2024 0)
                 = Datetime.toordinal Cases.later_reading) by (vm_compute; reflexivity).
  assert (Hmod : Datetime.int_timestamp (Demo.clock_2024 0) mod 10000
                 = Datetime.int_timestamp Cases.later_reading mod 10000)
    by (vm_compute; reflexivity).
  split; [exact H1|]. split; [exact H2|]. split; [exact Hday|]. split; [exact Hmod|].
  exact (proj1 (tracking_code_repeats (Demo.clock_2024 0) Cases.later_reading H1 H2)
           Hday Hmod).
Defined.

Lemma receipt_overwrites_proof_named_qr_witness :
  first_match "tracking_code" Demo.parcel_code
    (shipment (Demo.one_parcel Demo.offline)) 0 Run.stored_parcel
  ∧ (files (@generate_receipt Cases.plain Demo.parcel_code
              (upload_proof Demo.parcel_code "qr.png" [x00] ∅
                 (Demo.one_parcel Demo.offline)).2).2)
      !! ("logs/" +:+ Demo.parcel_code +:+ "-qr.png")
    = Some (String.list_byte_of_string ("/track/" +:+ Demo.parcel_code)).
Proof.
  split; [exact parcel_is_first|].
  assert (Hpage : Forall (λ cmd, @fpdf_refuses Cases.plain cmd = None)
                    (@receipt_page Cases.plain Demo.parcel_code Run.stored_parcel
                       (String.list_byte_of_string ("/track/" +:+ Demo.parcel_code))))
    by (repeat constructor).
  exact (proj1 (proj2 (proj2 (receipt_overwrites_proof_named_qr (H := Cases.plain)
           Demo.parcel_code [x00] ∅ (Demo.one_parcel Demo.offline) 0 Run.stored_parcel
           (String.list_byte_of_string ("/track/" +:+ Demo.parcel_code))
           parcel_is_first eq_refl Hpage)))).
Defined.

Lemma update_request_validation_witness :
  @admin_dependency Demo.offline (Some Demo.admin_token) (Demo.one_parcel Demo.offline)
  = (Returned {["email" := VStr "admin@cargoconnect.com"]},
     with_ticks 4 (Demo.one_parcel Demo.offline))
  ∧ @handle Demo.offline (PATCH_shipments (Some Demo.admin_token) Demo.parcel_code Cases.lost)
      (Demo.one_parcel Demo.offline)
    = (Raised RequestValidationError, with_ticks 4 (Demo.one_parcel Demo.offline)).
Proof.
  assert (Hauth : @admin_dependency Demo.offline (Some Demo.admin_token)
                    (Demo.one_parcel Demo.offline)
                  = (Returned {["email" := VStr "admin@cargoconnect.com"]},
                     with_ticks 4 (Demo.one_parcel Demo.offline))) by reflexivity.
  split; [exact Hauth|].
  destruct (update_request_validation (H := Demo.offline) (Some Demo.admin_token)
              Demo.parcel_code Cases.lost (Demo.one_parcel Demo.offline) _ _ Hauth)
    as [Hrefused _].
  assert (Hnone : ∀ s, status_text s ≠ "Lost") by (intros []; discriminate).
  exact (proj1 (Hrefused "Lost" eq_refl Hnone)).
Defined.

Lemma serve_without_admin_witness :
  Forall (@never_accepted Demo.offline)
    [POST_shipments None Demo.parcel;
     GET_track Demo.parcel_code;
     POST_auth_login "mallory@example.org" "guess";
     POST_shipments_proof None Demo.parcel_code "pod.png" [x00]]
  ∧ same_but_ticks (Demo.one_parcel Demo.offline)
      (@serve Demo.offline
         [POST_shipments None Demo.parcel;
          GET_track Demo.parcel_code;
          POST_auth_login "mallory@example.org" "guess";
          POST_shipments_proof None Demo.parcel_code "pod.png" [x00]]
         (Demo.one_parcel Demo.offline)).
Proof.
  assert (Hnone : ∀ w admin w',
    @admin_dependency Demo.offline None w ≠ (Returned admin, w'))
    by (intros w admin w' Heq; discriminate Heq).
  assert (Hall : Forall (@never_accepted Demo.offline)
    [POST_shipments None Demo.parcel;
     GET_track Demo.parcel_code;
     POST_auth_login "mallory@example.org" "guess";
     POST_shipments_proof None Demo.parcel_code "pod.png" [x00]]).
  { repeat constructor; intros authorization Hroute; cbn in Hroute;
      try discriminate; injection Hroute as <-; exact Hnone. }
  split; [exact Hall|].
  exact (serve_without_admin (H := Demo.offline) _ (Demo.one_parcel Demo.offline) Hall).
Defined.

Lemma get_current_admin_spec_witness :
  @accepted_at Demo.offline Demo.admin_token (Demo.clock_2024 0)
  ∧ ¬ @accepted_at Demo.offline "forged" (Demo.clock_2024 0)
  ∧ @get_current_admin Demo.offline Demo.admin_token Demo.empty_world
    = (Returned {["email" := VStr "admin@cargoconnect.com"]}, with_ticks 1 Demo.empty_world)
  ∧ @get_current_admin Demo.offline "forged" Demo.empty_world
    = (Raised (HTTPException 401 "Could not validate credentials"),
       with_ticks 1 Demo.empty_world).
Proof.
  assert (Hyes : @accepted_at Demo.offline Demo.admin_token
                   (@clock Demo.offline (ticks Demo.empty_world)))
    by (eexists; split; reflexivity).
  assert (Hno : ¬ @accepted_at Demo.offline "forged"
                    (@clock Demo.offline (ticks Demo.empty_world)))
    by (intros (payload & Hdecode & _); discriminate Hdecode).
  split; [exact Hyes|]. split; [exact Hno|]. split.
  - exact (proj1 (get_current_admin_spec (H := Demo.offline) Demo.admin_token
                    Demo.empty_world) Hyes).
  - exact (proj1 (proj1 (proj2 (get_current_admin_spec (H := Demo.offline) "forged"
                                  Demo.empty_world)) Hno)).
Defined.

Lemma notify_receiver_spec_witness :
  first_match "tracking_code" Demo.parcel_code
    (shipment (Demo.one_parcel Demo.offline)) 0 Run.stored_parcel
  ∧ @transport_configured Demo.mail_up = true
  ∧ @headers_error Demo.mail_up (Run.stored_parcel !! "receiver_email")
      (notification_subject Demo.parcel_code Run.stored_parcel) = None
  ∧ (∃ w', @notify_receiver Demo.mail_up Demo.parcel_code ∅ (Demo.one_parcel Demo.offline)
           = (Returned {["sent" := VBool true]}, w')
           ∧ length (smtp_log w') = 1%nat)
  ∧ @notify_receiver Demo.mail_up "CC-19990101-0000" ∅ (Demo.one_parcel Demo.offline)
    = (Raised (HTTPException 404 "Shipment not found"), Demo.one_parcel Demo.offline).
Proof.
  assert (Hport : @int_text Demo.mail_up (@getenv_default Demo.mail_up "SMTP_PORT" "587")
                  = Some 587) by reflexivity.
  assert (Hon : @transport_configured Demo.mail_up = true) by reflexivity.
  assert (Htaken : @headers_error Demo.mail_up (Run.stored_parcel !! "receiver_email")
                     (notification_subject Demo.parcel_code Run.stored_parcel) = None)
    by (vm_compute; reflexivity).
  assert (Hstatus : rendered_as_is (Run.stored_parcel !! "status")) by exact Logic.I.
  assert (Hname : rendered_as_is (Run.stored_parcel !! "receiver_name")) by exact Logic.I.
  split; [exact parcel_is_first|]. split; [exact Hon|]. split; [exact Htaken|]. split.
  - destruct (proj2 (proj2 (notify_receiver_spec (H := Demo.mail_up)
                Demo.parcel_code ∅ (Demo.one_parcel Demo.offline)))
                0%nat Run.stored_parcel 587 parcel_is_first Hstatus Hname Hport Hon)
      as (Hsent & _).
    destruct (Hsent Htaken) as (Hrun & _).
    eexists. split; [exact Hrun|reflexivity].
  - exact (proj1 (notify_receiver_spec (H := Demo.mail_up) "CC-19990101-0000" ∅
                    (Demo.one_parcel Demo.offline)) nothing_else_stored).
Defined.

Lemma collection_grows_only_by_creation_witness :
  @valid_content Demo.offline Demo.parcel
  ∧ length (shipment (@run Demo.offline (Create Demo.parcel ∅) Demo.empty_world).2) = 1%nat
  ∧ length (shipment (@run Demo.offline (Create Demo.parcel_negative_weight ∅)
                        Demo.empty_world).2) = 0%nat.
Proof.
  split; [exact parcel_is_valid|]. split.
  - exact (proj1 (collection_grows_only_by_creation (H := Demo.offline)
                    (Create Demo.parcel ∅) Demo.empty_world)
             Demo.parcel ∅ eq_refl parcel_is_valid).
  - apply (proj1 (proj2 (collection_grows_only_by_creation (H := Demo.offline)
                           (Create Demo.parcel_negative_weight ∅) Demo.empty_world))).
    intros payload admin Heq (p & Hp). injection Heq as <- _. discriminate Hp.
Defined.

Lemma generate_receipt_spec_witness :
  first_match "tracking_code" Demo.parcel_code
    (shipment (Demo.one_parcel Demo.offline)) 0 Run.stored_parcel
  ∧ (∃ w', @generate_receipt Cases.plain Demo.parcel_code (Demo.one_parcel Demo.offline)
           = (Returned
                {| media_type := "application/pdf";
                   body := @fpdf_output Cases.plain
                             (@receipt_page Cases.plain Demo.parcel_code Run.stored_parcel
                                (String.list_byte_of_string
                                   ("/track/" +:+ Demo.parcel_code))) |},
              w')
           ∧ shipment w' = shipment (Demo.one_parcel Demo.offline))
  ∧ @generate_receipt Cases.plain "CC-19990101-0000" (Demo.one_parcel Demo.offline)
    = (Raised (HTTPException 404 "Shipment not found"), Demo.one_parcel Demo.offline).
Proof.
  assert (Hpage : Forall (λ cmd, @fpdf_refuses Cases.plain cmd = None)
                    (@receipt_page Cases.plain Demo.parcel_code Run.stored_parcel
                       (String.list_byte_of_string ("/track/" +:+ Demo.parcel_code))))
    by (repeat constructor).
  split; [exact parcel_is_first|]. split.
  - destruct (proj2 (generate_receipt_spec (H := Cases.plain) Demo.parcel_code
                       (Demo.one_parcel Demo.offline))
                0%nat Run.stored_parcel
                (String.list_byte_of_string ("/track/" +:+ Demo.parcel_code))
                parcel_is_first eq_refl Hpage) as (w' & Hrun & Hkept & _).
    exists w'. split; [exact Hrun|exact Hkept].
  - exact (proj1 (generate_receipt_spec (H := Cases.plain) "CC-19990101-0000"
                    (Demo.one_parcel Demo.offline)) nothing_else_stored).
Defined.

Lemma login_refusals_witness :
  "mallory@example.org" ≠ @ADMIN_EMAIL Demo.offline
  ∧ @pwd_verify Demo.offline "guess" (@ADMIN_HASH Demo.offline) = Answers false
  ∧ @login Demo.offline "mallory@example.org" "Admin@123" Demo.empty_world
    = @login Demo.offline (@ADMIN_EMAIL Demo.offline) "guess" Demo.empty_world.
Proof.
  assert (Hname : "mallory@example.org" ≠ @ADMIN_EMAIL Demo.offline) by discriminate.
  assert (Hsecret : @pwd_verify Demo.offline "guess" (@ADMIN_HASH Demo.offline)
                    = Answers false) by reflexivity.
  split; [exact Hname|]. split; [exact Hsecret|].
  exact (proj1 (login_refusals (H := Demo.offline)
                  "mallory@example.org" "Admin@123" "guess" Demo.empty_world
                  Hname Hsecret)).
Defined.
